(** * vibekit quality gates: a shallow embedding and its properties

    The development follows three scripts of the repository:

    - [skills/agentient-quality-assurance/scripts/quality_gate.py]
      (module [QualityGate]): the multi-tool violation aggregator with its
      decision cache;
    - [skills/agentient-quality-assurance/scripts/coverage_validator.py]
      (module [Coverage]): the coverage-threshold evaluator;
    - [skills/agentient-python-core/scripts/python_quality_gate.py]
      (module [PythonCore]): the single-tool Python gate.

    Conventions of the embedding.

    - A Python [str] is a [string]; one [ascii] stands for one character.
    - A decoded JSON document is a value of [json].  Python dictionaries keep
      insertion order, so an object is an association list; [dict_get] reads
      the first binding of a key.
    - A Python [int] is an integer [Z]; a [float] is a binary64 number, the
      primitive type [float] with the operations of the processor.  An
      instant of the clock is a rational.
    - A Python exception is a value of [exn]; code that may raise returns a
      [result].  [SystemExit] is not an [Exception], which is what makes
      [sys.exit] pass through the [except Exception] handlers.
    - The library functions [json.loads], [hashlib.sha256(...).hexdigest],
      [float] and [str] of an exception are parameters of the sections that
      use them; so are the file system, the environment and the outcome of
      running a command.
    - Paths are taken in the normal form [pathlib] prints them in. *)

From Stdlib Require Import ZArith QArith Qpower String Ascii List Bool Lia Lqa.
From Stdlib Require Import Permutation Sorted Floats.
From stdpp Require Import base option strings gmap.
Import ListNotations.

Set Warnings "-register-all".
Local Open Scope string_scope.
Local Open Scope list_scope.

(** ** Python values *)

Inductive json : Type :=
| JNull
| JBool (b : bool)
| JInt (n : Z)
| JFloat (x : float)
| JStr (s : string)
| JArr (items : list json)
| JObj (fields : list (string * json)).

Inductive exn : Type :=
| JSONDecodeError
| AttributeError
| TypeError
| ValueError
| OverflowError
| OSError
| FileNotFoundError
| TimeoutExpired
| SystemExit (code : Z).

(** [except Exception] catches everything but [SystemExit]. *)
Definition is_Exception (e : exn) : bool :=
  match e with
  | SystemExit _ => false
  | _ => true
  end.

Inductive result (A : Type) : Type :=
| Ok (a : A)
| Raise (e : exn).

Arguments Ok {A} a.
Arguments Raise {A} e.

Definition rbind {A B} (r : result A) (k : A -> result B) : result B :=
  match r with
  | Ok a => k a
  | Raise e => Raise e
  end.

#[global] Instance result_ret : MRet result := fun A a => Ok a.
#[global] Instance result_bind : MBind result := fun A B k r => rbind r k.

(** [for x in xs: body] where the body may raise. *)
Fixpoint rmap {A B} (f : A -> result B) (xs : list A) : result (list B) :=
  match xs with
  | [] => Ok []
  | x :: xs' =>
      match f x with
      | Ok y =>
          match rmap f xs' with
          | Ok ys => Ok (y :: ys)
          | Raise e => Raise e
          end
      | Raise e => Raise e
      end
  end.

(** ** Dictionaries and dynamic typing *)

Fixpoint assoc (k : string) (fields : list (string * json)) : option json :=
  match fields with
  | [] => None
  | (k', v) :: rest => if String.eqb k k' then Some v else assoc k rest
  end.

(** [d.get(k, default)]; on anything but a dictionary the attribute [get]
    does not exist. *)
Definition dict_get (d : json) (k : string) (default : json) : result json :=
  match d with
  | JObj fields =>
      match assoc k fields with
      | Some v => Ok v
      | None => Ok default
      end
  | _ => Raise AttributeError
  end.

(** Truth value of a Python object in [if x:]. *)
Definition truthy (v : json) : bool :=
  match v with
  | JNull => false
  | JBool b => b
  | JInt n => negb (n =? 0)%Z
  | JFloat x => negb (PrimFloat.eqb x 0)
  | JStr s => negb (String.eqb s "")
  | JArr items => match items with [] => false | _ => true end
  | JObj fields => match fields with [] => false | _ => true end
  end.

Definition Qltb (a b : Q) : bool := negb (Qle_bool b a).

(** ** Numbers

    [json.load] yields an [int] for a literal without fraction and exponent
    and a [float] for every other number, [NaN] and [Infinity] included.
    [bool] is a subclass of [int]. *)
Inductive number : Type :=
| Int (n : Z)
| Float (x : float).

Definition as_num (v : json) : option number :=
  match v with
  | JInt n => Some (Int n)
  | JFloat x => Some (Float x)
  | JBool true => Some (Int 1)
  | JBool false => Some (Int 0)
  | _ => None
  end.

Definition of_num (a : number) : json :=
  match a with
  | Int n => JInt n
  | Float x => JFloat x
  end.

(** What a number stands for: a rational or an infinity.  NaN stands for
    nothing. *)
Inductive xnum : Type :=
| NegInf
| Finite (q : Q)
| PosInf.

Definition float_value (x : float) : option xnum :=
  match Prim2SF x with
  | S754_zero _ => Some (Finite 0)
  | S754_infinity s => Some (if s then NegInf else PosInf)
  | S754_nan => None
  | S754_finite s m e => Some (Finite (inject_Z (cond_Zopp s (Z.pos m)) * 2 ^ e))
  end.

Definition num_value (a : number) : option xnum :=
  match a with
  | Int n => Some (Finite (inject_Z n))
  | Float x => float_value x
  end.

Definition xnum_ltb (a b : xnum) : bool :=
  match a, b with
  | NegInf, NegInf => false
  | NegInf, _ => true
  | Finite _, NegInf => false
  | Finite p, Finite q => Qltb p q
  | Finite _, PosInf => true
  | PosInf, _ => false
  end.

Definition xnum_eqb (a b : xnum) : bool :=
  match a, b with
  | NegInf, NegInf => true
  | Finite p, Finite q => Qeq_bool p q
  | PosInf, PosInf => true
  | _, _ => false
  end.

(** [a < b], [a <= b] and [a == b] on numbers.  Two floats compare as the
    processor compares them and an [int] compares with a [float] without
    being converted, which both is the comparison of what they stand for; a
    comparison with NaN is false. *)
Definition num_ltb (a b : number) : bool :=
  match num_value a, num_value b with
  | Some x, Some y => xnum_ltb x y
  | _, _ => false
  end.

Definition num_leb (a b : number) : bool :=
  match num_value a, num_value b with
  | Some x, Some y => negb (xnum_ltb y x)
  | _, _ => false
  end.

Definition num_eqb (a b : number) : bool :=
  match num_value a, num_value b with
  | Some x, Some y => xnum_eqb x y
  | _, _ => false
  end.

(** [v < n], [v >= n] and [v > n] for a number [n]: a value that is no
    number does not compare with one. *)
Definition py_lt (v : json) (n : number) : result bool :=
  match as_num v with
  | Some a => Ok (num_ltb a n)
  | None => Raise TypeError
  end.

Definition py_ge (v : json) (n : number) : result bool :=
  match as_num v with
  | Some a => Ok (num_leb n a)
  | None => Raise TypeError
  end.

Definition py_gt (v : json) (n : number) : result bool :=
  match as_num v with
  | Some a => Ok (num_ltb n a)
  | None => Raise TypeError
  end.

(** [a < b] on the keys of a sort that are numbers. *)
Definition key_ltb (a b : json) : bool :=
  match as_num a, as_num b with
  | Some x, Some y => num_ltb x y
  | _, _ => false
  end.

(** [float(n)] for an [int]: the nearest binary64 number, ties to even, and
    [OverflowError] when that is beyond the largest one. *)
Definition float_of_int (n : Z) : result float :=
  match binary_normalize prec emax n 0 false with
  | S754_infinity _ => Raise OverflowError
  | x => Ok (SF2Prim x)
  end.

Definition to_float (a : number) : result float :=
  match a with
  | Int n => float_of_int n
  | Float x => Ok x
  end.

(** [a + b] on numbers: exact on two [int]s; otherwise the [int] operand is
    converted and the floats are added. *)
Definition num_add (a b : number) : result number :=
  match a, b with
  | Int m, Int n => Ok (Int (m + n))
  | _, _ =>
      x ← to_float a;
      y ← to_float b;
      Ok (Float (x + y))
  end.

(** [a + b]: numbers add, strings and lists concatenate. *)
Definition py_add (a b : json) : result json :=
  match as_num a, as_num b with
  | Some x, Some y =>
      sum ← num_add x y;
      Ok (of_num sum)
  | _, _ =>
      match a, b with
      | JStr s, JStr t => Ok (JStr (s +:+ t))
      | JArr s, JArr t => Ok (JArr (s ++ t))
      | _, _ => Raise TypeError
      end
  end.

(** [v / 4]: true division.  The quotient of an [int] is rounded once, from
    the exact quotient. *)
Definition py_div_4 (v : json) : result json :=
  match as_num v with
  | Some (Int n) =>
      match binary_normalize prec emax n (-2) false with
      | S754_infinity _ => Raise OverflowError
      | x => Ok (JFloat (SF2Prim x))
      end
  | Some (Float x) => Ok (JFloat (x / 4))
  | None => Raise TypeError
  end.

(** [x - v] for a float [x]. *)
Definition py_rsub (x : float) (v : json) : result float :=
  match as_num v with
  | Some a =>
      y ← to_float a;
      Ok (x - y)%float
  | None => Raise TypeError
  end.

(** ** Strings *)

Definition str_take (n : nat) (s : string) : string := String.substring 0 n s.

Definition startswith (s p : string) : bool := String.prefix p s.

Definition endswith (s p : string) : bool :=
  let n := String.length s in
  let m := String.length p in
  (m <=? n)%nat && String.eqb (String.substring (n - m) m s) p.

(** [s.split(c)] for a one-character separator: never empty. *)
Fixpoint split_on (c : ascii) (s : string) : list string :=
  match s with
  | EmptyString => [EmptyString]
  | String a rest =>
      if Ascii.eqb a c then EmptyString :: split_on c rest
      else
        match split_on c rest with
        | [] => [String a EmptyString]
        | w :: ws => String a w :: ws
        end
  end.

(** [s.rfind(c)] for a one-character needle, as an index from the left. *)
Fixpoint rfind_from (c : ascii) (s : string) (i : nat) (last : option nat)
  : option nat :=
  match s with
  | EmptyString => last
  | String a rest =>
      rfind_from c rest (S i) (if Ascii.eqb a c then Some i else last)
  end.

Definition rfind (c : ascii) (s : string) : option nat := rfind_from c s 0 None.

(** [needle in s]. *)
Fixpoint contains (needle s : string) : bool :=
  String.prefix needle s ||
  match s with
  | EmptyString => false
  | String _ rest => contains needle rest
  end.

(** [for x in v]: a list yields its items, a dictionary its keys, a string
    its characters; nothing else is iterable. *)
Definition py_iter (v : json) : result (list json) :=
  match v with
  | JArr items => Ok items
  | JObj fields => Ok (List.map (fun kv => JStr (fst kv)) fields)
  | JStr s =>
      Ok (List.map (fun c => JStr (String c EmptyString)) (list_ascii_of_string s))
  | _ => Raise TypeError
  end.

(** [v.startswith(p)]: only a string has the method. *)
Definition py_startswith (v : json) (p : string) : result bool :=
  match v with
  | JStr s => Ok (startswith s p)
  | _ => Raise AttributeError
  end.

(** [v == n] for an [int] [n] *)
Definition py_eq_num (v : json) (n : Z) : bool :=
  match as_num v with
  | Some a => num_eqb a (Int n)
  | None => false
  end.

(** [s.lower()] on ASCII letters. *)
Definition lower_ascii (c : ascii) : ascii :=
  let n := nat_of_ascii c in
  if (65 <=? n)%nat && (n <=? 90)%nat then ascii_of_nat (n + 32) else c.

Fixpoint str_lower (s : string) : string :=
  match s with
  | EmptyString => EmptyString
  | String c rest => String (lower_ascii c) (str_lower rest)
  end.

(** The characters [str.strip] removes: those up to code 255 for which
    [str.isspace] holds. *)
Definition is_space (c : ascii) : bool :=
  let n := nat_of_ascii c in
  ((9 <=? n)%nat && (n <=? 13)%nat) || ((28 <=? n)%nat && (n <=? 32)%nat)
  || (n =? 133)%nat || (n =? 160)%nat.

Fixpoint lstrip (s : string) : string :=
  match s with
  | EmptyString => EmptyString
  | String c rest => if is_space c then lstrip rest else s
  end.

(** [s.rstrip()]: a character stays when something that is not a space
    follows it or it is not a space itself. *)
Fixpoint rstrip (s : string) : string :=
  match s with
  | EmptyString => EmptyString
  | String c rest =>
      match rstrip rest with
      | EmptyString => if is_space c then EmptyString else String c EmptyString
      | rest' => String c rest'
      end
  end.

Definition str_strip (s : string) : string := rstrip (lstrip s).

(** [s.replace(old, new)] for a non-empty [old]: occurrences are replaced
    from the left and do not overlap; [skip] counts the characters of an
    occurrence still to be dropped. *)
Fixpoint replace_from (old new : string) (skip : nat) (s : string) : string :=
  match s with
  | EmptyString => EmptyString
  | String c rest =>
      match skip with
      | S k => replace_from old new k rest
      | O =>
          if String.prefix old s
          then new +:+ replace_from old new (String.length old - 1) rest
          else String c (replace_from old new 0 rest)
      end
  end.

Definition str_replace (old new s : string) : string := replace_from old new 0 s.

(** [s.split(c, n)]: at most [n] cuts. *)
Fixpoint split_max (c : ascii) (s : string) (n : nat) : list string :=
  match s with
  | EmptyString => [EmptyString]
  | String a rest =>
      match n with
      | O => [s]
      | S n' =>
          if Ascii.eqb a c then EmptyString :: split_max c rest n'
          else
            match split_max c rest n with
            | [] => [String a EmptyString]
            | w :: ws => String a w :: ws
            end
      end
  end.

(** [s[a:b]] and [s[a:]] for indices that are not negative. *)
Definition slice (a b : nat) (s : string) : string := String.substring a (b - a) s.

Definition slice_from (a : nat) (s : string) : string :=
  String.substring a (String.length s - a) s.

Definition is_decimal (c : ascii) : bool :=
  let n := nat_of_ascii c in (48 <=? n)%nat && (n <=? 57)%nat.

(** [s.isdigit()]: up to code 255 the superscripts one, two and three are
    digits too, although [int] rejects them. *)
Definition is_digit_char (c : ascii) : bool :=
  let n := nat_of_ascii c in
  is_decimal c || (n =? 178)%nat || (n =? 179)%nat || (n =? 185)%nat.

Fixpoint all_chars (p : ascii -> bool) (s : string) : bool :=
  match s with
  | EmptyString => true
  | String c rest => p c && all_chars p rest
  end.

Definition py_isdigit (s : string) : bool :=
  negb (String.eqb s "") && all_chars is_digit_char s.

(** The digits of an [int] literal: single underscores may separate digits. *)
Fixpoint digits_value (acc : Z) (after_digit : bool) (s : string) : option Z :=
  match s with
  | EmptyString => if after_digit then Some acc else None
  | String c rest =>
      if is_decimal c
      then digits_value (10 * acc + Z.of_nat (nat_of_ascii c - 48)) true rest
      else if Ascii.eqb c "_" && after_digit then digits_value acc false rest
      else None
  end.

(** The number of decimal digits in a text; signs, underscores and white
    space do not count, leading zeros do. *)
Fixpoint count_decimals (s : string) : nat :=
  match s with
  | EmptyString => O
  | String c rest => if is_decimal c then S (count_decimals rest) else count_decimals rest
  end.

(** [sys.int_info.default_max_str_digits]: the interpreter converts no
    decimal text with more digits than this to an [int]. *)
Definition max_str_digits : Z := 4300.

(** [int(s)]: [None] stands for [ValueError], which is raised for a text
    that is no literal and for a literal of more than [max_str_digits]
    digits. *)
Definition py_int (s : string) : option Z :=
  let literal :=
    match str_strip s with
    | String "+" rest => digits_value 0 false rest
    | String "-" rest => option_map Z.opp (digits_value 0 false rest)
    | t => digits_value 0 false t
    end in
  match literal with
  | Some n => if (Z.of_nat (count_decimals s) <=? max_str_digits)%Z then Some n else None
  | None => None
  end.

(** [Path(s).name] on a POSIX system: the last component of the path, where
    empty components and [.] do not count. *)
Definition path_parts (s : string) : list string :=
  List.filter (fun p => negb (String.eqb p "" || String.eqb p "."))
              (split_on "/" s).

Definition path_name (s : string) : string := List.last (path_parts s) "".

(** The root of a POSIX path: exactly two leading slashes are kept, any
    other number of them is one. *)
Definition path_root (s : string) : string :=
  match s with
  | String "/" (String "/" (String "/" _)) => "/"
  | String "/" (String "/" _) => "//"
  | String "/" _ => "/"
  | _ => ""
  end.

(** [str(Path(s))]: the root and the components, joined by single slashes;
    the path without root and components prints as [.]. *)
Definition path_str (s : string) : string :=
  match path_root s, path_parts s with
  | EmptyString, [] => "."
  | root, parts => root +:+ String.concat "/" parts
  end.

(** [posixpath.join(a, b)] *)
Definition posix_join (a b : string) : string :=
  if startswith b "/" then b
  else if String.eqb a "" || endswith a "/" then a +:+ b
  else a +:+ "/" +:+ b.

(** [str(Path(a) / b)] *)
Definition path_join (a b : string) : string := path_str (posix_join a b).

(** [Path(s).suffix]: the part of the name from its last dot, when that dot
    is neither the first nor the last character of the name. *)
Definition path_suffix (s : string) : string :=
  let name := path_name s in
  match rfind "." name with
  | Some i =>
      if (0 <? i)%nat && (i <? String.length name - 1)%nat
      then String.substring i (String.length name - i) name
      else ""
  | None => ""
  end.

(** ** A stable sort by key

    [list.sort(key=...)] and [sorted] are stable; with a total order on the
    keys the result of a stable sort is unique, so insertion from the right
    describes it.  [ltb] is the comparison [<] of the keys. *)
Section StableSort.
Context {A K : Type} (ltb : K -> K -> bool) (key : A -> K).

Fixpoint insert_by (x : A) (l : list A) : list A :=
  match l with
  | [] => [x]
  | y :: l' => if ltb (key y) (key x) then y :: insert_by x l' else x :: l
  end.

Fixpoint sort_by (l : list A) : list A :=
  match l with
  | [] => []
  | x :: l' => insert_by x (sort_by l')
  end.
End StableSort.

(** ** Text with formatted values

    An f-string is a list of fragments: the literal pieces and the values
    formatted into it, kept as values. *)
Inductive frag : Type :=
| Txt (s : string)
| F1 (x : float)       (* f"{x:.1f}" *)
| FStr (v : json)      (* f"{v}", that is str(v) *)
| FInt (n : Z)         (* f"{n}" for an int *)
| FExn (e : exn)       (* f"{e}" for a caught exception *)
| FDumps (v : json)    (* json.dumps(v, indent=2) *)
| FTraceback (e : exn). (* what traceback.print_exc writes *)

Definition text := list frag.

(** ["\n".join(lines)] *)
Fixpoint join_lines (lines : list text) : text :=
  match lines with
  | [] => []
  | [l] => l
  | l :: rest => l ++ Txt "
" :: join_lines rest
  end.

(** [format(v, ".1f")]: a float is printed, an [int] (and a boolean) is
    converted first; a string rejects the format code, anything else has no
    such format. *)
Definition fmt1f (v : json) : result frag :=
  match v with
  | JStr _ => Raise ValueError
  | _ => match as_num v with
         | Some a =>
             x ← to_float a;
             Ok (F1 x)
         | None => Raise TypeError
         end
  end.

(** What a process leaves behind. *)
Record Process := {
  exit_code : Z;
  stdout : list text;
  stderr : list text;
}.

(** What [subprocess.run(..., capture_output=True, text=True)] returns. *)
Record CompletedProcess := {
  returncode : Z;
  proc_stdout : string;
  proc_stderr : string;
}.

(** The file system as the process sees it at one moment. *)
Inductive fs_node : Type :=
| Readable (content : string)
| Unreadable.

(** * The coverage evaluator ([coverage_validator.py]) *)
Module Coverage.

Record CoverageReport := {
  total_percent : json;
  statement_percent : json;
  branch_percent : json;
  function_percent : json;
  line_percent : json;
  uncovered_files : list (string * json);
}.

Record CoverageValidator := {
  backend_threshold : float;
  frontend_threshold : float;
}.

(** The key [lambda x: x[1]] of the sort.  Every entry of [uncovered] was
    found below the threshold, so its key is a number and not NaN, and
    [key_ltb] orders such keys. *)
Definition pct_key (entry : string * json) : json := snd entry.

Definition search_paths : list string :=
  [ "coverage/coverage.json";
    "coverage/coverage-summary.json";
    "coverage.json";
    "coverage-summary.json";
    "coverage/lcov.info";
    "lcov.info" ].

Definition detect_report_type (report_path : string) : option string :=
  let name := path_name report_path in
  if String.eqb name "coverage.json" then Some "coverage.py"
  else if String.eqb name "coverage-summary.json" then Some "jest"
  else if endswith name ".info" || String.eqb name "lcov.info" then Some "lcov"
  else None.

Section Evaluator.
(** [json.loads]: the document a text decodes to, if it is JSON. *)
Variable json_loads : string -> option json.
(** [float]: the number a text denotes, if it denotes one ([nan] and [inf]
    are texts that do). *)
Variable float_of_str : string -> option float.

Variable fs : string -> option fs_node.

Definition path_exists (p : string) : bool :=
  match fs p with Some _ => true | None => false end.

(** [with open(p) as f: data = json.load(f)] *)
Definition load_json_file (p : string) : result json :=
  match fs p with
  | None => Raise FileNotFoundError
  | Some Unreadable => Raise OSError
  | Some (Readable content) =>
      match json_loads content with
      | Some data => Ok data
      | None => Raise JSONDecodeError
      end
  end.

(** [d.items()] *)
Definition dict_items (d : json) : result (list (string * json)) :=
  match d with
  | JObj fields => Ok fields
  | _ => Raise AttributeError
  end.

(** The loop that collects the files below the threshold: [percent_of]
    reads the percentage of one entry, [skip] is the [continue] guard. *)
Fixpoint collect_uncovered (percent_of : json -> result json)
         (skip : string -> bool) (threshold : float)
         (items : list (string * json)) : result (list (string * json)) :=
  match items with
  | [] => Ok []
  | (file_path, file_data) :: rest =>
      if skip file_path then collect_uncovered percent_of skip threshold rest
      else
        file_percent ← percent_of file_data;
        is_below ← py_lt file_percent (Float threshold);
        uncovered ← collect_uncovered percent_of skip threshold rest;
        Ok (if is_below : bool then (file_path, file_percent) :: uncovered
            else uncovered)
  end.

Definition py_file_percent (file_data : json) : result json :=
  summary ← dict_get file_data "summary" (JObj []);
  dict_get summary "percent_covered" (JFloat 0).

Definition parse_coverage_py_report (self : CoverageValidator)
           (report_path : string) : result CoverageReport :=
  data ← load_json_file report_path;
  totals ← dict_get data "totals" (JObj []);
  total_percent ← dict_get totals "percent_covered" (JFloat 0);
  files ← dict_get data "files" (JObj []);
  items ← dict_items files;
  uncovered ← collect_uncovered py_file_percent (fun _ => false)
                (backend_threshold self) items;
  let uncovered := sort_by key_ltb pct_key uncovered in
  statement ← dict_get totals "percent_covered" (JFloat 0);
  branch ← dict_get totals "percent_covered_branches" (JFloat 0);
  line ← dict_get totals "percent_covered" (JFloat 0);
  Ok {| total_percent := total_percent;
        statement_percent := statement;
        branch_percent := branch;
        function_percent := JFloat 0;
        line_percent := line;
        uncovered_files := uncovered |}.

(** [totals.get(metric, {}).get('pct', 0.0)] *)
Definition metric_pct (totals : json) (metric : string) : result json :=
  m ← dict_get totals metric (JObj []);
  dict_get m "pct" (JFloat 0).

Definition jest_file_percent (file_data : json) : result json :=
  metric_pct file_data "lines".

Definition parse_jest_report (self : CoverageValidator)
           (report_path : string) : result CoverageReport :=
  data ← load_json_file report_path;
  totals ← dict_get data "total" (JObj []);
  statement_pct ← metric_pct totals "statements";
  branch_pct ← metric_pct totals "branches";
  function_pct ← metric_pct totals "functions";
  line_pct ← metric_pct totals "lines";
  sum ← py_add statement_pct branch_pct;
  sum ← py_add sum function_pct;
  sum ← py_add sum line_pct;
  total_percent ← py_div_4 sum;
  items ← dict_items data;
  uncovered ← collect_uncovered jest_file_percent
                (fun file_path => String.eqb file_path "total")
                (frontend_threshold self) items;
  let uncovered := sort_by key_ltb pct_key uncovered in
  Ok {| total_percent := total_percent;
        statement_percent := statement_pct;
        branch_percent := branch_pct;
        function_percent := function_pct;
        line_percent := line_pct;
        uncovered_files := uncovered |}.

Definition find_coverage_report : option string :=
  List.find path_exists search_paths.

(** The line [Gap: ...] of the failure message. *)
Definition gap_line (gap : float) : text :=
  [Txt "   Gap: "; F1 gap; Txt "% additional coverage needed"].

(** The payload written to the diagnostic channel on failure. *)
Definition stderr_data (report : CoverageReport) (threshold gap : float) : json :=
  JObj [ ("coverage_percent", total_percent report);
         ("threshold", JFloat threshold);
         ("gap", JFloat gap);
         ("uncovered_files",
           JArr (List.map
                   (fun '(f, pct) => JObj [("file", JStr f); ("coverage", pct)])
                   (List.firstn 10 (uncovered_files report)))) ].

(** [if report.function_percent > 0: ... f"{report.function_percent:.1f}"] *)
Definition function_line (report : CoverageReport) (label tail : string)
  : result (list text) :=
  tracked ← py_gt (function_percent report) (Int 0);
  if tracked : bool then
    x ← fmt1f (function_percent report);
    Ok [[Txt label; x; Txt tail]]
  else Ok [].

(** [validate_coverage] from the comment [# Check threshold] on: the
    decision on a parsed report.  The result is the returned pair and what
    was printed on the diagnostic channel. *)
Definition check_threshold (report : CoverageReport) (threshold : float)
           (stack : string) : result (bool * text * list text) :=
  passed ← py_ge (total_percent report) (Float threshold);
  if passed : bool then
    t ← fmt1f (total_percent report);
    st ← fmt1f (statement_percent report);
    br ← fmt1f (branch_percent report);
    fn ← function_line report "   Function: " "%
";
    Ok (true,
        [Txt "✅ Coverage: "; t; Txt "% (threshold: "; FStr (JFloat threshold);
         Txt "%)
"] ++
        [Txt "   Stack: "; Txt stack; Txt "
"] ++
        [Txt "   Statement: "; st; Txt "%
"] ++
        [Txt "   Branch: "; br; Txt "%
"] ++
        List.concat fn,
        [])
  else
    gap ← py_rsub threshold (total_percent report);
    t ← fmt1f (total_percent report);
    st ← fmt1f (statement_percent report);
    br ← fmt1f (branch_percent report);
    let message_lines :=
      [ [Txt "❌ COVERAGE_FAILURE: "; t; Txt "% < "; FStr (JFloat threshold);
         Txt "%"];
        [Txt "   Stack: "; Txt stack];
        gap_line gap;
        [];
        [Txt "   Breakdown:"];
        [Txt "     Statement: "; st; Txt "%"];
        [Txt "     Branch: "; br; Txt "%"] ] in
    fn ← function_line report "     Function: " "%";
    let message_lines := message_lines ++ fn in
    files ←
      match uncovered_files report with
      | [] => Ok []
      | _ =>
          rows ← rmap (fun '(file_path, file_pct) =>
                         x ← fmt1f file_pct;
                         Ok [Txt "     "; Txt file_path; Txt ": "; x; Txt "%"])
                      (List.firstn 5 (uncovered_files report));
          Ok ([ [];
                [Txt "   Top ";
                 FInt (Z.min 5 (Z.of_nat (List.length (uncovered_files report))));
                 Txt " files needing coverage:"] ] ++ rows)
      end;
    let message_lines := message_lines ++ files in
    Ok (false, join_lines message_lines,
        [[FDumps (stderr_data report threshold gap)]]).

Definition validate_coverage (self : CoverageValidator) (report_path : string)
  : result (bool * text * list text) :=
  match detect_report_type report_path with
  | None =>
      Ok (true,
          [Txt "⚠️  Unknown coverage report format: ";
           Txt (path_name report_path)], [])
  | Some report_type =>
      let parsed : result (option (CoverageReport * float * string)) :=
        if String.eqb report_type "coverage.py" then
          report ← parse_coverage_py_report self report_path;
          Ok (Some (report, backend_threshold self, "Backend (Python)"))
        else if String.eqb report_type "jest" then
          report ← parse_jest_report self report_path;
          Ok (Some (report, frontend_threshold self, "Frontend (JS/TS)"))
        else Ok None in
      match parsed with
      | Ok None => Ok (true, [Txt "⚠️  LCOV format not yet supported"], [])
      | Ok (Some (report, threshold, stack)) =>
          check_threshold report threshold stack
      | Raise e =>
          if is_Exception e
          then Ok (true, [Txt "⚠️  Failed to parse coverage report: "; FExn e],
                   [])
          else Raise e
      end
  end.

Definition no_report_warning : list text :=
  [ [Txt "⚠️  No coverage report found. Skipping coverage validation."];
    [Txt "   Expected locations: coverage/coverage.json, coverage-summary.json"] ].

Definition run (self : CoverageValidator) (report_path : option string)
  : result Process :=
  let report_path :=
    match report_path with
    | None => find_coverage_report
    | Some p => Some p
    end in
  match report_path with
  | None => Ok {| exit_code := 0; stdout := no_report_warning; stderr := [] |}
  | Some p =>
      if negb (path_exists p)
      then Ok {| exit_code := 0; stdout := no_report_warning; stderr := [] |}
      else
        '(passed, message, err) ← validate_coverage self p;
        Ok {| exit_code := if passed : bool then 0 else 2;
              stdout := [message];
              stderr := err |}
  end.

(** The environment of one invocation. *)
Variable getenv : string -> option string.

(** [float(os.getenv(name, default))], where the default texts are ['80']
    and ['70']. *)
Definition env_float (name : string) (default : float) : result float :=
  match getenv name with
  | None => Ok default
  | Some s =>
      match float_of_str s with
      | Some x => Ok x
      | None => Raise ValueError
      end
  end.

Definition init : result CoverageValidator :=
  b ← env_float "BACKEND_COVERAGE_THRESHOLD" 80;
  f ← env_float "FRONTEND_COVERAGE_THRESHOLD" 70;
  Ok {| backend_threshold := b; frontend_threshold := f |}.

(** The first lines of [main]: the report path from the environment,
    overridden by the first argument; an empty text counts as none. *)
Definition requested_report_path (argv : list string) : option string :=
  let report_path_str := getenv "COVERAGE_REPORT_PATH" in
  let report_path_str :=
    match argv with
    | _ :: a :: _ => Some a
    | _ => report_path_str
    end in
  match report_path_str with
  | Some s => if truthy (JStr s) then Some s else None
  | None => None
  end.

(** [main]: every path ends in [sys.exit]; the handler of [Exception]
    exits 0. *)
Definition main (argv : list string) : Process :=
  let body : result Process :=
    let report_path := requested_report_path argv in
    validator ← init;
    run validator report_path in
  match body with
  | Ok p => p
  | Raise e =>
      if is_Exception e
      then {| exit_code := 0;
              stdout := [];
              stderr := [ [Txt "❌ Coverage validation error: "; FExn e];
                          [FTraceback e] ] |}
      else {| exit_code := match e with SystemExit c => c | _ => 1 end;
              stdout := []; stderr := [] |}
  end.
End Evaluator.

End Coverage.

(** * The violation aggregator ([quality_gate.py]) *)
Module QualityGate.

Record Violation := {
  file : json;
  line : json;
  column : json;
  rule : json;
  message : json;
  severity : string;
  tool : string;
}.

(** [dataclasses.asdict] *)
Definition asdict (v : Violation) : json :=
  JObj [ ("file", file v); ("line", line v); ("column", column v);
         ("rule", rule v); ("message", message v);
         ("severity", JStr (severity v)); ("tool", JStr (tool v)) ].

(** A violation the gate makes up itself: no position. *)
Definition synthetic (file_path rule message severity tool : string) : Violation :=
  {| file := JStr file_path; line := JInt 0; column := JInt 0;
     rule := JStr rule; message := JStr message;
     severity := severity; tool := tool |}.

(** The surroundings of one call: the files, and for every command line what
    running it yields ([Raise FileNotFoundError] when the executable is
    missing, [Raise TimeoutExpired] when it exceeds its budget) and how long
    that takes. *)
Record World := {
  fs : string -> option fs_node;
  subprocess_run : list string -> result CompletedProcess;
  duration : list string -> Q;
}.

(** The state of the process: the class-level [_cache], the clock that
    [time.time] reads, the command lines run so far and the two output
    channels. *)
Record State := {
  cache : gmap string (Q * list Violation);
  clock : Q;
  invoked : list (list string);
  out : list text;
  err : list text;
}.

Definition CACHE_TTL : Q := 1800.

Definition LANGUAGE_MAP : list (string * string) :=
  [ (".py", "python"); (".ts", "typescript"); (".tsx", "typescript");
    (".js", "javascript"); (".jsx", "javascript") ].

(** The command lines of the five tool runs. *)
Definition ruff_check_cmd (file_path : string) : list string :=
  ["ruff"; "check"; "--output-format=json"; file_path].
Definition ruff_format_cmd (file_path : string) : list string :=
  ["ruff"; "format"; "--check"; file_path].
Definition mypy_cmd (file_path : string) : list string :=
  ["mypy"; "--show-column-numbers"; "--show-error-codes"; file_path].
Definition eslint_cmd (file_path : string) : list string :=
  ["eslint"; "--format=json"; file_path].
Definition tsc_cmd (file_path : string) : list string :=
  ["tsc"; "--noEmit"; "--pretty"; "false"; file_path].

Definition M (A : Type) : Type := State -> result A * State.

#[global] Instance M_ret : MRet M := fun A a st => (Ok a, st).
#[global] Instance M_bind : MBind M := fun A B k m st =>
  match m st with
  | (Ok a, st') => k a st'
  | (Raise e, st') => (Raise e, st')
  end.

Definition lift {A} (r : result A) : M A := fun st => (r, st).

(** [try: body except ...: handler]; [handler e = None] when no clause
    matches [e]. *)
Definition try_except {A} (body : M A) (handler : exn -> option (M A)) : M A :=
  fun st =>
    match body st with
    | (Ok a, st') => (Ok a, st')
    | (Raise e, st') =>
        match handler e with
        | Some h => h st'
        | None => (Raise e, st')
        end
    end.

Definition time_time : M Q := fun st => (Ok (clock st), st).

Definition print (t : text) : M unit := fun st =>
  (Ok tt, {| cache := cache st; clock := clock st; invoked := invoked st;
             out := out st ++ [t]; err := err st |}).

Definition eprint (t : text) : M unit := fun st =>
  (Ok tt, {| cache := cache st; clock := clock st; invoked := invoked st;
             out := out st; err := err st ++ [t] |}).

(** [_cache.get(key)] and [_cache[key] = entry] *)
Definition cache_lookup (key : string) : M (option (Q * list Violation)) :=
  fun st => (Ok (cache st !! key), st).

Definition cache_store (key : string) (entry : Q * list Violation) : M unit :=
  fun st =>
    (Ok tt, {| cache := <[key := entry]> (cache st); clock := clock st;
               invoked := invoked st; out := out st; err := err st |}).

(** One line of mypy's output, [path:line:col: error: text [code]]: the
    violation it yields, or nothing when the line is not an error line or a
    number in it does not parse. *)
Definition mypy_line (file_path line : string) : list Violation :=
  if contains ":" line && contains "error:" line then
    match split_max ":" line 3 with
    | [_; p1; p2; p3] =>
        match py_int p1 with
        | None => []
        | Some line_num =>
            match (if py_isdigit (str_strip p2) then py_int p2 else Some 0%Z) with
            | None => []
            | Some col_num =>
                let message_part := str_strip p3 in
                let '(code, message_part) :=
                  match rfind "[" message_part, rfind "]" message_part with
                  | Some i, Some j =>
                      (slice (i + 1) j message_part,
                       str_strip (str_take i message_part))
                  | _, _ => ("TYPE", message_part)
                  end in
                [ {| file := JStr file_path;
                     line := JInt line_num;
                     column := JInt col_num;
                     rule := JStr code;
                     message := JStr (str_strip (str_replace "error:" "" message_part));
                     severity := "ERROR";
                     tool := "mypy" |} ]
            end
        end
    | _ => []
    end
  else [].

Definition parse_mypy_output (file_path stdout : string) : list Violation :=
  List.flat_map (mypy_line file_path) (split_on "010" (str_strip stdout)).

(** One line of tsc's output, [path(line,col): error TSxxxx: text]. *)
Definition tsc_line (line : string) : list Violation :=
  if contains "(" line && contains ")" line && contains "error TS" line then
    match split_max "(" line 1 with
    | [file_part; rest] =>
        match split_max ")" rest 1 with
        | [pos_part; msg_part] =>
            match split_on "," pos_part with
            | [line_num; col_num] =>
                if contains "error TS" msg_part then
                  match String.index 0 "TS" msg_part with
                  | Some ts =>
                      let colon := String.index ts ":" msg_part in
                      let error_code :=
                        match colon with
                        | Some c => slice ts c msg_part
                        | None => slice ts (String.length msg_part - 1) msg_part
                        end in
                      let message :=
                        match colon with
                        | Some c => str_strip (slice_from (c + 1) msg_part)
                        | None => str_strip msg_part
                        end in
                      match py_int line_num, py_int col_num with
                      | Some l, Some c =>
                          [ {| file := JStr (str_strip file_part);
                               line := JInt l;
                               column := JInt c;
                               rule := JStr error_code;
                               message := JStr message;
                               severity := "ERROR";
                               tool := "tsc" |} ]
                      | _, _ => []
                      end
                  | None => []
                  end
                else []
            | _ => []
            end
        | _ => []
        end
    | _ => []
    end
  else [].

Definition parse_tsc_output (stdout : string) : list Violation :=
  List.flat_map tsc_line (split_on "010" (str_strip stdout)).

Section Gate.
(** [json.loads] *)
Variable json_loads : string -> option json.
(** [hashlib.sha256(content).hexdigest()] *)
Variable sha256_hexdigest : string -> string.

Variable w : World.

Definition detect_language (file_path : string) : option string :=
  option_map snd
    (List.find (fun kv => String.eqb (fst kv) (path_suffix file_path)) LANGUAGE_MAP).

Definition path_exists (file_path : string) : bool :=
  match fs w file_path with Some _ => true | None => false end.

Definition get_file_hash (file_path : string) : string :=
  match fs w file_path with
  | Some (Readable content) => sha256_hexdigest content
  | _ => ""
  end.

Definition check_cache (file_path : string) : M (option (list Violation)) :=
  let file_hash := get_file_hash file_path in
  if negb (truthy (JStr file_hash)) then mret None
  else
    let cache_key := file_path in
    entry ← cache_lookup cache_key;
    match entry with
    | Some (cached_time, cached_violations) =>
        now ← time_time;
        if Qltb (now - cached_time) CACHE_TTL
        then mret (Some cached_violations)
        else mret None
    | None => mret None
    end.

Definition update_cache (file_path : string) (violations : list Violation)
  : M unit :=
  let cache_key := file_path in
  now ← time_time;
  cache_store cache_key (now, violations).

(** The state after [subprocess.run(cmd, ...)]: the command line is
    recorded and the clock has moved on, whatever the outcome. *)
Definition ran (cmd : list string) (st : State) : State :=
  {| cache := cache st; clock := (clock st + duration w cmd)%Q;
     invoked := invoked st ++ [cmd]; out := out st; err := err st |}.

Definition run_tool (cmd : list string) : M CompletedProcess := fun st =>
  (subprocess_run w cmd, ran cmd st).

(** One finding of ruff's JSON array. *)
Definition ruff_violation (file_path : string) (item : json) : result Violation :=
  filename ← dict_get item "filename" (JStr file_path);
  location ← dict_get item "location" (JObj []);
  row ← dict_get location "row" (JInt 0);
  location ← dict_get item "location" (JObj []);
  col ← dict_get location "column" (JInt 0);
  code ← dict_get item "code" (JStr "UNKNOWN");
  msg ← dict_get item "message" (JStr "");
  code' ← dict_get item "code" (JStr "");
  is_error ← py_startswith code' "E";
  Ok {| file := filename; line := row; column := col; rule := code;
        message := msg;
        severity := if is_error : bool then "ERROR" else "WARNING";
        tool := "ruff" |}.

(** The JSON-array parser: what the body of [if result.stdout:] appends for
    ruff.  Output that is not JSON is passed over. *)
Definition parse_ruff_output (file_path stdout : string) : result (list Violation) :=
  if truthy (JStr stdout) then
    match json_loads stdout with
    | Some ruff_output =>
        items ← py_iter ruff_output;
        rmap (ruff_violation file_path) items
    | None => Ok []
    end
  else Ok [].

Definition ruff_check (file_path : string) : M (list Violation) :=
  try_except
    (result ← run_tool (ruff_check_cmd file_path);
     lift (parse_ruff_output file_path (proc_stdout result)))
    (fun e =>
       match e with
       | TimeoutExpired =>
           Some (mret [synthetic file_path "TIMEOUT"
                         "Ruff check timed out after 30 seconds" "ERROR" "ruff"])
       | FileNotFoundError =>
           Some (mret [synthetic file_path "MISSING_TOOL"
                         "Ruff not installed. Install with: pip install ruff"
                         "ERROR" "ruff"])
       | _ => None
       end).

Definition ruff_format (file_path : string) : M (list Violation) :=
  try_except
    (result ← run_tool (ruff_format_cmd file_path);
     if negb (returncode result =? 0)%Z
     then mret [synthetic file_path "FORMAT"
                  "File is not formatted. Run: ruff format" "WARNING" "ruff"]
     else mret [])
    (fun e =>
       match e with
       | TimeoutExpired | FileNotFoundError => Some (mret [])
       | _ => None
       end).

Definition mypy_check (file_path : string) : M (list Violation) :=
  try_except
    (result ← run_tool (mypy_cmd file_path);
     if negb (returncode result =? 0)%Z && truthy (JStr (proc_stdout result))
     then mret (parse_mypy_output file_path (proc_stdout result))
     else mret [])
    (fun e =>
       match e with
       | TimeoutExpired =>
           Some (mret [synthetic file_path "TIMEOUT"
                         "mypy check timed out after 45 seconds" "WARNING" "mypy"])
       | FileNotFoundError => Some (mret [])
       | _ => None
       end).

Definition run_python_checks (file_path : string) : M (list Violation) :=
  lint ← ruff_check file_path;
  format ← ruff_format file_path;
  types ← mypy_check file_path;
  mret (lint ++ format ++ types).

(** One message of one file result of ESLint. *)
Definition eslint_violation (file_path : string) (file_result message : json)
  : result Violation :=
  file_name ← dict_get file_result "filePath" (JStr file_path);
  row ← dict_get message "line" (JInt 0);
  col ← dict_get message "column" (JInt 0);
  rule_id ← dict_get message "ruleId" (JStr "UNKNOWN");
  msg ← dict_get message "message" (JStr "");
  sev ← dict_get message "severity" (JInt 1);
  Ok {| file := file_name; line := row; column := col; rule := rule_id;
        message := msg;
        severity := if py_eq_num sev 2 then "ERROR" else "WARNING";
        tool := "eslint" |}.

Definition eslint_file_result (file_path : string) (file_result : json)
  : result (list Violation) :=
  messages ← dict_get file_result "messages" (JArr []);
  messages ← py_iter messages;
  rmap (eslint_violation file_path file_result) messages.

Definition parse_eslint_output (file_path stdout : string)
  : result (list Violation) :=
  if truthy (JStr stdout) then
    match json_loads stdout with
    | Some eslint_output =>
        file_results ← py_iter eslint_output;
        per_file ← rmap (eslint_file_result file_path) file_results;
        Ok (List.concat per_file)
    | None => Ok []
    end
  else Ok [].

Definition eslint_check (file_path : string) : M (list Violation) :=
  try_except
    (result ← run_tool (eslint_cmd file_path);
     lift (parse_eslint_output file_path (proc_stdout result)))
    (fun e =>
       match e with
       | TimeoutExpired =>
           Some (mret [synthetic file_path "TIMEOUT"
                         "ESLint check timed out after 30 seconds" "ERROR"
                         "eslint"])
       | FileNotFoundError =>
           Some (mret [synthetic file_path "MISSING_TOOL"
                         "ESLint not installed. Install with: npm install eslint"
                         "ERROR" "eslint"])
       | _ => None
       end).

Definition tsc_check (file_path : string) : M (list Violation) :=
  try_except
    (result ← run_tool (tsc_cmd file_path);
     if negb (returncode result =? 0)%Z && truthy (JStr (proc_stdout result))
     then mret (parse_tsc_output (proc_stdout result))
     else mret [])
    (fun e =>
       match e with
       | TimeoutExpired =>
           Some (mret [synthetic file_path "TIMEOUT"
                         "TypeScript check timed out after 45 seconds" "WARNING"
                         "tsc"])
       | FileNotFoundError => Some (mret [])
       | _ => None
       end).

Definition run_typescript_checks (file_path : string) : M (list Violation) :=
  lint ← eslint_check file_path;
  types ←
    (if String.eqb (path_suffix file_path) ".ts"
        || String.eqb (path_suffix file_path) ".tsx"
     then tsc_check file_path
     else mret []);
  mret (lint ++ types).

(** An instance of the class: its list [violations]. *)
Record Gate := { violations : list Violation }.

Definition extend (self : Gate) (vs : list Violation) : Gate :=
  {| violations := violations self ++ vs |}.

Definition is_empty (vs : list Violation) : bool :=
  match vs with [] => true | _ => false end.

Definition validate_file (self : Gate) (file_path : string) : M (bool * Gate) :=
  if negb (path_exists file_path) then
    _ ← eprint [Txt "⚠️  File not found: "; Txt file_path];
    mret (true, self)
  else
    cached_violations ← check_cache file_path;
    match cached_violations with
    | Some cached_violations =>
        mret (is_empty cached_violations, extend self cached_violations)
    | None =>
        match detect_language file_path with
        | None => mret (true, self)
        | Some language =>
            file_violations ←
              (if String.eqb language "python"
               then run_python_checks file_path
               else run_typescript_checks file_path);
            _ ← update_cache file_path file_violations;
            mret (is_empty file_violations, extend self file_violations)
        end
    end.

(** [by_tool.setdefault(v.tool, []).append(v)] over an ordered dictionary. *)
Fixpoint group_append (by_tool : list (string * list Violation)) (v : Violation)
  : list (string * list Violation) :=
  match by_tool with
  | [] => [(tool v, [v])]
  | (t, vs) :: rest =>
      if String.eqb t (tool v) then (t, vs ++ [v]) :: rest
      else (t, vs) :: group_append rest v
  end.

Definition count (p : Violation -> bool) (vs : list Violation) : Z :=
  Z.of_nat (List.length (List.filter p vs)).

Definition format_output (self : Gate) : text * text :=
  match violations self with
  | [] => ([Txt "✅ Quality gate passed: No violations found"], [])
  | _ =>
      let errors := count (fun v => String.eqb (severity v) "ERROR") (violations self) in
      let warnings := count (fun v => String.eqb (severity v) "WARNING") (violations self) in
      let stdout_lines :=
        [ [Txt "❌ QUALITY_GATE_FAILURE: ";
           FInt (Z.of_nat (List.length (violations self)));
           Txt " violation(s) found"];
          [Txt "   Errors: "; FInt errors];
          [Txt "   Warnings: "; FInt warnings];
          [] ] in
      let by_tool := List.fold_left group_append (violations self) [] in
      let tool_lines :=
        List.map (fun '(tool, tool_violations) =>
                    [Txt "   "; Txt tool; Txt ": ";
                     FInt (Z.of_nat (List.length tool_violations));
                     Txt " issue(s)"])
                 (sort_by String.ltb fst by_tool) in
      (join_lines (stdout_lines ++ tool_lines),
       [FDumps (JArr (List.map asdict (violations self)))])
  end.

Definition run (self : Gate) (file_path : string) : M (Z * Gate) :=
  '(passed, self) ← validate_file self file_path;
  let '(stdout_msg, stderr_json) := format_output self in
  _ ← print stdout_msg;
  _ ← match stderr_json with
      | [] => mret tt
      | _ => eprint stderr_json
      end;
  mret ((if passed : bool then 0 else 2)%Z, self).

Definition sys_exit {A} (code : Z) : M A := lift (Raise (SystemExit code)).

(** [if len(sys.argv) < 2: usage, exit 1], else [Path(sys.argv[1])] *)
Definition argv_path (argv : list string) : M string :=
  match argv with
  | _ :: a :: _ => mret a
  | _ =>
      _ ← eprint [Txt "Usage: quality_gate.py <file_path>"];
      sys_exit 1
  end.

(** [Path(v)] accepts a string only. *)
Definition py_Path (v : json) : result string :=
  match v with
  | JStr s => Ok s
  | _ => Raise TypeError
  end.

(** The request on the input channel: [None] when the channel is a
    terminal, otherwise the text on it. *)
Definition main_body (stdin : option string) (argv : list string) : M unit :=
  file_path ←
    match stdin with
    | Some input =>
        try_except
          (data ← lift (match json_loads input with
                        | Some data => Ok data
                        | None => Raise JSONDecodeError
                        end);
           tool_input ← lift (dict_get data "tool_input" (JObj []));
           file_path_str ← lift (dict_get tool_input "file_path" JNull);
           file_path_str ←
             (if negb (truthy file_path_str)
              then tool_input ← lift (dict_get data "tool_input" (JObj []));
                   lift (dict_get tool_input "file_path" JNull)
              else mret file_path_str);
           if truthy file_path_str
           then lift (py_Path file_path_str)
           else _ ← eprint [Txt "⚠️  No file_path in stdin data"];
                sys_exit 0)
          (fun e =>
             match e with
             | JSONDecodeError => Some (argv_path argv)
             | _ => None
             end)
    | None => argv_path argv
    end;
  let gate := {| violations := [] |} in
  '(exit_code, _) ← run gate file_path;
  sys_exit exit_code.

Definition initial_state (now : Q) : State :=
  {| cache := ∅; clock := now; invoked := []; out := []; err := [] |}.

(** [main] in a fresh process started at time [now]: the exit code and the
    final state. *)
Definition main (stdin : option string) (argv : list string) (now : Q)
  : Z * State :=
  match main_body stdin argv (initial_state now) with
  | (Ok _, st) => (0%Z, st)
  | (Raise (SystemExit code), st) => (code, st)
  | (Raise e, st) =>
      (1%Z, {| cache := cache st; clock := clock st; invoked := invoked st;
               out := out st;
               err := err st ++ [ [Txt "❌ Quality gate error: "; FExn e];
                                  [FTraceback e] ] |})
  end.
End Gate.

End QualityGate.

(** * The single-tool Python gate ([python_quality_gate.py]) *)
Module PythonCore.

Definition RUFF_CHECK_CMD : list string := ["ruff"; "check"; "--format=json"].
Definition RUFF_FORMAT_CMD : list string := ["ruff"; "format"; "--check"].
Definition MYPY_CMD : list string := ["mypy"; "--strict"; "--no-error-summary"].

Section Gate.
(** [json.loads] *)
Variable json_loads : string -> option json.

Variable getenv : string -> option string.
Variable fs : string -> option fs_node.
(** [subprocess.run(cmd, cwd=PROJECT_ROOT, ...)] *)
Variable subprocess_run : list string -> result CompletedProcess.

(** [Path(os.environ.get("CLAUDE_PROJECT_DIR", "."))], as [str] prints it. *)
Definition PROJECT_ROOT : string :=
  path_str (match getenv "CLAUDE_PROJECT_DIR" with
            | Some d => d
            | None => "."
            end).

Definition sys_exit {A} (code : Z) : result A := Raise (SystemExit code).

Definition read_stdin_json (stdin : string) : result json :=
  match json_loads stdin with
  | Some data => Ok data
  | None => sys_exit 0
  end.

Definition get_file_path (data : json) : result (option string) :=
  tool_input ← dict_get data "tool_input" (JObj []);
  file_path_str ← dict_get tool_input "file_path" JNull;
  if negb (truthy file_path_str) then Ok None
  else
    match file_path_str with
    | JStr file_path_str =>
        if negb (endswith file_path_str ".py") then Ok None
        else
          let file_path := path_join PROJECT_ROOT file_path_str in
          match fs file_path with
          | None => Ok None
          | Some _ => Ok (Some file_path)
          end
    | _ => Raise AttributeError
    end.

(** [str(e)] for the exception of a failed run. *)
Variable exn_str : exn -> string.

(** The triple [(exit_code, stdout, stderr)]; every exception of the run
    becomes exit code 1 with a message. *)
Definition run_command (cmd : list string) (file_path : string)
  : Z * string * string :=
  match subprocess_run (cmd ++ [file_path]) with
  | Ok result => (returncode result, proc_stdout result, proc_stderr result)
  | Raise TimeoutExpired => (1%Z, "", "Command timed out after 30 seconds")
  | Raise FileNotFoundError => (1%Z, "", "Command not found: " +:+ List.hd "" cmd)
  | Raise e => (1%Z, "", "Error running command: " +:+ exn_str e)
  end.

Definition finding_line (finding : json) : result text :=
  code ← dict_get finding "code" (JStr "???");
  message ← dict_get finding "message" (JStr "Unknown error");
  location ← dict_get finding "location" (JObj []);
  row ← dict_get location "row" (JStr "?");
  col ← dict_get location "column" (JStr "?");
  Ok [Txt "  Line "; FStr row; Txt ":"; FStr col; Txt " - ["; FStr code;
      Txt "] "; FStr message].

Definition check_ruff_linting (file_path : string) : result (list text) :=
  let '(returncode, stdout, stderr) := run_command RUFF_CHECK_CMD file_path in
  if negb (returncode =? 0)%Z && truthy (JStr stdout) then
    match json_loads stdout with
    | Some findings =>
        if truthy findings then
          items ← py_iter findings;
          rmap finding_line items
        else Ok []
    | None =>
        Ok [[Txt "  Failed to parse Ruff output: "; Txt (str_take 200 stdout)]]
    end
  else Ok [].

Definition check_ruff_formatting (file_path : string) : option text :=
  let '(returncode, stdout, stderr) := run_command RUFF_FORMAT_CMD file_path in
  if negb (returncode =? 0)%Z
  then Some [Txt "  File is not formatted correctly. Run 'ruff format <file>' to fix."]
  else None.

Definition check_mypy_types (file_path : string) : list text :=
  let '(returncode, stdout, stderr) := run_command MYPY_CMD file_path in
  if negb (returncode =? 0)%Z then
    let output := stdout +:+ stderr in
    let errors :=
      List.map
        (fun line => [Txt "  "; Txt (str_replace (file_path +:+ ":") "Line " line)])
        (List.filter (fun line => contains "error:" (str_lower line))
                     (split_on "010" (str_strip output))) in
    match errors with
    | [] => [[Txt "  mypy check failed (exit code "; FInt returncode; Txt ")"]]
    | _ => errors
    end
  else [].

(** [fail(message)] *)
Definition fail (message : text) : Process :=
  {| exit_code := 2; stdout := []; stderr := [message] |}.

Definition run_quality_checks (file_path : string) : result Process :=
  lint_errors ← check_ruff_linting file_path;
  let errors :=
    match lint_errors with
    | [] => []
    | _ => [Txt "❌ RUFF LINTING ERRORS:"] :: lint_errors
    end in
  let errors :=
    match check_ruff_formatting file_path with
    | Some format_error => errors ++ [[Txt "❌ RUFF FORMATTING ERROR:"]; format_error]
    | None => errors
    end in
  let type_errors := check_mypy_types file_path in
  let errors :=
    match type_errors with
    | [] => errors
    | _ => errors ++ [Txt "❌ MYPY TYPE CHECKING ERRORS:"] :: type_errors
    end in
  match errors with
  | [] => Ok {| exit_code := 0; stdout := []; stderr := [] |}
  | _ =>
      Ok (fail
            ([Txt "CODE_QUALITY_FAILURE: The Python file '";
              Txt (path_name file_path);
              Txt "' failed quality checks.

"] ++ join_lines errors ++
             [Txt "

Please fix these issues before proceeding:
  1. Run 'ruff check --fix <file>' to auto-fix linting issues
  2. Run 'ruff format <file>' to fix formatting
  3. Add missing type annotations for mypy errors
"]))
  end.

(** [main]; an exception nobody catches ends the process with a traceback
    and exit code 1. *)
Definition main (stdin : string) : Process :=
  let body : result Process :=
    data ← read_stdin_json stdin;
    file_path ← get_file_path data;
    match file_path with
    | None => sys_exit 0
    | Some file_path => run_quality_checks file_path
    end in
  match body with
  | Ok p => p
  | Raise (SystemExit code) => {| exit_code := code; stdout := []; stderr := [] |}
  | Raise e => {| exit_code := 1; stdout := []; stderr := [[FTraceback e]] |}
  end.
End Gate.

End PythonCore.

(** * Vocabulary of the statements *)

(** A finite description of [json.loads] and of a file system, for concrete
    scenarios: the listed texts decode to the listed documents and nothing
    else is JSON; the listed paths exist and no others. *)
Definition loads_table (docs : list (string * json)) : string -> option json :=
  fun s => assoc s docs.

Fixpoint fs_table (files : list (string * fs_node)) (p : string) : option fs_node :=
  match files with
  | [] => None
  | (q, node) :: rest => if String.eqb p q then Some node else fs_table rest p
  end.

(** What a value stands for when it is a number and not NaN. *)
Definition json_value (v : json) : option xnum :=
  match as_num v with
  | Some a => num_value a
  | None => None
  end.

Definition xnum_le (a b : xnum) : Prop := xnum_ltb b a = false.

Section SortVocabulary.
Context {A : Type} (key : A -> json).

(** Both keys stand for something, and the first for no more than the
    second. *)
Definition key_le (a b : A) : Prop :=
  match json_value (key a), json_value (key b) with
  | Some x, Some y => xnum_le x y
  | _, _ => False
  end.

Definition key_is (q : xnum) (a : A) : bool :=
  match json_value (key a) with
  | Some x => xnum_eqb x q
  | None => false
  end.

(** The key is a number and not NaN. *)
Definition valued (a : A) : Prop := json_value (key a) <> None.
End SortVocabulary.

(** A value that [format(v, ".1f")] prints: a [float], or an [int] in the
    range of the floats. *)
Definition numeric (v : json) : Prop :=
  exists a x, as_num v = Some a /\ to_float a = Ok x.

(** A float that is a number. *)
Definition not_nan (x : float) : Prop := float_value x <> None.

(** A float that stands for a number that is not negative. *)
Definition non_negative (x : float) : Prop :=
  exists v, float_value x = Some v /\ xnum_le (Finite 0) v.

(** The second half of [binary_round_aux]: the rounded mantissa is brought
    back to 53 digits. *)
Definition round_tail (s : bool) (m e : Z) : spec_float :=
  let '(mrs, e') := shr_fexp prec emax m e loc_Exact in
  match shr_m mrs with
  | Z0 => S754_zero s
  | Z.pos m' => if (e' <=? emax - prec)%Z then S754_finite s m' e' else S754_infinity s
  | Z.neg _ => S754_nan
  end.

Module CoverageSpec.
Import Coverage.

(** The two schemas that are parsed. *)
Inductive origin := Backend | Frontend.

Definition report_tag (o : origin) : string :=
  match o with Backend => "coverage.py" | Frontend => "jest" end.

(** What a document holds under a key: [default] when the key is absent,
    nothing when the document is no object. *)
Definition member (k : string) (default : json) (d : json) : json :=
  match d with
  | JObj fields =>
      match assoc k fields with
      | Some v => v
      | None => default
      end
  | _ => JNull
  end.

(** The per-file part of a report, in the order of the document.  The
    backend schema keeps it under [files]; in the frontend schema the files
    are the keys of the document itself, next to [total]. *)
Definition file_documents (o : origin) (data : json) : list (string * json) :=
  match o with
  | Backend =>
      match member "files" (JObj []) data with
      | JObj items => items
      | _ => []
      end
  | Frontend =>
      match data with
      | JObj items =>
          List.filter (fun kv => negb (String.eqb (fst kv) "total")) items
      | _ => []
      end
  end.

(** The percentage of one file: [summary.percent_covered] in the backend
    schema, the line coverage [lines.pct] in the frontend schema, and 0.0
    where the document does not say. *)
Definition file_percentage (o : origin) (file_data : json) : json :=
  match o with
  | Backend => member "percent_covered" (JFloat 0) (member "summary" (JObj []) file_data)
  | Frontend => member "pct" (JFloat 0) (member "lines" (JObj []) file_data)
  end.

(** The per-file entries of a report: each path with its percentage. *)
Definition entries_of (o : origin) (data : json) : list (string * json) :=
  List.map (fun '(path, file_data) => (path, file_percentage o file_data))
           (file_documents o data).

(** The percentage of the entry is a number, and what it stands for is
    strictly below what the threshold stands for. *)
Definition below (thr : float) (e : string * json) : bool :=
  match json_value (snd e), float_value thr with
  | Some x, Some t => xnum_ltb x t
  | _, _ => false
  end.

(** [total >= threshold], said of what the two stand for. *)
Definition at_least (total : number) (thr : float) : Prop :=
  exists x t, num_value total = Some x /\ float_value thr = Some t /\ xnum_le t x.

(** The mean of four floats in binary64 arithmetic: the sum from left to
    right, then the division, each operation rounded to nearest. *)
Definition float_mean (s b f l : float) : float := ((s + b + f + l) / 4)%float.

(** The mean of four integers: the exact quotient, rounded to nearest
    once. *)
Definition int_mean (s b f l : Z) : float :=
  SF2Prim (binary_normalize prec emax (s + b + f + l) (-2) false).

(** The mean of four rationals. *)
Definition exact_mean (s b f l : Q) : Q := ((s + b + f + l) / 4)%Q.

Section Origin.
Variable json_loads : string -> option json.
Variable fs : string -> option fs_node.

Definition parse_report (o : origin) (self : CoverageValidator) (p : string) :=
  match o with
  | Backend => parse_coverage_py_report json_loads fs self p
  | Frontend => parse_jest_report json_loads fs self p
  end.

Definition threshold_for (o : origin) (self : CoverageValidator) : float :=
  match o with
  | Backend => backend_threshold self
  | Frontend => frontend_threshold self
  end.

End Origin.

(** The percentages the evaluator prints are numbers that [format] prints:
    floats, as the annotations of the dataclass say, or integers in the
    range of the floats. *)
Definition report_typed (r : CoverageReport) : Prop :=
  numeric (total_percent r) /\ numeric (statement_percent r) /\
  numeric (branch_percent r) /\ numeric (function_percent r) /\
  Forall (fun e : string * json => numeric (snd e)) (uncovered_files r).

(** The report [run] works on: the explicit path, else the first candidate
    that exists. *)
Definition located (fs : string -> option fs_node) (report_path : option string)
           (p : string) : Prop :=
  match report_path with
  | Some q => q = p
  | None => find_coverage_report fs = Some p
  end.

Inductive no_usable_report (json_loads : string -> option json)
          (fs : string -> option fs_node) (self : CoverageValidator)
          (report_path : option string) : Prop :=
| none_discovered :
    report_path = None -> find_coverage_report fs = None ->
    no_usable_report json_loads fs self report_path
| path_missing p :
    report_path = Some p -> path_exists fs p = false ->
    no_usable_report json_loads fs self report_path
| format_unsupported p :
    located fs report_path p -> path_exists fs p = true ->
    (forall o, detect_report_type p <> Some (report_tag o)) ->
    no_usable_report json_loads fs self report_path
| parse_failure p o e :
    located fs report_path p -> path_exists fs p = true ->
    detect_report_type p = Some (report_tag o) ->
    parse_report json_loads fs o self p = Raise e ->
    no_usable_report json_loads fs self report_path.

Definition is_warning (t : text) : Prop :=
  exists s rest, t = Txt s :: rest /\ startswith s "⚠️" = true.


(** ** A concrete project

    A backend report at 75% with four files, two of them tied at 50%, and a
    frontend summary with the metrics 90, 80, 70 and 100. *)
Definition py_text : string := "<text of coverage/coverage.json>".
Definition jest_text : string := "<text of web/coverage-summary.json>".

Definition pct (x : float) : json := JObj [("pct", JFloat x)].

Definition py_document : json :=
  JObj [ ("totals", JObj [ ("percent_covered", JFloat 75);
                           ("percent_covered_branches", JFloat 60) ]);
         ("files",
           JObj [ ("app/a.py", JObj [("summary", JObj [("percent_covered", JFloat 50)])]);
                  ("app/b.py", JObj [("summary", JObj [("percent_covered", JFloat 90)])]);
                  ("app/c.py", JObj [("summary", JObj [("percent_covered", JFloat 50)])]);
                  ("app/d.py", JObj [("summary", JObj [("percent_covered", JFloat 79.5)])]) ]) ].

Definition jest_document : json :=
  JObj [ ("total", JObj [ ("statements", pct 90); ("branches", pct 80);
                          ("functions", pct 70); ("lines", pct 100) ]);
         ("src/a.ts", JObj [("lines", pct 50)]);
         ("src/b.ts", JObj [("lines", pct 95)]);
         ("src/c.ts", JObj [("lines", pct 20)]);
         ("src/d.ts", JObj [("lines", pct 50)]) ].

Definition demo_loads : string -> option json :=
  loads_table [(py_text, py_document); (jest_text, jest_document)].

Definition demo_fs : string -> option fs_node :=
  fs_table [ ("coverage/coverage.json", Readable py_text);
             ("web/coverage-summary.json", Readable jest_text);
             ("web/lcov.info", Readable "TN:");
             ("broken/coverage.json", Readable "{ totals: ") ].

Definition demo_validator : CoverageValidator :=
  {| backend_threshold := 80; frontend_threshold := 70 |}.

Definition empty_report : CoverageReport :=
  {| total_percent := JNull; statement_percent := JNull; branch_percent := JNull;
     function_percent := JNull; line_percent := JNull; uncovered_files := [] |}.

Definition demo_report (o : origin) (p : string) : CoverageReport :=
  match parse_report demo_loads demo_fs o demo_validator p with
  | Ok r => r
  | Raise _ => empty_report
  end.

Definition demo_py_report : CoverageReport :=
  Eval vm_compute in demo_report Backend "coverage/coverage.json".

Definition demo_jest_report : CoverageReport :=
  Eval vm_compute in demo_report Frontend "web/coverage-summary.json".

(** ** Reports whose numbers are less round

    A frontend summary with the metrics 60.3, 69.1, 86.7 and 63.9 (the
    floats that [json.load] reads for these literals), a backend report at
    10.1%, a backend report whose total is the literal [NaN], and one whose
    total is the integer literal of [-10**309], which is beyond the range
    of the floats. *)
Definition rounded_text : string := "<text of rounded/coverage-summary.json>".
Definition low_text : string := "<text of low/coverage.json>".
Definition nan_text : string := "<text of nan/coverage.json>".
Definition huge_text : string := "<text of huge/coverage.json>".

Definition rounded_document : json :=
  JObj [ ("total", JObj [ ("statements", pct 0x1.e266666666666p+5);
                          ("branches", pct 0x1.1466666666666p+6);
                          ("functions", pct 0x1.5accccccccccdp+6);
                          ("lines", pct 0x1.ff33333333333p+5) ]) ].

Definition low_document : json :=
  JObj [ ("totals", JObj [ ("percent_covered", JFloat 0x1.4333333333333p+3) ]) ].

Definition nan_document : json :=
  JObj [ ("totals", JObj [ ("percent_covered", JFloat nan) ]) ].

Definition huge_document : json :=
  JObj [ ("totals", JObj [ ("percent_covered", JInt (- 10 ^ 309)) ]) ].

Definition odd_loads : string -> option json :=
  loads_table [ (rounded_text, rounded_document); (low_text, low_document);
                (nan_text, nan_document); (huge_text, huge_document) ].

Definition odd_fs : string -> option fs_node :=
  fs_table [ ("rounded/coverage-summary.json", Readable rounded_text);
             ("low/coverage.json", Readable low_text);
             ("nan/coverage.json", Readable nan_text);
             ("huge/coverage.json", Readable huge_text) ].

Definition odd_report (p : string) : CoverageReport :=
  match parse_coverage_py_report odd_loads odd_fs demo_validator p with
  | Ok r => r
  | Raise _ => empty_report
  end.

End CoverageSpec.

Module QualityGateSpec.
Import QualityGate.

(** The rule code of a finding, when it is a string. *)
Definition code_of (item : json) : option string :=
  match item with
  | JObj fields =>
      match assoc "code" fields with
      | Some (JStr code) => Some code
      | _ => None
      end
  | _ => None
  end.

Definition begins_with_E (item : json) : bool :=
  match code_of item with
  | Some code => startswith code "E"
  | None => false
  end.

(** The five tool runs of the aggregator, the command line of each, and what
    the handlers of each make of a missing executable or a timeout: the rule
    and the severity of the violation appended, or nothing. *)
Inductive step := RuffCheck | RuffFormat | Mypy | ESLint | Tsc.

Definition step_cmd (s : step) (file_path : string) : list string :=
  match s with
  | RuffCheck => ruff_check_cmd file_path
  | RuffFormat => ruff_format_cmd file_path
  | Mypy => mypy_cmd file_path
  | ESLint => eslint_cmd file_path
  | Tsc => tsc_cmd file_path
  end.

Definition absorbed_as (s : step) (e : exn) : option (string * string) :=
  match s, e with
  | RuffCheck, TimeoutExpired | ESLint, TimeoutExpired => Some ("TIMEOUT", "ERROR")
  | RuffCheck, FileNotFoundError | ESLint, FileNotFoundError =>
      Some ("MISSING_TOOL", "ERROR")
  | Mypy, TimeoutExpired | Tsc, TimeoutExpired => Some ("TIMEOUT", "WARNING")
  | _, _ => None
  end.

Definition step_tool (s : step) : string :=
  match s with
  | RuffCheck | RuffFormat => "ruff"
  | Mypy => "mypy"
  | ESLint => "eslint"
  | Tsc => "tsc"
  end.

Section Steps.
Variable json_loads : string -> option json.
Variable w : World.

Definition step_run (s : step) : string -> M (list Violation) :=
  match s with
  | RuffCheck => ruff_check json_loads w
  | RuffFormat => ruff_format w
  | Mypy => mypy_check w
  | ESLint => eslint_check json_loads w
  | Tsc => tsc_check w
  end.

(** A run as the sequence of its steps: each step contributes its
    violations and the next one starts in the state it leaves. *)
Fixpoint run_steps (steps : list step) (file_path : string) : M (list Violation) :=
  match steps with
  | [] => mret []
  | s :: rest =>
      vs ← step_run s file_path;
      more ← run_steps rest file_path;
      mret (vs ++ more)
  end.

Definition python_steps : list step := [RuffCheck; RuffFormat; Mypy].

Definition typescript_steps (file_path : string) : list step :=
  if String.eqb (path_suffix file_path) ".ts"
     || String.eqb (path_suffix file_path) ".tsx"
  then [ESLint; Tsc] else [ESLint].
End Steps.

(** The invocation names [file_path] as the target of the run: as the first
    argument of the command line when the input channel is a terminal or
    carries no JSON, and as the non-empty string under
    [tool_input.file_path] of the request the channel carries otherwise. *)
Inductive names_target (json_loads : string -> option json)
          (stdin : option string) (argv : list string) (file_path : string) : Prop :=
| target_on_command_line prog rest :
    stdin = None \/ (exists s, stdin = Some s /\ json_loads s = None) ->
    argv = prog :: file_path :: rest ->
    names_target json_loads stdin argv file_path
| target_in_request s data tool_input :
    stdin = Some s -> json_loads s = Some data ->
    dict_get data "tool_input" (JObj []) = Ok tool_input ->
    dict_get tool_input "file_path" JNull = Ok (JStr file_path) ->
    file_path <> "" ->
    names_target json_loads stdin argv file_path.

(** How a process ends when an exception leaves [main]'s [try] block. *)
Definition exit_code_of (e : exn) : Z :=
  match e with
  | SystemExit code => code
  | _ => 1%Z
  end.

(** ** A concrete session

    [app.py] first imports a module it does not use; ruff reports two
    findings and mypy is not installed.  A minute later the file has been
    rewritten and every tool is content with it. *)
Definition demo_hexdigest (content : string) : string := "sha256:" +:+ content.

Definition completed (rc : Z) (out : string) : CompletedProcess :=
  {| returncode := rc; proc_stdout := out; proc_stderr := "" |}.

Definition f401 : json :=
  JObj [ ("code", JStr "F401"); ("message", JStr "os imported but unused");
         ("location", JObj [("row", JInt 1); ("column", JInt 8)]);
         ("filename", JStr "app.py") ].

Definition e501 : json :=
  JObj [ ("code", JStr "E501"); ("message", JStr "line too long");
         ("location", JObj [("row", JInt 3); ("column", JInt 89)]);
         ("filename", JStr "app.py") ].

Definition ruff_text : string := "<ruff findings for app.py>".

Definition gate_loads : string -> option json :=
  loads_table [(ruff_text, JArr [f401; e501])].

Definition is_cmd (cmd : list string) (tool sub : string) : bool :=
  String.eqb (List.hd "" cmd) tool && String.eqb (List.hd "" (List.tl cmd)) sub.

Definition world_before : World :=
  {| fs := fs_table [("app.py", Readable "import os")];
     subprocess_run := fun cmd =>
       if is_cmd cmd "ruff" "check" then Ok (completed 1 ruff_text)
       else if String.eqb (List.hd "" cmd) "mypy" then Raise FileNotFoundError
       else Ok (completed 0 "");
     duration := fun _ => 2%Q |}.

Definition world_after : World :=
  {| fs := fs_table [("app.py", Readable "print(1)")];
     subprocess_run := fun cmd =>
       if String.eqb (List.hd "" cmd) "mypy" then Raise FileNotFoundError
       else Ok (completed 0 "");
     duration := fun _ => 2%Q |}.

Definition fresh : Gate := {| violations := [] |}.

Definition later (dt : Q) (st : State) : State :=
  {| cache := cache st; clock := (clock st + dt)%Q; invoked := invoked st;
     out := out st; err := err st |}.

Definition world_slow : World :=
  {| fs := fs_table [("app.ts", Readable "let x = 1")];
     subprocess_run := fun _ => Raise TimeoutExpired;
     duration := fun _ => 45%Q |}.

Definition first_state : State :=
  snd (validate_file gate_loads demo_hexdigest world_before
                     fresh "app.py" (initial_state 1000)).

Definition second_state : State := later 60 first_state.

Definition stale_violations : list Violation :=
  Eval vm_compute in
    match cache first_state !! "app.py" with
    | Some (_, vs) => vs
    | None => []
    end.

Definition ruff_crash : CompletedProcess :=
  {| returncode := 2; proc_stdout := "";
     proc_stderr := "error: unexpected argument" |}.

End QualityGateSpec.

(** * Vocabulary of the further properties *)

(** ** Strings *)

(** The character [c] does not occur in [s]. *)
Definition lacks (c : ascii) (s : string) : bool :=
  all_chars (fun a => negb (Ascii.eqb a c)) s.

(** A non-empty run of the digits 0 to 9, and the number it denotes. *)
Definition is_numeral (s : string) : bool :=
  negb (String.eqb s "") && all_chars is_decimal s.

Fixpoint decimal_value (acc : Z) (s : string) : Z :=
  match s with
  | EmptyString => acc
  | String c rest => decimal_value (10 * acc + Z.of_nat (nat_of_ascii c - 48)) rest
  end.

(** A text that [int] is willing to convert: at most [max_str_digits]
    characters. *)
Definition convertible (s : string) : Prop :=
  (Z.of_nat (String.length s) <= max_str_digits)%Z.

(** No white space at either end. *)
Definition trimmed (s : string) : Prop := lstrip s = s /\ rstrip s = s.

Module QualityGateTerms.
Import QualityGate QualityGateSpec.

(** The tool runs the aggregator has for a file, in the order of the code:
    none for an extension that is not in [LANGUAGE_MAP]. *)
Definition steps_for (file_path : string) : list step :=
  match detect_language file_path with
  | None => []
  | Some language =>
      if String.eqb language "python" then python_steps
      else typescript_steps file_path
  end.

Definition commands_for (file_path : string) : list (list string) :=
  List.map (fun s => step_cmd s file_path) (steps_for file_path).

(** The state after the command lines [cmds] have run one after the other. *)
Definition ran_all (w : World) (cmds : list (list string)) (st : State) : State :=
  List.fold_left (fun st cmd => ran w cmd st) cmds st.


(** Starting a tool fails with an exception, never with [SystemExit]. *)
Definition raises_exceptions_only (w : World) : Prop :=
  forall cmd e, subprocess_run w cmd = Raise e -> is_Exception e = true.

(** ** A file ruff cannot parse

    For a syntax error ruff reports a finding whose [code] is [null]. *)
Definition syntax_error : json :=
  JObj [ ("code", JNull); ("message", JStr "SyntaxError: Expected an expression");
         ("location", JObj [("row", JInt 1); ("column", JInt 5)]);
         ("filename", JStr "bad.py") ].

Definition syntax_error_text : string := "<ruff findings for bad.py>".

Definition syntax_error_loads : string -> option json :=
  loads_table [(syntax_error_text, JArr [syntax_error])].

Definition world_syntax_error : World :=
  {| fs := fs_table [("bad.py", Readable "x = ")];
     subprocess_run := fun cmd =>
       if is_cmd cmd "ruff" "check" then Ok (completed 1 syntax_error_text)
       else Ok (completed 0 "");
     duration := fun _ => 1%Q |}.

(** The request of a hook that names [app.py]. *)
Definition request_text : string := "<request naming app.py>".

Definition request_loads : string -> option json :=
  loads_table [ (request_text,
                 JObj [("tool_input", JObj [("file_path", JStr "app.py")])]);
                (ruff_text, JArr [f401; e501]) ].

(** The violations a tool has reported, and the line of the summary that
    counts them. *)
Definition of_tool (vs : list Violation) (t : string) : list Violation :=
  List.filter (fun v => String.eqb t (tool v)) vs.

Definition issue_line (vs : list Violation) (t : string) : text :=
  [Txt "   "; Txt t; Txt ": "; FInt (Z.of_nat (List.length (of_tool vs t)));
   Txt " issue(s)"].

(** The messages of one file result of ESLint, and whether a message counts
    as an error: its [severity] is the number 2. *)
Definition messages_of (file_result : json) : list json :=
  match dict_get file_result "messages" (JArr []) with
  | Ok messages => match py_iter messages with Ok ms => ms | Raise _ => [] end
  | Raise _ => []
  end.

Definition eslint_is_error (message : json) : bool :=
  match message with
  | JObj fields =>
      match assoc "severity" fields with
      | Some sev => py_eq_num sev 2
      | None => false
      end
  | _ => false
  end.

(** ** What ESLint says about [web/app.ts]: an error and a warning. *)
Definition no_unused_vars : json :=
  JObj [ ("ruleId", JStr "no-unused-vars"); ("severity", JInt 2);
         ("message", JStr "'x' is defined but never used.");
         ("line", JInt 1); ("column", JInt 5) ].

Definition prefer_const : json :=
  JObj [ ("ruleId", JStr "prefer-const"); ("severity", JInt 1);
         ("message", JStr "'x' is never reassigned. Use 'const' instead.");
         ("line", JInt 1); ("column", JInt 5) ].

Definition eslint_text : string := "<eslint results for web/app.ts>".

Definition eslint_loads : string -> option json :=
  loads_table
    [ (eslint_text,
       JArr [ JObj [ ("filePath", JStr "web/app.ts");
                     ("messages", JArr [no_unused_vars; prefer_const]) ] ]) ].

End QualityGateTerms.

Module CoverageTerms.
Import Coverage CoverageSpec.

(** ** A report without totals, and a threshold that is not a number *)
Definition bare_text : string := "<text of a coverage.json without totals>".

Definition bare_loads : string -> option json :=
  loads_table [(bare_text, JObj [("meta", JObj [("version", JStr "7.4")])])].

Definition bare_fs : string -> option fs_node :=
  fs_table [("coverage.json", Readable bare_text)].

Definition env_table (vars : list (string * string)) (name : string) : option string :=
  match List.find (fun kv => String.eqb (fst kv) name) vars with
  | Some kv => Some (snd kv)
  | None => None
  end.

Definition no_float : string -> option float := fun _ => None.

End CoverageTerms.

Module PythonCoreTerms.
Import PythonCore.

(** ** Concrete invocations of the single-tool gate *)
Definition readme_request : string := "<request naming README.md>".
Definition app_request : string := "<request naming app.py>".
Definition app_findings : string := "<ruff findings for app.py>".

Definition core_loads : string -> option json :=
  loads_table
    [ (readme_request,
       JObj [("tool_input", JObj [("file_path", JStr "README.md")])]);
      (app_request,
       JObj [("tool_input", JObj [("file_path", JStr "app.py")])]);
      (app_findings,
       JArr [ JObj [ ("code", JStr "F401"); ("message", JStr "os imported but unused");
                     ("location", JObj [("row", JInt 1); ("column", JInt 8)]) ] ]) ].

Definition no_env : string -> option string := fun _ => None.

(** [CLAUDE_PROJECT_DIR] set to the empty text. *)
Definition empty_project_dir : string -> option string :=
  CoverageTerms.env_table [("CLAUDE_PROJECT_DIR", "")].

Definition core_fs : string -> option fs_node :=
  fs_table [("README.md", Readable "# notes"); ("app.py", Readable "import os")].

Definition finished (rc : Z) (out : string) : CompletedProcess :=
  {| returncode := rc; proc_stdout := out; proc_stderr := "" |}.

Definition all_clean : list string -> result CompletedProcess :=
  fun _ => Ok (finished 0 "").

Definition nothing_installed : list string -> result CompletedProcess :=
  fun _ => Raise FileNotFoundError.

Definition mypy_complains : list string -> result CompletedProcess :=
  fun cmd =>
    if String.eqb (List.hd "" cmd) "mypy"
    then Ok (finished 1 "app.py:3: error: Name 'y' is not defined")
    else Ok (finished 0 "").

Definition ruff_complains : list string -> result CompletedProcess :=
  fun cmd =>
    if String.eqb (List.hd "" (List.tl cmd)) "check"
    then Ok (finished 1 app_findings)
    else Ok (finished 0 "").

Definition no_text : exn -> string := fun _ => "".

End PythonCoreTerms.

(** * Facts about the helpers *)

(** The helpers on a few inputs. *)
Example path_name_examples :
  path_name "coverage/coverage.json" = "coverage.json" /\
  path_name "web/./lcov.info" = "lcov.info" /\
  path_name "src/" = "src" /\ path_name "." = "" /\ path_name "/" = "".
Proof. repeat split; reflexivity. Qed.

Example path_suffix_examples :
  path_suffix "pkg/app.py" = ".py" /\ path_suffix "a.test.tsx" = ".tsx" /\
  path_suffix ".bashrc" = "" /\ path_suffix "notes." = "" /\
  path_suffix "Makefile" = "".
Proof. repeat split; reflexivity. Qed.

Example string_examples :
  split_on ":" "a:b::c" = ["a"; "b"; ""; "c"] /\
  str_strip "  two words " = "two words" /\
  str_replace "app.py:" "Line " "app.py:3: error: x" = "Line 3: error: x" /\
  contains "error:" (str_lower "app.py:3: Error: x") = true /\
  endswith "lcov.info" ".info" = true /\
  str_take 3 "abcdef" = "abc" /\ str_take 200 "abc" = "abc".
Proof. repeat split; reflexivity. Qed.

Example sort_by_example :
  sort_by Qltb snd [("a", 3%Q); ("b", 1%Q); ("c", 3%Q); ("d", 2%Q); ("e", 1%Q)]
  = [("b", 1%Q); ("e", 1%Q); ("d", 2%Q); ("a", 3%Q); ("c", 3%Q)].
Proof. reflexivity. Qed.

Example detect_report_type_examples :
  Coverage.detect_report_type "coverage/coverage.json" = Some "coverage.py" /\
  Coverage.detect_report_type "coverage-summary.json" = Some "jest" /\
  Coverage.detect_report_type "out/unit.info" = Some "lcov" /\
  Coverage.detect_report_type "coverage.xml" = None.
Proof. repeat split; reflexivity. Qed.

Example path_str_examples :
  path_str "" = "." /\ path_str "." = "." /\ path_str "./" = "." /\
  path_str "/" = "/" /\ path_str "//" = "//" /\ path_str "///" = "/" /\
  path_str "a//b/./c/" = "a/b/c" /\ path_str "//srv/./x" = "//srv/x" /\
  path_str "../a" = "../a" /\
  path_join "." "app.py" = "app.py" /\ path_join "/srv/" "app.py" = "/srv/app.py" /\
  path_join "proj" "pkg//mod.py" = "proj/pkg/mod.py" /\
  path_join "proj" "/abs/mod.py" = "/abs/mod.py" /\
  path_join "/" "app.py" = "/app.py".
Proof. repeat split; reflexivity. Qed.

Example py_int_examples :
  py_int " 12 " = Some 12%Z /\ py_int "-07" = Some (-7)%Z /\
  py_int "1_000" = Some 1000%Z /\ py_int "1__0" = None /\ py_int "" = None /\
  py_int "12a" = None /\ py_int "+ 1" = None /\ py_int "_1" = None /\
  py_int "1_" = None.
Proof. repeat split; reflexivity. Qed.

(** A literal of 4300 digits is converted, leading zeros included; one of
    4301 digits is not. *)
Example py_int_limit :
  py_int (String.concat "" (List.repeat "0" 4300)) = Some 0%Z /\
  py_int (String.concat "" (List.repeat "0" 4301)) = None /\
  py_int ("-" +:+ String.concat "_" (List.repeat "0" 4300)) = Some 0%Z /\
  QualityGate.mypy_line "app.py"
    ("app.py:" +:+ String.concat "" (List.repeat "1" 4301) +:+ ":5: error: text  [misc]")
  = [].
Proof. repeat split; vm_compute; reflexivity. Qed.

Example mypy_line_examples :
  QualityGate.mypy_line "app.py"
    "app.py:3:5: error: Incompatible types in assignment  [assignment]"
  = [ {| QualityGate.file := JStr "app.py"; QualityGate.line := JInt 3;
         QualityGate.column := JInt 5; QualityGate.rule := JStr "assignment";
         QualityGate.message := JStr "Incompatible types in assignment";
         QualityGate.severity := "ERROR"; QualityGate.tool := "mypy" |} ] /\
  QualityGate.mypy_line "app.py" "app.py:7: note: See the documentation" = [] /\
  QualityGate.mypy_line "app.py" "app.py:x:1: error: no line number" = [].
Proof. repeat split; reflexivity. Qed.

Example tsc_line_examples :
  QualityGate.tsc_line
    "src/a.ts(10,5): error TS2322: Type 'string' is not assignable."
  = [ {| QualityGate.file := JStr "src/a.ts"; QualityGate.line := JInt 10;
         QualityGate.column := JInt 5; QualityGate.rule := JStr "TS2322";
         QualityGate.message := JStr "Type 'string' is not assignable.";
         QualityGate.severity := "ERROR"; QualityGate.tool := "tsc" |} ] /\
  QualityGate.tsc_line "error TS6053: File (x) not found." = [] /\
  QualityGate.tsc_line "src/a.ts(10,5): warning: unused" = [].
Proof. repeat split; reflexivity. Qed.

Example detect_language_examples :
  QualityGate.detect_language "src/app.py" = Some "python" /\
  QualityGate.detect_language "web/App.tsx" = Some "typescript" /\
  QualityGate.detect_language "web/index.js" = Some "javascript" /\
  QualityGate.detect_language "lib/tool.rb" = None.
Proof. repeat split; reflexivity. Qed.

(** ** Comparisons and the stable sort *)

Lemma Qltb_true (a b : Q) : Qltb a b = true <-> (a < b)%Q.
Proof.
  unfold Qltb. rewrite negb_true_iff. split.
  - intros H. apply Qnot_le_lt. intros Hle.
    apply Qle_bool_iff in Hle. congruence.
  - intros H. destruct (Qle_bool b a) eqn:E; [|reflexivity].
    apply Qle_bool_iff in E. exfalso. exact (Qlt_not_le _ _ H E).
Qed.

Lemma Qltb_false (a b : Q) : Qltb a b = false <-> (b <= a)%Q.
Proof.
  unfold Qltb. rewrite negb_false_iff. apply Qle_bool_iff.
Qed.

(** ** The order of numbers *)

Lemma xnum_le_refl x : xnum_le x x.
Proof.
  unfold xnum_le. destruct x as [|q|]; cbn; try reflexivity.
  apply Qltb_false, Qle_refl.
Qed.

Lemma xnum_le_trans x y z : xnum_le x y -> xnum_le y z -> xnum_le x z.
Proof.
  unfold xnum_le.
  destruct x as [|p|], y as [|q|], z as [|r|]; cbn; try congruence.
  rewrite !Qltb_false. intros H1 H2. eapply Qle_trans; eassumption.
Qed.

Lemma xnum_ltb_le x y : xnum_ltb x y = true -> xnum_le x y.
Proof.
  unfold xnum_le. destruct x as [|p|], y as [|q|]; cbn; try congruence.
  rewrite Qltb_true, Qltb_false. apply Qlt_le_weak.
Qed.

Lemma xnum_eqb_not_ltb x y q :
  xnum_eqb x q = true -> xnum_eqb y q = true -> xnum_ltb x y = false.
Proof.
  destruct x as [|a|], y as [|b|], q as [|c|]; cbn; try congruence.
  intros Ha Hb. apply Qeq_bool_iff in Ha, Hb. apply Qltb_false.
  rewrite Ha, Hb. apply Qle_refl.
Qed.

Lemma json_value_num v x :
  json_value v = Some x -> exists a, as_num v = Some a /\ num_value a = Some x.
Proof. unfold json_value. destruct (as_num v) as [a|]; [eauto|discriminate]. Qed.

Lemma key_ltb_value a b x y :
  json_value a = Some x -> json_value b = Some y -> key_ltb a b = xnum_ltb x y.
Proof.
  intros Ha Hb.
  apply json_value_num in Ha as (na & Ha & Hx), Hb as (nb & Hb & Hy).
  unfold key_ltb, num_ltb. rewrite Ha, Hb, Hx, Hy. reflexivity.
Qed.

Lemma key_ltb_true a b :
  key_ltb a b = true ->
  exists x y, json_value a = Some x /\ json_value b = Some y /\ xnum_ltb x y = true.
Proof.
  unfold key_ltb, num_ltb, json_value.
  destruct (as_num a) as [na|]; [|discriminate].
  destruct (as_num b) as [nb|]; [|discriminate].
  destruct (num_value na) as [x|]; [|discriminate].
  destruct (num_value nb) as [y|]; [|discriminate]. eauto.
Qed.

Section SortFacts.
Context {A : Type} (key : A -> json).

Lemma insert_by_perm (x : A) (l : list A) :
  Permutation (insert_by key_ltb key x l) (x :: l).
Proof.
  induction l as [|y l IH]; simpl.
  - apply Permutation_refl.
  - destruct (key_ltb (key y) (key x)).
    + eapply perm_trans; [apply perm_skip, IH | apply perm_swap].
    + apply Permutation_refl.
Qed.

Lemma sort_by_perm (l : list A) : Permutation (sort_by key_ltb key l) l.
Proof.
  induction l as [|x l IH]; simpl.
  - constructor.
  - eapply perm_trans; [apply insert_by_perm | apply perm_skip, IH].
Qed.

Lemma key_le_trans (a b c : A) : key_le key a b -> key_le key b c -> key_le key a c.
Proof.
  unfold key_le.
  destruct (json_value (key a)) as [x|]; [|contradiction].
  destruct (json_value (key b)) as [y|]; [|contradiction].
  destruct (json_value (key c)) as [z|]; [|contradiction].
  apply xnum_le_trans.
Qed.

Lemma key_ltb_true_le (a b : A) : key_ltb (key a) (key b) = true -> key_le key a b.
Proof.
  intros H. apply key_ltb_true in H as (x & y & Hx & Hy & H).
  unfold key_le. rewrite Hx, Hy. apply xnum_ltb_le, H.
Qed.

Lemma key_ltb_false_le (a b : A) :
  valued key a -> valued key b -> key_ltb (key a) (key b) = false -> key_le key b a.
Proof.
  unfold valued, key_le. intros Ha Hb.
  destruct (json_value (key a)) as [x|] eqn:Hx; [|contradiction].
  destruct (json_value (key b)) as [y|] eqn:Hy; [|contradiction].
  rewrite (key_ltb_value _ _ _ _ Hx Hy). intros H. exact H.
Qed.

Lemma insert_by_sorted (x : A) (l : list A) :
  valued key x -> Forall (valued key) l ->
  StronglySorted (key_le key) l ->
  StronglySorted (key_le key) (insert_by key_ltb key x l).
Proof.
  intros Hx. induction l as [|y l IH]; simpl; intros Hv Hs.
  - repeat constructor.
  - apply StronglySorted_inv in Hs as [Hs Hy].
    apply List.Forall_cons_iff in Hv as [Hvy Hv].
    destruct (key_ltb (key y) (key x)) eqn:E.
    + constructor; [apply IH; assumption|].
      apply List.Forall_forall. intros z Hz.
      apply (Permutation_in _ (insert_by_perm x l)) in Hz.
      destruct Hz as [<-|Hz].
      * apply key_ltb_true_le, E.
      * rewrite List.Forall_forall in Hy. apply Hy, Hz.
    + apply (key_ltb_false_le _ _ Hvy Hx) in E.
      constructor; [constructor; assumption|].
      constructor; [exact E|].
      rewrite List.Forall_forall in Hy |- *. intros z Hz.
      eapply key_le_trans; [exact E | apply Hy, Hz].
Qed.

Lemma sort_by_sorted (l : list A) :
  Forall (valued key) l -> StronglySorted (key_le key) (sort_by key_ltb key l).
Proof.
  induction l as [|x l IH]; simpl; intros Hv.
  - constructor.
  - apply List.Forall_cons_iff in Hv as [Hx Hv].
    apply insert_by_sorted; [exact Hx| |apply IH, Hv].
    rewrite List.Forall_forall in Hv |- *. intros z Hz. apply Hv.
    exact (Permutation_in _ (sort_by_perm l) Hz).
Qed.

Lemma insert_by_stable (q : xnum) (x : A) (l : list A) :
  List.filter (key_is key q) (insert_by key_ltb key x l)
  = List.filter (key_is key q) (x :: l).
Proof.
  induction l as [|y l IH]; [reflexivity|].
  simpl insert_by. destruct (key_ltb (key y) (key x)) eqn:E; [|reflexivity].
  change (List.filter (key_is key q) (y :: insert_by key_ltb key x l))
    with (if key_is key q y
          then y :: List.filter (key_is key q) (insert_by key_ltb key x l)
          else List.filter (key_is key q) (insert_by key_ltb key x l)).
  rewrite IH. simpl. unfold key_is.
  apply key_ltb_true in E as (vy & vx & Hy & Hx & E). rewrite Hy, Hx.
  destruct (xnum_eqb vy q) eqn:Ey, (xnum_eqb vx q) eqn:Ex; try reflexivity.
  rewrite (xnum_eqb_not_ltb _ _ _ Ey Ex) in E. discriminate.
Qed.

Lemma sort_by_stable (q : xnum) (l : list A) :
  List.filter (key_is key q) (sort_by key_ltb key l) = List.filter (key_is key q) l.
Proof.
  induction l as [|x l IH]; [reflexivity|].
  simpl sort_by. rewrite insert_by_stable. simpl. rewrite IH. reflexivity.
Qed.
End SortFacts.

(** ** Binary64 arithmetic

    The sign of a difference, from the specification of the operations
    ([SpecFloat]) that the primitive ones obey. *)

Lemma two_power_pos e : (0 < 2 ^ e)%Q.
Proof. apply Qpower_0_lt. reflexivity. Qed.

Lemma scaled_pos m e : (0 < inject_Z (Z.pos m) * 2 ^ e)%Q.
Proof.
  apply Qmult_lt_0_compat; [|apply two_power_pos].
  change 0%Q with (inject_Z 0). rewrite <- Zlt_Qlt. reflexivity.
Qed.

Lemma scaled_neg m e : (inject_Z (Z.neg m) * 2 ^ e < 0)%Q.
Proof.
  pose proof (scaled_pos m e) as H.
  change (Z.neg m) with (- Z.pos m)%Z. rewrite inject_Z_opp.
  assert (Heq : (- inject_Z (Z.pos m) * 2 ^ e == - (inject_Z (Z.pos m) * 2 ^ e))%Q)
    by ring.
  rewrite Heq. lra.
Qed.

Lemma cond_Zopp_scaled_sign s m e :
  if s : bool then (inject_Z (cond_Zopp s (Z.pos m)) * 2 ^ e < 0)%Q
  else (0 < inject_Z (cond_Zopp s (Z.pos m)) * 2 ^ e)%Q.
Proof. destruct s; cbn [cond_Zopp]; [apply scaled_neg|apply scaled_pos]. Qed.

(** Aligning a mantissa to a smaller exponent keeps the number. *)
Lemma shl_align_value m e e' :
  (e' <= e)%Z ->
  (inject_Z (Z.pos (fst (shl_align m e e'))) * 2 ^ e'
   == inject_Z (Z.pos m) * 2 ^ e)%Q.
Proof.
  intros Hle. unfold shl_align.
  destruct (e' - e)%Z as [|d|d] eqn:Hd; cbn [fst].
  - assert (e' = e) by lia. subst. reflexivity.
  - lia.
  - change (Pos.iter xO m d) with (shift_pos d m).
    rewrite shift_pos_correct, Z.pow_pos_fold, inject_Z_mult.
    rewrite Zpower_Qpower by lia.
    replace e with (Z.pos d + e')%Z by lia.
    rewrite Qpower_plus by discriminate.
    change (inject_Z 2) with 2%Q. ring.
Qed.

Lemma cond_Zopp_aligned s m e e' :
  (e' <= e)%Z ->
  (inject_Z (cond_Zopp s (Z.pos (fst (shl_align m e e')))) * 2 ^ e'
   == inject_Z (cond_Zopp s (Z.pos m)) * 2 ^ e)%Q.
Proof.
  intros Hle. pose proof (shl_align_value m e e' Hle) as H.
  destruct s; cbn [cond_Zopp]; [|exact H].
  change (Z.neg (fst (shl_align m e e'))) with (- Z.pos (fst (shl_align m e e')))%Z.
  change (Z.neg m) with (- Z.pos m)%Z. rewrite !inject_Z_opp.
  assert (H1 : forall a b : Q, (- a * b == - (a * b))%Q) by (intros; ring).
  rewrite !H1, H. reflexivity.
Qed.

(** Shifting and rounding a mantissa that is not negative. *)
Lemma shr_1_nonneg mrs : (0 <= shr_m mrs)%Z -> (0 <= shr_m (shr_1 mrs))%Z.
Proof.
  destruct mrs as [m r s]. cbn [shr_m]. intros H.
  destruct m as [|[p|p|]|p]; cbn; lia.
Qed.

Lemma iter_pos_invariant {A} (f : A -> A) (Inv : A -> Prop) :
  (forall x, Inv x -> Inv (f x)) ->
  forall p x, Inv x -> Inv (SpecFloat.iter_pos f p x).
Proof.
  intros Hf. induction p as [p IH|p IH|]; intros x Hx; cbn.
  - apply IH, IH, Hf, Hx.
  - apply IH, IH, Hx.
  - apply Hf, Hx.
Qed.

Lemma shr_nonneg mrs e n : (0 <= shr_m mrs)%Z -> (0 <= shr_m (fst (shr mrs e n)))%Z.
Proof.
  intros H. unfold shr. destruct n; cbn [fst]; try exact H.
  apply (iter_pos_invariant shr_1 (fun mrs => 0 <= shr_m mrs)%Z); [|exact H].
  apply shr_1_nonneg.
Qed.

Lemma shr_fexp_nonneg m e l :
  (0 <= m)%Z -> (0 <= shr_m (fst (shr_fexp prec emax m e l)))%Z.
Proof.
  intros H. unfold shr_fexp. apply shr_nonneg.
  destruct l as [|[]]; exact H.
Qed.

Lemma round_nearest_even_nonneg m l : (0 <= m)%Z -> (0 <= round_nearest_even m l)%Z.
Proof.
  intros H. unfold round_nearest_even.
  destruct l as [|[]]; try lia. destruct (Z.even m); lia.
Qed.

(** A rounded number has the sign that was asked for, and is not NaN. *)
Lemma binary_round_aux_sign s m e l :
  (0 <= m)%Z ->
  match binary_round_aux prec emax s m e l with
  | S754_zero s' | S754_infinity s' | S754_finite s' _ _ => s' = s
  | S754_nan => False
  end.
Proof.
  intros H. unfold binary_round_aux.
  pose proof (shr_fexp_nonneg m e l H) as H1.
  destruct (shr_fexp prec emax m e l) as [mrs' e'] eqn:E1. cbn [fst] in H1.
  pose proof (shr_fexp_nonneg (round_nearest_even (shr_m mrs') (loc_of_shr_record mrs'))
                e' loc_Exact (round_nearest_even_nonneg _ _ H1)) as H2.
  destruct (shr_fexp prec emax _ e' loc_Exact) as [mrs'' e''] eqn:E2. cbn [fst] in H2.
  destruct (shr_m mrs'') as [|p|p]; [reflexivity| |lia].
  destruct (e'' <=? emax - prec)%Z; reflexivity.
Qed.

Lemma binary_normalize_pos m e :
  (0 < m)%Z ->
  match binary_normalize prec emax m e false with
  | S754_zero s | S754_infinity s | S754_finite s _ _ => s = false
  | S754_nan => False
  end.
Proof.
  intros H. destruct m as [|p|p]; try lia. cbn [binary_normalize].
  unfold binary_round. destruct (shl_align p e _) as [mz ez].
  apply binary_round_aux_sign. lia.
Qed.

Lemma non_negative_of_SF (x : float) :
  match Prim2SF x with
  | S754_zero _ => True
  | S754_infinity s | S754_finite s _ _ => s = false
  | S754_nan => False
  end -> non_negative x.
Proof.
  unfold non_negative, float_value, xnum_le.
  destruct (Prim2SF x) as [s|s| |s m e]; intros H.
  - exists (Finite 0). split; reflexivity.
  - subst s. exists PosInf. split; reflexivity.
  - contradiction.
  - subst s. eexists. split; [reflexivity|]. cbn [xnum_ltb cond_Zopp].
    apply Qltb_false. apply Qlt_le_weak, scaled_pos.
Qed.

(** The difference of two floats of which the first stands for more than
    the second is not negative, and not NaN. *)
Lemma float_sub_non_negative (x y : float) vx vy :
  float_value x = Some vx -> float_value y = Some vy ->
  xnum_ltb vy vx = true ->
  non_negative (x - y).
Proof.
  intros Hx Hy Hlt. apply non_negative_of_SF. rewrite sub_spec.
  unfold float_value in Hx, Hy. unfold SF64sub, SFsub.
  destruct (Prim2SF x) as [sx|sx| |sx mx ex]; try discriminate Hx;
    destruct (Prim2SF y) as [sy|sy| |sy my ey]; try discriminate Hy;
    injection Hx as <-; injection Hy as <-; cbn [xnum_ltb] in Hlt.
  - discriminate Hlt.
  - destruct sy; [reflexivity|discriminate Hlt].
  - apply Qltb_true in Hlt. pose proof (cond_Zopp_scaled_sign sy my ey) as Hs.
    destruct sy; [reflexivity|lra].
  - destruct sx; [discriminate Hlt|reflexivity].
  - destruct sx, sy; try discriminate Hlt; reflexivity.
  - destruct sx; [discriminate Hlt|reflexivity].
  - apply Qltb_true in Hlt. pose proof (cond_Zopp_scaled_sign sx mx ex) as Hs.
    destruct sx; [lra|reflexivity].
  - destruct sy; [reflexivity|discriminate Hlt].
  - apply Qltb_true in Hlt. cbv zeta.
    pose proof (cond_Zopp_aligned sx mx ex (Z.min ex ey) (Z.le_min_l _ _)) as Hax.
    pose proof (cond_Zopp_aligned sy my ey (Z.min ex ey) (Z.le_min_r _ _)) as Hay.
    rewrite <- Hax, <- Hay in Hlt.
    set (a := cond_Zopp sx _) in *. set (b := cond_Zopp sy _) in *.
    assert (Hpos : (0 < a - b)%Z).
    { pose proof (two_power_pos (Z.min ex ey)) as Hp.
      assert (Hab : (inject_Z b < inject_Z a)%Q).
      { apply Qnot_le_lt. intros Hle.
        apply (Qlt_not_le _ _ Hlt). apply Qmult_le_compat_r; [exact Hle|lra]. }
      rewrite <- Zlt_Qlt in Hab. lia. }
    pose proof (binary_normalize_pos _ (Z.min ex ey) Hpos) as Hr.
    destruct (binary_normalize prec emax (a - b) (Z.min ex ey) false); auto.
Qed.

(** The digits of a mantissa. *)
Lemma digits2_pos_size p : digits2_pos p = Pos.size p.
Proof. induction p as [p IH|p IH|]; cbn; [rewrite IH| rewrite IH|]; reflexivity. Qed.

Lemma digits2_log2 p : Z.pos (digits2_pos p) = (Z.log2 (Z.pos p) + 1)%Z.
Proof.
  rewrite digits2_pos_size. destruct p as [p|p|]; cbn [Z.log2 Pos.size]; lia.
Qed.

Lemma digits2_bounds p :
  (2 ^ (Z.pos (digits2_pos p) - 1) <= Z.pos p < 2 ^ Z.pos (digits2_pos p))%Z.
Proof.
  rewrite digits2_log2. pose proof (Z.log2_spec (Z.pos p) eq_refl) as H.
  replace (Z.log2 (Z.pos p) + 1 - 1)%Z with (Z.log2 (Z.pos p)) by lia.
  replace (Z.log2 (Z.pos p) + 1)%Z with (Z.succ (Z.log2 (Z.pos p))) by lia.
  exact H.
Qed.

Lemma digits2_unique p n :
  (2 ^ (n - 1) <= Z.pos p < 2 ^ n)%Z -> (1 <= n)%Z -> Z.pos (digits2_pos p) = n.
Proof.
  intros H Hn. rewrite digits2_log2.
  rewrite (Z.log2_unique (Z.pos p) (n - 1)); [lia|lia|].
  replace (Z.succ (n - 1)) with n by lia. exact H.
Qed.

(** Shifting a mantissa to the right divides it. *)
Lemma shr_1_div mrs : (0 <= shr_m mrs)%Z -> shr_m (shr_1 mrs) = (shr_m mrs / 2)%Z.
Proof.
  destruct mrs as [m r s]. cbn [shr_m]. intros H.
  destruct m as [|[p|p|]|p]; cbn [shr_1 shr_m]; try lia.
  - reflexivity.
  - rewrite Pos2Z.inj_xI. apply Z.div_unique with (r := 1%Z); lia.
  - rewrite Pos2Z.inj_xO. apply Z.div_unique with (r := 0%Z); lia.
  - reflexivity.
Qed.

Lemma iter_shr_1_div n mrs :
  (0 <= shr_m mrs)%Z ->
  shr_m (SpecFloat.iter_pos shr_1 n mrs) = (shr_m mrs / 2 ^ Z.pos n)%Z.
Proof.
  revert mrs. induction n as [n IH|n IH|]; intros mrs H; cbn [SpecFloat.iter_pos].
  - assert (H1 : (0 <= shr_m (shr_1 mrs))%Z) by (apply shr_1_nonneg, H).
    assert (H2 : (0 <= shr_m (SpecFloat.iter_pos shr_1 n (shr_1 mrs)))%Z).
    { apply (iter_pos_invariant shr_1 (fun x => 0 <= shr_m x)%Z); auto using shr_1_nonneg. }
    rewrite IH, IH, shr_1_div by assumption.
    rewrite !Z.div_div by lia.
    replace (Z.pos n~1) with (1 + Z.pos n + Z.pos n)%Z by lia.
    rewrite !Z.pow_add_r by lia. change (2 ^ 1)%Z with 2%Z.
    rewrite Z.mul_assoc. reflexivity.
  - assert (H2 : (0 <= shr_m (SpecFloat.iter_pos shr_1 n mrs))%Z).
    { apply (iter_pos_invariant shr_1 (fun x => 0 <= shr_m x)%Z); auto using shr_1_nonneg. }
    rewrite IH, IH by assumption.
    rewrite !Z.div_div by lia.
    replace (Z.pos n~0) with (Z.pos n + Z.pos n)%Z by lia.
    rewrite !Z.pow_add_r by lia. reflexivity.
  - rewrite shr_1_div by assumption. reflexivity.
Qed.

Lemma fexp_53 e : (-1074 <= e)%Z -> fexp prec emax (53 + e) = e.
Proof. intros H. unfold fexp, emin, prec, emax. lia. Qed.

Lemma fexp_54 e : (-1075 <= e)%Z -> fexp prec emax (54 + e) = (e + 1)%Z.
Proof. intros H. unfold fexp, emin, prec, emax. lia. Qed.

(** A mantissa of 53 digits is kept as it is. *)
Lemma binary_round_aux_exact s m e :
  Z.pos (digits2_pos m) = 53%Z -> (-1074 <= e <= 971)%Z ->
  binary_round_aux prec emax s (Z.pos m) e loc_Exact = S754_finite s m e.
Proof.
  intros Hd He. unfold binary_round_aux, shr_fexp. cbn [Zdigits2].
  rewrite Hd, fexp_53 by lia. rewrite Z.sub_diag. cbn [shr shr_record_of_loc].
  cbn [shr_m loc_of_shr_record round_nearest_even Zdigits2].
  rewrite Hd, fexp_53 by lia. rewrite Z.sub_diag. cbn [shr shr_record_of_loc shr_m].
  replace (e <=? emax - prec)%Z with true; [reflexivity|].
  symmetry. apply Z.leb_le. unfold emax, prec. lia.
Qed.

Lemma digits2_shift p k :
  digits2_pos (Pos.iter xO p k) = (digits2_pos p + k)%positive.
Proof.
  induction k as [|k IH] using Pos.peano_ind.
  - cbn. lia.
  - rewrite Pos.iter_succ. cbn [digits2_pos]. rewrite IH. lia.
Qed.

(** An integer of at most 53 digits is a float. *)
Lemma binary_round_small s p :
  (Z.pos (digits2_pos p) <= 53)%Z ->
  exists m e,
    binary_round prec emax s p 0 = S754_finite s m e /\
    Z.pos (digits2_pos m) = 53%Z /\ (-1074 <= e <= 0)%Z /\
    (Z.pos m = Z.pos p * 2 ^ (- e))%Z.
Proof.
  intros Hd. unfold binary_round.
  assert (Hf : fexp prec emax (Z.pos (digits2_pos p) + 0)
               = (Z.pos (digits2_pos p) - 53)%Z).
  { unfold fexp, emin, prec, emax. lia. }
  rewrite Hf. unfold shl_align.
  destruct (Z.pos (digits2_pos p) - 53 - 0)%Z as [|q|q] eqn:Hq; [| lia |].
  - exists p, 0%Z. split; [apply binary_round_aux_exact; lia|].
    split; [lia|]. split; [lia|]. cbn. lia.
  - exists (Pos.iter xO p q), (Z.pos (digits2_pos p) - 53)%Z.
    split; [apply binary_round_aux_exact; [rewrite digits2_shift|]; lia|].
    split; [rewrite digits2_shift; lia|]. split; [lia|].
    change (Pos.iter xO p q) with (shift_pos q p).
    rewrite shift_pos_correct, Z.pow_pos_fold.
    replace (- (Z.pos (digits2_pos p) - 53))%Z with (Z.pos q) by lia. lia.
Qed.

Lemma binary_round_aux_tail s mx ex lx :
  binary_round_aux prec emax s mx ex lx
  = let '(mrs, e) := shr_fexp prec emax mx ex lx in
    round_tail s (round_nearest_even (shr_m mrs) (loc_of_shr_record mrs)) e.
Proof. reflexivity. Qed.

Lemma round_tail_53 s m e :
  Z.pos (digits2_pos m) = 53%Z -> (-1074 <= e)%Z ->
  round_tail s (Z.pos m) e
  = if (e <=? 971)%Z then S754_finite s m e else S754_infinity s.
Proof.
  intros Hd He. unfold round_tail, shr_fexp. cbn [Zdigits2].
  rewrite Hd, fexp_53 by lia. rewrite Z.sub_diag. cbn [shr shr_record_of_loc shr_m].
  reflexivity.
Qed.

Lemma round_tail_carry s e :
  (-1074 <= e)%Z ->
  round_tail s (2 ^ 53) e
  = if (e + 1 <=? 971)%Z then S754_finite s (2 ^ 52) (e + 1) else S754_infinity s.
Proof.
  intros He. unfold round_tail, shr_fexp.
  change (Zdigits2 (2 ^ 53)) with 54%Z. rewrite fexp_54 by lia.
  replace (e + 1 - e)%Z with 1%Z by lia. reflexivity.
Qed.

Lemma round_nearest_even_cases m l :
  round_nearest_even m l = m \/ round_nearest_even m l = (m + 1)%Z.
Proof.
  unfold round_nearest_even. destruct l as [|[]]; auto. destruct (Z.even m); auto.
Qed.

(** An integer of more than 53 digits is rounded to one of the two multiples
    of [2 ^ k] around it, where [k] is the number of digits given up. *)
Lemma binary_round_large s p k :
  k = (Z.pos (digits2_pos p) - 53)%Z -> (0 < k)%Z ->
  binary_round prec emax s p 0 = S754_infinity s \/
  exists m e m2,
    binary_round prec emax s p 0 = S754_finite s m e /\
    Z.pos (digits2_pos m) = 53%Z /\ (k <= e <= 971)%Z /\
    (Z.pos m * 2 ^ e = m2 * 2 ^ k)%Z /\
    (Z.pos p / 2 ^ k <= m2 <= Z.pos p / 2 ^ k + 1)%Z /\
    (2 ^ 52 <= Z.pos p / 2 ^ k)%Z.
Proof.
  intros Hk Hpos. unfold binary_round.
  assert (Hf : fexp prec emax (Z.pos (digits2_pos p) + 0) = k).
  { unfold fexp, emin, prec, emax. lia. }
  rewrite Hf. unfold shl_align.
  destruct (k - 0)%Z as [|kp|kp] eqn:Hkp; try lia.
  rewrite binary_round_aux_tail. unfold shr_fexp. cbn [Zdigits2].
  rewrite Hf. rewrite Z.sub_0_r. rewrite Z.sub_0_r in Hkp. rewrite Hkp.
  cbn [shr shr_record_of_loc]. rewrite Z.add_0_l.
  set (mrs := SpecFloat.iter_pos shr_1 kp _).
  assert (Hm1 : shr_m mrs = (Z.pos p / 2 ^ Z.pos kp)%Z).
  { unfold mrs. rewrite iter_shr_1_div; [reflexivity|cbn; lia]. }
  pose proof (digits2_bounds p) as Hb.
  assert (Hd : Z.pos (digits2_pos p) = (53 + Z.pos kp)%Z) by lia.
  rewrite Hd in Hb. replace (53 + Z.pos kp - 1)%Z with (52 + Z.pos kp)%Z in Hb by lia.
  rewrite !Z.pow_add_r in Hb by lia.
  assert (Hp2 : (0 < 2 ^ Z.pos kp)%Z) by (apply Z.pow_pos_nonneg; lia).
  assert (Hlo : (2 ^ 52 <= Z.pos p / 2 ^ Z.pos kp)%Z)
    by (apply Z.div_le_lower_bound; lia).
  assert (Hhi : (Z.pos p / 2 ^ Z.pos kp < 2 ^ 53)%Z)
    by (apply Z.div_lt_upper_bound; lia).
  rewrite <- Hkp in *. clear Hkp Hd.
  set (m1 := (Z.pos p / 2 ^ k)%Z) in *.
  destruct (round_nearest_even_cases (shr_m mrs) (loc_of_shr_record mrs)) as [-> | ->];
    rewrite Hm1.
  - destruct m1 as [|q|q] eqn:Eq; try lia.
    rewrite round_tail_53; [|apply digits2_unique; lia|lia].
    destruct (Z.leb_spec k 971%Z); [right|left; reflexivity].
    exists q, k, (Z.pos q). split; [reflexivity|]. split; [apply digits2_unique; lia|].
    split; [lia|]. split; [reflexivity|]. split; lia.
  - destruct (Z.eq_dec (m1 + 1)%Z (2 ^ 53)%Z) as [Heq|Hne].
    + rewrite Heq, round_tail_carry by lia.
      destruct (Z.leb_spec (k + 1)%Z 971%Z); [right|left; reflexivity].
      exists (2 ^ 52)%positive, (k + 1)%Z, (2 ^ 53)%Z. split; [reflexivity|].
      split; [reflexivity|]. split; [lia|]. split; [|split; lia].
      rewrite Z.pow_add_r by lia. lia.
    + destruct (m1 + 1)%Z as [|q|q] eqn:Eq; try lia.
      rewrite round_tail_53; [|apply digits2_unique; lia|lia].
      destruct (Z.leb_spec k 971%Z); [right|left; reflexivity].
      exists q, k, (Z.pos q). split; [reflexivity|]. split; [apply digits2_unique; lia|].
      split; [lia|]. split; [reflexivity|]. split; lia.
Qed.


Lemma scaled_int a e : (0 <= e)%Z -> (inject_Z a * 2 ^ e == inject_Z (a * 2 ^ e))%Q.
Proof.
  intros He. rewrite inject_Z_mult, Zpower_Qpower by lia. reflexivity.
Qed.

Lemma two_power_le_1 e : (e <= 0)%Z -> (2 ^ e <= 1)%Q.
Proof.
  intros He.
  assert (H1 : (2 ^ e * 2 ^ (- e) == 1)%Q).
  { rewrite <- Qpower_plus by discriminate. replace (e + - e)%Z with 0%Z by lia.
    reflexivity. }
  assert (H2 : (1 <= 2 ^ (- e))%Q).
  { rewrite <- (Zpower_Qpower 2 (- e)) by lia. change 1%Q with (inject_Z 1).
    rewrite <- Zle_Qle. pose proof (Z.pow_pos_nonneg 2 (- e)). lia. }
  pose proof (two_power_pos e) as H3.
  rewrite <- H1. rewrite <- (Qmult_1_r (2 ^ e)) at 1.
  apply Qmult_le_l; assumption.
Qed.

(** A float that has fewer digits than an integer is smaller in magnitude. *)
Lemma magnitude_small M E k :
  (Z.pos M < 2 ^ 53)%Z -> (E < k)%Z -> (0 < k)%Z ->
  (inject_Z (Z.pos M) * 2 ^ E < inject_Z (2 ^ (52 + k)))%Q.
Proof.
  intros HM HE Hk.
  assert (Hbig : (2 ^ 53 <= 2 ^ (52 + k))%Z) by (apply Z.pow_le_mono_r; lia).
  destruct (Z.lt_ge_cases E 0%Z) as [Hneg|Hpos].
  - apply Qle_lt_trans with (inject_Z (Z.pos M)).
    + rewrite <- (Qmult_1_r (inject_Z (Z.pos M))) at 2.
      apply Qmult_le_l; [|apply two_power_le_1; lia].
      change 0%Q with (inject_Z 0). rewrite <- Zlt_Qlt. lia.
    + rewrite <- Zlt_Qlt. lia.
  - rewrite scaled_int by lia. rewrite <- Zlt_Qlt.
    apply Z.lt_le_trans with (2 ^ 53 * 2 ^ E)%Z.
    + apply Z.mul_lt_mono_pos_r; [apply Z.pow_pos_nonneg; lia|exact HM].
    + rewrite <- Z.pow_add_r by lia. apply Z.pow_le_mono_r; lia.
Qed.

Lemma float_canonical t s M E :
  Prim2SF t = S754_finite s M E -> (Z.pos M < 2 ^ 53)%Z /\ (-1074 <= E)%Z.
Proof.
  intros H. pose proof (Prim2SF_valid t) as Hv. rewrite H in Hv.
  unfold SpecFloat.valid_binary, bounded, canonical_mantissa in Hv.
  apply andb_true_iff in Hv as [Hc _]. apply Z.eqb_eq in Hc.
  unfold fexp, emin, prec, emax in Hc.
  pose proof (digits2_bounds M) as Hb.
  assert (Hd : (Z.pos (digits2_pos M) <= 53)%Z) by lia.
  split; [|lia].
  apply Z.lt_le_trans with (2 ^ Z.pos (digits2_pos M))%Z; [lia|].
  apply Z.pow_le_mono_r; lia.
Qed.

Lemma float_value_finite s m e :
  Z.pos (digits2_pos m) = 53%Z -> (-1074 <= e <= 971)%Z ->
  float_value (SF2Prim (S754_finite s m e))
  = Some (Finite (inject_Z (cond_Zopp s (Z.pos m)) * 2 ^ e)).
Proof.
  intros Hd He. unfold float_value. rewrite Prim2SF_SF2Prim; [reflexivity|].
  unfold SpecFloat.valid_binary, bounded, canonical_mantissa.
  rewrite Hd, fexp_53 by lia. rewrite Z.eqb_refl. cbn [andb].
  apply Z.leb_le. unfold emax, prec. lia.
Qed.

Lemma scaled_opp m e :
  (inject_Z (- Z.pos m) * 2 ^ e == - (inject_Z (Z.pos m) * 2 ^ e))%Q.
Proof. rewrite inject_Z_opp. ring. Qed.

Lemma xnum_le_finite q r : xnum_le (Finite q) (Finite r) <-> (q <= r)%Q.
Proof. unfold xnum_le. cbn [xnum_ltb]. apply Qltb_false. Qed.

Lemma xnum_ltb_finite q r : xnum_ltb (Finite q) (Finite r) = true <-> (q < r)%Q.
Proof. cbn [xnum_ltb]. apply Qltb_true. Qed.

(** The finite values a float can stand for. *)
Lemma float_value_cases t q :
  float_value t = Some (Finite q) ->
  (q = 0%Q) \/
  exists s M E, Prim2SF t = S754_finite s M E /\
                q = (inject_Z (cond_Zopp s (Z.pos M)) * 2 ^ E)%Q.
Proof.
  unfold float_value. destruct (Prim2SF t) as [s|s| |s M E] eqn:Ht.
  - intros [= <-]. left. reflexivity.
  - destruct s; discriminate.
  - discriminate.
  - intros [= <-]. right. eauto.
Qed.

(** Rounding an integer to a float does not carry it beyond a float that it
    is below. *)
Lemma binary_round_below s p x t vt :
  binary_round prec emax s p 0 = x ->
  (forall s', x <> S754_infinity s') ->
  float_value t = Some vt ->
  xnum_ltb (Finite (inject_Z (cond_Zopp s (Z.pos p)))) vt = true ->
  exists q, float_value (SF2Prim x) = Some (Finite q) /\ xnum_le (Finite q) vt.
Proof.
  intros Hx Hfin Ht Hlt.
  destruct (Z.le_gt_cases (Z.pos (digits2_pos p)) 53%Z) as [Hsmall|Hlarge].
  - destruct (binary_round_small s p Hsmall) as (m & e & Hr & Hd & He & Hm).
    rewrite Hr in Hx. subst x. rewrite float_value_finite by lia.
    eexists. split; [reflexivity|].
    assert (Heq : (inject_Z (cond_Zopp s (Z.pos m)) * 2 ^ e
                   == inject_Z (cond_Zopp s (Z.pos p)))%Q).
    { assert (H1 : (inject_Z (Z.pos m) * 2 ^ e == inject_Z (Z.pos p))%Q).
      { rewrite Hm, inject_Z_mult, Zpower_Qpower by lia.
        rewrite <- Qmult_assoc, <- Qpower_plus by discriminate.
        replace (- e + e)%Z with 0%Z by lia. change (inject_Z 2 ^ 0)%Q with 1%Q. ring. }
      destruct s; cbn [cond_Zopp]; [|exact H1].
      rewrite scaled_opp, H1, inject_Z_opp. reflexivity. }
    destruct vt as [|qt|]; [discriminate Hlt| |reflexivity].
    apply xnum_le_finite. apply xnum_ltb_finite in Hlt.
    rewrite Heq. apply Qlt_le_weak, Hlt.
  - destruct (binary_round_large s p (Z.pos (digits2_pos p) - 53) eq_refl)
      as [Hinf | (m & e & m2 & Hr & Hd & He & Hm & Hm2 & Hlo)]; [lia| |].
    { rewrite Hinf in Hx. subst x. exfalso. eapply Hfin. reflexivity. }
    rewrite Hr in Hx. subst x. rewrite float_value_finite by lia.
    eexists. split; [reflexivity|].
    set (k := (Z.pos (digits2_pos p) - 53)%Z) in *.
    set (m1 := (Z.pos p / 2 ^ k)%Z) in *.
    assert (Hk2 : (0 < 2 ^ k)%Z) by (apply Z.pow_pos_nonneg; lia).
    assert (HP : (m1 * 2 ^ k <= Z.pos p)%Z).
    { unfold m1. rewrite Z.mul_comm. apply Z.mul_div_le. exact Hk2. }
    assert (HY : (m1 * 2 ^ k <= Z.pos m * 2 ^ e)%Z).
    { rewrite Hm. apply Z.mul_le_mono_nonneg_r; lia. }
    assert (Hbig : (2 ^ (52 + k) <= m1 * 2 ^ k)%Z).
    { rewrite Z.pow_add_r by lia. apply Z.mul_le_mono_nonneg_r; lia. }
    assert (Hq : (inject_Z (Z.pos m) * 2 ^ e == inject_Z (Z.pos m * 2 ^ e))%Q)
      by (apply scaled_int; lia).
    destruct vt as [|qt|]; [discriminate Hlt| |reflexivity].
    apply xnum_le_finite. apply xnum_ltb_finite in Hlt.
    destruct (float_value_cases _ _ Ht) as [-> | (sT & M & E & HT & ->)].
    + (* the float is zero *)
      destruct s; cbn [cond_Zopp] in *.
      * rewrite scaled_opp. pose proof (scaled_pos m e). lra.
      * exfalso. change 0%Q with (inject_Z 0) in Hlt. rewrite <- Zlt_Qlt in Hlt. lia.
    + destruct (float_canonical _ _ _ _ HT) as [HM HE].
      destruct s, sT; cbn [cond_Zopp] in *.
      * (* both negative *)
        rewrite !scaled_opp. rewrite scaled_opp, inject_Z_opp in Hlt.
        apply Qopp_le_compat.
        destruct (Z.lt_ge_cases E k) as [Hlow|Hhigh].
        -- pose proof (magnitude_small M E k HM Hlow ltac:(lia)) as Hs.
           rewrite Hq. apply Qlt_le_weak. eapply Qlt_le_trans; [exact Hs|].
           rewrite <- Zle_Qle. lia.
        -- rewrite Hq, scaled_int by lia. rewrite scaled_int in Hlt by lia.
           rewrite <- Zle_Qle.
           assert (Hlt' : (Z.pos M * 2 ^ E < Z.pos p)%Z).
           { apply Qopp_lt_compat in Hlt. rewrite !Qopp_involutive in Hlt.
             rewrite <- Zlt_Qlt in Hlt. exact Hlt. }
           replace E with ((E - k) + k)%Z in Hlt' |- * by lia.
           rewrite Z.pow_add_r in Hlt' |- * by lia. rewrite Z.mul_assoc in Hlt' |- *.
           assert (Hc : (Z.pos M * 2 ^ (E - k) <= m1)%Z).
           { unfold m1. apply Z.div_le_lower_bound; [exact Hk2|]. lia. }
           eapply Z.le_trans; [|exact HY].
           apply Z.mul_le_mono_nonneg_r; lia.
      * (* the integer is negative, the float positive *)
        rewrite scaled_opp. pose proof (scaled_pos m e). pose proof (scaled_pos M E). lra.
      * (* the integer is positive, the float negative *)
        exfalso. rewrite scaled_opp in Hlt. pose proof (scaled_pos M E).
        assert (0 < inject_Z (Z.pos p))%Q
          by (change 0%Q with (inject_Z 0); rewrite <- Zlt_Qlt; lia).
        lra.
      * (* both positive *)
        destruct (Z.lt_ge_cases E k) as [Hlow|Hhigh].
        -- exfalso. pose proof (magnitude_small M E k HM Hlow ltac:(lia)) as Hs.
           assert (inject_Z (2 ^ (52 + k)) <= inject_Z (Z.pos p))%Q
             by (rewrite <- Zle_Qle; lia).
           lra.
        -- rewrite Hq, scaled_int by lia. rewrite scaled_int in Hlt by lia.
           rewrite <- Zle_Qle. rewrite <- Zlt_Qlt in Hlt.
           replace E with ((E - k) + k)%Z in Hlt |- * by lia.
           rewrite Z.pow_add_r in Hlt |- * by lia. rewrite Z.mul_assoc in Hlt |- *.
           assert (Hc : (m1 < Z.pos M * 2 ^ (E - k))%Z).
           { unfold m1. apply Z.div_lt_upper_bound; [exact Hk2|]. lia. }
           rewrite Hm. apply Z.mul_le_mono_nonneg_r; lia.
Qed.

Lemma binary_normalize_nonneg m e :
  (0 <= m)%Z ->
  match binary_normalize prec emax m e false with
  | S754_zero _ => True
  | S754_infinity s | S754_finite s _ _ => s = false
  | S754_nan => False
  end.
Proof.
  intros H. destruct (Z.eq_dec m 0%Z) as [->|Hne]; [exact I|].
  pose proof (binary_normalize_pos m e ltac:(lia)) as Hr.
  destruct (binary_normalize prec emax m e false); auto.
Qed.

(** The difference of two floats of which the second is finite and stands
    for no more than the first is not negative, and not NaN. *)
Lemma float_sub_not_negative (x y : float) vx q :
  float_value x = Some vx -> float_value y = Some (Finite q) ->
  xnum_le (Finite q) vx ->
  non_negative (x - y).
Proof.
  intros Hx Hy Hle. apply non_negative_of_SF. rewrite sub_spec.
  unfold float_value in Hx, Hy. unfold SF64sub, SFsub.
  destruct (Prim2SF y) as [sy|sy| |sy my ey]; try discriminate Hy;
    [|destruct sy; discriminate Hy|]; injection Hy as <-;
    (destruct (Prim2SF x) as [sx|sx| |sx mx ex]; try discriminate Hx;
     injection Hx as <-); unfold xnum_le in Hle; cbn [xnum_ltb] in Hle.
  - destruct sx, sy; exact I.
  - destruct sx; [discriminate Hle|reflexivity].
  - apply Qltb_false in Hle. pose proof (cond_Zopp_scaled_sign sx mx ex) as Hs.
    destruct sx; [lra|reflexivity].
  - apply Qltb_false in Hle. pose proof (cond_Zopp_scaled_sign sy my ey) as Hs.
    destruct sy; [reflexivity|lra].
  - destruct sx; [discriminate Hle|reflexivity].
  - apply Qltb_false in Hle. cbv zeta.
    pose proof (cond_Zopp_aligned sx mx ex (Z.min ex ey) (Z.le_min_l _ _)) as Hax.
    pose proof (cond_Zopp_aligned sy my ey (Z.min ex ey) (Z.le_min_r _ _)) as Hay.
    rewrite <- Hax, <- Hay in Hle.
    set (a := cond_Zopp sx _) in *. set (b := cond_Zopp sy _) in *.
    apply binary_normalize_nonneg.
    pose proof (two_power_pos (Z.min ex ey)) as Hp.
    assert (Hab : (inject_Z b <= inject_Z a)%Q).
    { apply Qnot_lt_le. intros Hlt.
      apply (Qle_not_lt _ _ Hle). apply Qmult_lt_compat_r; assumption. }
    rewrite <- Zle_Qle in Hab. lia.
Qed.

(** The float of an integer that is below a float is not above it: their
    difference is not negative. *)
Lemma float_of_int_below z y t vt :
  float_of_int z = Ok y -> float_value t = Some vt ->
  xnum_ltb (Finite (inject_Z z)) vt = true ->
  non_negative (t - y).
Proof.
  unfold float_of_int. intros Hy Ht Hlt.
  assert (Hround : forall s p,
            z = cond_Zopp s (Z.pos p) ->
            match binary_round prec emax s p 0 with
            | S754_infinity _ => Raise OverflowError
            | x => Ok (SF2Prim x)
            end = Ok y ->
            non_negative (t - y)).
  { intros s p Hz Hr. rewrite Hz in Hlt.
    destruct (binary_round prec emax s p 0) as [s'|s'| |s' m e] eqn:Hx;
      try discriminate Hr; injection Hr as <-;
      (destruct (binary_round_below s p _ t vt Hx) as (q & Hq & Hle);
       [intros ?; discriminate|assumption|assumption|]);
      eapply float_sub_not_negative; eassumption. }
  destruct z as [|p|p]; cbn [binary_normalize] in Hy.
  - injection Hy as <-.
    apply (float_sub_not_negative t _ vt 0%Q Ht); [reflexivity|].
    apply xnum_ltb_le, Hlt.
  - apply (Hround false p); [reflexivity|exact Hy].
  - apply (Hround true p); [reflexivity|exact Hy].
Qed.

(** ** Code that may raise *)

Lemma bind_Ok {A B} (m : result A) (k : A -> result B) (b : B) :
  (m ≫= k) = Ok b <-> exists a, m = Ok a /\ k a = Ok b.
Proof.
  destruct m as [a|e]; cbn; split.
  - intros H. exists a. auto.
  - intros (a' & [= <-] & H). exact H.
  - discriminate.
  - intros (a' & [=] & _).
Qed.

Ltac bind_inv H :=
  let a := fresh "a" in
  let E := fresh "E" in
  apply bind_Ok in H as (a & E & H).

Lemma bind_Raise {A B} (m : result A) (k : A -> result B) (e : exn) :
  (m ≫= k) = Raise e -> m = Raise e \/ exists a, m = Ok a /\ k a = Raise e.
Proof.
  destruct m as [a|e']; cbn.
  - intros H. right. eauto.
  - intros [= ->]. left. reflexivity.
Qed.

Lemma Forall_sort_by {A} (key : A -> json) (P : A -> Prop) (l : list A) :
  Forall P l -> Forall P (sort_by key_ltb key l).
Proof.
  rewrite !List.Forall_forall. intros H x Hx. apply H.
  exact (Permutation_in _ (sort_by_perm key l) Hx).
Qed.

Lemma filter_true_all {A} (l : list A) : List.filter (fun _ => true) l = l.
Proof. induction l as [|x l IH]; cbn; [|rewrite IH]; reflexivity. Qed.

Lemma fmt1f_numeric v : numeric v -> exists x, fmt1f v = Ok (F1 x).
Proof.
  intros (a & x & Ha & Hx). exists x. unfold fmt1f. rewrite Ha.
  destruct v; try discriminate Ha; rewrite Hx; reflexivity.
Qed.

Lemma fmt1f_F1 v x : fmt1f v = Ok x -> exists q, x = F1 q.
Proof.
  unfold fmt1f. intros H.
  assert (H' : match as_num v with
               | Some a => y ← to_float a; Ok (F1 y)
               | None => Raise TypeError
               end = Ok x) by (destruct v; try discriminate H; exact H).
  destruct (as_num v) as [a|]; [|discriminate]. bind_inv H'.
  injection H' as <-. eauto.
Qed.

Lemma dict_get_raises d k v e : dict_get d k v = Raise e -> is_Exception e = true.
Proof.
  unfold dict_get. destruct d; try (intros [= <-]; reflexivity).
  destruct (assoc k fields); discriminate.
Qed.

Lemma to_float_raises a e : to_float a = Raise e -> is_Exception e = true.
Proof.
  destruct a as [n|x]; cbn; [|discriminate]. unfold float_of_int.
  destruct (binary_normalize prec emax n 0 false); try discriminate.
  intros [= <-]. reflexivity.
Qed.

Lemma py_lt_raises v n e : py_lt v n = Raise e -> is_Exception e = true.
Proof. unfold py_lt. destruct (as_num v); [discriminate|]. intros [= <-]. reflexivity. Qed.

Lemma py_ge_raises v n e : py_ge v n = Raise e -> is_Exception e = true.
Proof. unfold py_ge. destruct (as_num v); [discriminate|]. intros [= <-]. reflexivity. Qed.

Lemma py_gt_raises v n e : py_gt v n = Raise e -> is_Exception e = true.
Proof. unfold py_gt. destruct (as_num v); [discriminate|]. intros [= <-]. reflexivity. Qed.

Lemma num_add_raises a b e : num_add a b = Raise e -> is_Exception e = true.
Proof.
  unfold num_add. intros H.
  assert (H' : (x ← to_float a; y ← to_float b; Ok (Float (x + y))) = Raise e)
    by (destruct a, b; try discriminate H; exact H).
  apply bind_Raise in H' as [H'|(x & _ & H')]; [eapply to_float_raises, H'|].
  apply bind_Raise in H' as [H'|(y & _ & H')]; [eapply to_float_raises, H'|].
  discriminate.
Qed.

Lemma py_add_raises a b e : py_add a b = Raise e -> is_Exception e = true.
Proof.
  unfold py_add. intros H.
  destruct (as_num a) as [x|], (as_num b) as [y|];
    try (destruct a, b; try discriminate H; injection H as <-; reflexivity).
  apply bind_Raise in H as [H|(s & _ & H)]; [eapply num_add_raises, H|discriminate].
Qed.

Lemma py_div_4_raises v e : py_div_4 v = Raise e -> is_Exception e = true.
Proof.
  unfold py_div_4. destruct (as_num v) as [[n|x]|]; try discriminate.
  - destruct (binary_normalize prec emax n (-2) false); try discriminate.
    intros [= <-]. reflexivity.
  - intros [= <-]. reflexivity.
Qed.

Lemma py_rsub_raises x v e : py_rsub x v = Raise e -> is_Exception e = true.
Proof.
  unfold py_rsub. destruct (as_num v) as [a|]; [|intros [= <-]; reflexivity].
  intros H. apply bind_Raise in H as [H|(y & _ & H)];
    [eapply to_float_raises, H|discriminate].
Qed.

Lemma fmt1f_raises v e : fmt1f v = Raise e -> is_Exception e = true.
Proof.
  unfold fmt1f. intros H.
  destruct v; try (injection H as <-; reflexivity);
    cbn [as_num] in H;
    try (apply bind_Raise in H as [H|(y & _ & H)];
         [eapply to_float_raises, H|discriminate]).
  destruct b; apply bind_Raise in H as [H|(y & _ & H)];
    try discriminate; eapply to_float_raises, H.
Qed.


(** * The coverage evaluator: properties *)
Module CoverageFacts.
Import Coverage CoverageSpec.

Lemma dict_get_member d k default v :
  dict_get d k default = Ok v -> member k default d = v.
Proof.
  unfold dict_get, member. destruct d; try discriminate.
  destruct (assoc k fields); intros [= <-]; reflexivity.
Qed.

Lemma py_file_percent_member d v :
  py_file_percent d = Ok v -> file_percentage Backend d = v.
Proof.
  unfold py_file_percent. intros H. bind_inv H. cbn [file_percentage].
  rewrite (dict_get_member _ _ _ _ E). apply dict_get_member, H.
Qed.

Lemma jest_file_percent_member d v :
  jest_file_percent d = Ok v -> file_percentage Frontend d = v.
Proof.
  unfold jest_file_percent, metric_pct. intros H. bind_inv H. cbn [file_percentage].
  rewrite (dict_get_member _ _ _ _ E). apply dict_get_member, H.
Qed.

(** The comparison of the loop is the comparison of what the percentage and
    the threshold stand for. *)
Lemma py_lt_below v thr b path :
  py_lt v (Float thr) = Ok b -> b = below thr (path, v).
Proof.
  unfold py_lt, below, json_value, num_ltb. cbn [snd num_value].
  destruct (as_num v) as [a|]; [|discriminate]. intros [= <-]. reflexivity.
Qed.

Lemma below_valued thr e : below thr e = true -> valued pct_key e.
Proof.
  unfold below, valued, pct_key.
  destruct (json_value (snd e)); [discriminate|discriminate].
Qed.

Lemma collect_uncovered_spec percent_of percentage skip thr items u :
  (forall d v, percent_of d = Ok v -> percentage d = v) ->
  collect_uncovered percent_of skip thr items = Ok u ->
  u = List.filter (below thr)
        (List.map (fun '(path, file_data) => (path, percentage file_data))
                  (List.filter (fun kv => negb (skip (fst kv))) items)).
Proof.
  intros Hread. revert u. induction items as [|[p d] items IH]; intros u H.
  - injection H as <-. reflexivity.
  - cbn [collect_uncovered] in H. cbn [List.filter fst].
    destruct (skip p); cbn [negb].
    + apply IH, H.
    + bind_inv H. bind_inv H. bind_inv H. injection H as <-.
      cbn [List.map List.filter]. rewrite (Hread _ _ E).
      rewrite <- (py_lt_below _ _ _ p E0), <- (IH _ E1). reflexivity.
Qed.

Lemma parse_report_uncovered json_loads fs o self p r :
  parse_report json_loads fs o self p = Ok r ->
  exists data,
    load_json_file json_loads fs p = Ok data /\
    uncovered_files r =
      sort_by key_ltb pct_key
        (List.filter (below (threshold_for o self)) (entries_of o data)).
Proof.
  destruct o; cbn [parse_report threshold_for]; unfold entries_of;
    cbn [file_documents];
    unfold parse_coverage_py_report, parse_jest_report; intros H.
  - bind_inv H. exists a. split; [exact E|].
    repeat bind_inv H. injection H as <-. cbn [uncovered_files].
    rewrite (dict_get_member _ _ _ _ E2).
    unfold dict_items in E3. destruct a2; try discriminate.
    injection E3 as <-. f_equal.
    rewrite (collect_uncovered_spec _ (file_percentage Backend) _ _ _ _
               py_file_percent_member E4).
    cbn [negb]. rewrite filter_true_all. reflexivity.
  - bind_inv H. exists a. split; [exact E|].
    repeat bind_inv H. injection H as <-. cbn [uncovered_files].
    unfold dict_items in E9. destruct a; try discriminate.
    injection E9 as <-. f_equal.
    apply (collect_uncovered_spec _ (file_percentage Frontend) _ _ _ _
             jest_file_percent_member E10).
Qed.

Lemma filter_below_valued thr (l : list (string * json)) :
  Forall (valued pct_key) (List.filter (below thr) l).
Proof.
  apply List.Forall_forall. intros e He. apply List.filter_In in He as [_ He].
  eapply below_valued, He.
Qed.

Lemma function_line_ok r label tail :
  numeric (function_percent r) ->
  exists ls, function_line r label tail = Ok ls /\
             (ls = [] \/ exists x, ls = [[Txt label; F1 x; Txt tail]]).
Proof.
  intros Hn. unfold function_line.
  destruct (fmt1f_numeric _ Hn) as (x & Hf).
  destruct Hn as (a & _ & Ha & _). unfold py_gt. rewrite Ha.
  cbn [mbind result_bind rbind]. destruct (num_ltb (Int 0) a).
  - rewrite Hf. cbn. eauto.
  - eauto.
Qed.

Lemma rmap_rows_ok (entries : list (string * json)) :
  Forall (fun e : string * json => numeric (snd e)) entries ->
  exists rows,
    rmap (fun '(file_path, file_pct) =>
            x ← fmt1f file_pct;
            Ok [Txt "     "; Txt file_path; Txt ": "; x; Txt "%"]) entries = Ok rows.
Proof.
  induction 1 as [|[p v] l Hv _ (rows & IH)]; cbn.
  - eauto.
  - cbn [snd] in Hv. destruct (fmt1f_numeric _ Hv) as (x & ->). cbn.
    rewrite IH. eauto.
Qed.

Lemma num_leb_at_least total thr :
  num_leb (Float thr) total = true <-> at_least total thr.
Proof.
  unfold num_leb, at_least, xnum_le. cbn [num_value]. split.
  - destruct (float_value thr) as [t|]; [|discriminate].
    destruct (num_value total) as [x|]; [|discriminate].
    intros H. apply negb_true_iff in H. eauto.
  - intros (x & t & -> & -> & H). rewrite H. reflexivity.
Qed.

(** An evaluation that fails although both numbers are numbers found the
    total strictly below the threshold. *)
Lemma num_leb_false total thr vt :
  num_leb (Float thr) total = false ->
  float_value thr = Some vt ->
  forall x, num_value total = Some x -> xnum_ltb x vt = true.
Proof.
  unfold num_leb. cbn [num_value]. intros H Hvt x Hx. rewrite Hvt, Hx in H.
  apply negb_false_iff in H. exact H.
Qed.

Lemma gap_non_negative total thr t :
  num_leb (Float thr) total = false ->
  to_float total = Ok t ->
  not_nan thr -> num_value total <> None ->
  non_negative (thr - t).
Proof.
  unfold not_nan. intros Hfail Ht Hthr Htot.
  destruct (float_value thr) as [vt|] eqn:Hvt; [|contradiction].
  destruct (num_value total) as [x|] eqn:Hx; [|contradiction].
  pose proof (num_leb_false _ _ _ Hfail Hvt _ Hx) as Hlt.
  destruct total as [z|y]; cbn [to_float num_value] in Ht, Hx.
  - injection Hx as <-. eapply float_of_int_below; eassumption.
  - injection Ht as <-. eapply float_sub_non_negative; eassumption.
Qed.

Lemma check_threshold_decision report threshold stack :
  report_typed report ->
  stack <> "   Gap: " ->
  exists total message err,
    as_num (total_percent report) = Some total /\
    check_threshold report threshold stack
      = Ok (num_leb (Float threshold) total, message, err) /\
    (num_leb (Float threshold) total = true <-> at_least total threshold) /\
    (num_leb (Float threshold) total = true ->
       err = [] /\ ~ In (Txt "   Gap: ") message) /\
    (num_leb (Float threshold) total = false ->
       exists t,
         to_float total = Ok t /\
         err = [[FDumps (stderr_data report threshold (threshold - t))]] /\
         dict_get (stderr_data report threshold (threshold - t)) "gap" JNull
           = Ok (JFloat (threshold - t)) /\
         (exists pre post, message = pre ++ gap_line (threshold - t) ++ post) /\
         (not_nan threshold -> num_value total <> None ->
          non_negative (threshold - t))).
Proof.
  intros (Ht & Hs & Hb & Hf & Hu) Hstack.
  destruct (fmt1f_numeric _ Ht) as (xt & Hft).
  destruct (fmt1f_numeric _ Hs) as (xs & Hfs).
  destruct (fmt1f_numeric _ Hb) as (xb & Hfb).
  destruct Ht as (total & t & Htot & Hfloat).
  unfold check_threshold, py_ge. rewrite Htot. cbn [mbind result_bind rbind].
  exists total.
  destruct (num_leb (Float threshold) total) eqn:Hle.
  - rewrite Hft, Hfs, Hfb. cbn [mbind result_bind rbind].
    destruct (function_line_ok report "   Function: " "%
" Hf) as (ls & -> & Hls). cbn [mbind result_bind rbind].
    eexists _, _.
    split; [reflexivity|]. split; [reflexivity|].
    split; [pose proof (num_leb_at_least total threshold) as Hiff;
            rewrite Hle in Hiff; exact Hiff|].
    split; [|discriminate].
    intros _. split; [reflexivity|].
    destruct Hls as [-> | (q & ->)]; cbn; intros H;
      repeat (destruct H as [H|H]; [congruence|]); exact H.
  - unfold py_rsub. rewrite Htot. cbn [mbind result_bind rbind]. rewrite Hfloat.
    cbn [mbind result_bind rbind].
    rewrite Hft, Hfs, Hfb. cbn [mbind result_bind rbind].
    destruct (function_line_ok report "     Function: " "%" Hf) as (ls & -> & _).
    cbn [mbind result_bind rbind].
    assert (exists files,
      match uncovered_files report with
      | [] => Ok []
      | _ :: _ =>
          rows ← rmap (fun '(file_path, file_pct) =>
                         x ← fmt1f file_pct;
                         Ok [Txt "     "; Txt file_path; Txt ": "; x; Txt "%"])
                      (firstn 5 (uncovered_files report));
          Ok ([ [];
                [Txt "   Top ";
                 FInt (Z.min 5 (Z.of_nat (List.length (uncovered_files report))));
                 Txt " files needing coverage:"] ] ++ rows)
      end = Ok files) as (files & ->).
    { destruct (rmap_rows_ok (firstn 5 (uncovered_files report))) as (rows & Hrows);
        [apply Forall_take, Hu|].
      destruct (uncovered_files report) as [|e l]; [eauto|].
      rewrite Hrows. cbn. eauto. }
    cbn [mbind result_bind rbind].
    eexists _, _.
    split; [reflexivity|]. split; [reflexivity|].
    split; [pose proof (num_leb_at_least total threshold) as Hiff;
            rewrite Hle in Hiff; exact Hiff|].
    split; [discriminate|].
    intros _. exists t. split; [reflexivity|].
    split; [reflexivity|]. split; [reflexivity|]. split.
    + cbn. eexists (_ :: _ :: _ :: _ :: _ :: _ :: _ :: _ :: _ :: []), _.
      cbn. reflexivity.
    + intros Hn Hv. exact (gap_non_negative _ _ _ Hle Hfloat Hn Hv).
Qed.

Lemma dict_items_raises d e : dict_items d = Raise e -> is_Exception e = true.
Proof. destruct d; cbn; try discriminate; intros [= <-]; reflexivity. Qed.

Lemma load_json_file_raises json_loads fs p e :
  load_json_file json_loads fs p = Raise e -> is_Exception e = true.
Proof.
  unfold load_json_file. destruct (fs p) as [[c|]|]; try (intros [= <-]; reflexivity).
  destruct (json_loads c); [discriminate|]. intros [= <-]. reflexivity.
Qed.

Lemma metric_pct_raises t m e : metric_pct t m = Raise e -> is_Exception e = true.
Proof.
  unfold metric_pct. intros H.
  apply bind_Raise in H as [H|(a & _ & H)]; eapply dict_get_raises; eassumption.
Qed.

Lemma py_file_percent_raises d e : py_file_percent d = Raise e -> is_Exception e = true.
Proof.
  unfold py_file_percent. intros H.
  apply bind_Raise in H as [H|(a & _ & H)]; eapply dict_get_raises; eassumption.
Qed.

Lemma collect_uncovered_raises percent_of skip thr items e :
  (forall d e', percent_of d = Raise e' -> is_Exception e' = true) ->
  collect_uncovered percent_of skip thr items = Raise e -> is_Exception e = true.
Proof.
  intros Hp. induction items as [|[p d] items IH]; cbn [collect_uncovered].
  - discriminate.
  - destruct (skip p); [exact IH|]. intros H.
    apply bind_Raise in H as [H|(a & _ & H)]; [eapply Hp, H|].
    apply bind_Raise in H as [H|(q & _ & H)]; [eapply py_lt_raises, H|].
    apply bind_Raise in H as [H|(u & _ & H)]; [apply IH, H|discriminate].
Qed.

Ltac raise_inv H :=
  repeat (apply bind_Raise in H as [H|(? & _ & H)];
          [first [ eapply dict_get_raises, H | eapply py_add_raises, H
                 | eapply py_div_4_raises, H
                 | eapply dict_items_raises, H | eapply load_json_file_raises, H
                 | eapply metric_pct_raises, H
                 | eapply collect_uncovered_raises; [|exact H] ]|]).

Lemma parse_report_raises json_loads fs o self p e :
  parse_report json_loads fs o self p = Raise e -> is_Exception e = true.
Proof.
  destruct o; cbn [parse_report];
    unfold parse_coverage_py_report, parse_jest_report; intros H.
  - raise_inv H; try discriminate. apply py_file_percent_raises.
  - raise_inv H; try discriminate. intros d e'. apply metric_pct_raises.
Qed.

Lemma run_located json_loads fs self report_path p :
  located fs report_path p -> path_exists fs p = true ->
  run json_loads fs self report_path =
    '(passed, message, err) ← validate_coverage json_loads fs self p;
    Ok {| exit_code := if passed : bool then 0 else 2;
          stdout := [message]; stderr := err |}.
Proof.
  unfold run, located. destruct report_path as [q|].
  - intros -> ->. reflexivity.
  - intros -> ->. reflexivity.
Qed.

Lemma detect_report_type_cases p :
  detect_report_type p = Some "coverage.py" \/ detect_report_type p = Some "jest" \/
  detect_report_type p = Some "lcov" \/ detect_report_type p = None.
Proof.
  unfold detect_report_type.
  repeat match goal with |- context [if ?b then _ else _] => destruct b end; auto.
Qed.

(** Whatever happens, the process ends with code 0 or 2. *)
Lemma run_exit_codes json_loads fs self report_path proc :
  run json_loads fs self report_path = Ok proc ->
  exit_code proc = 0%Z \/ exit_code proc = 2%Z.
Proof.
  unfold run. destruct (match report_path with Some p => Some p | None => find_coverage_report fs end) as [p|].
  - destruct (negb (path_exists fs p)); [intros [= <-]; auto|].
    intros H. bind_inv H. destruct a as [[[] m] e]; injection H as <-; auto.
  - intros [= <-]; auto.
Qed.

Lemma rmap_raises {A B} (f : A -> result B) (xs : list A) e :
  (forall x e', f x = Raise e' -> is_Exception e' = true) ->
  rmap f xs = Raise e -> is_Exception e = true.
Proof.
  intros Hf. induction xs as [|x xs IH]; cbn; [discriminate|].
  destruct (f x) as [y|e'] eqn:Ex.
  - destruct (rmap f xs) as [ys|e'']; [discriminate|].
    intros [= <-]. apply IH. reflexivity.
  - intros [= <-]. eapply Hf, Ex.
Qed.

Lemma function_line_raises r label tail e :
  function_line r label tail = Raise e -> is_Exception e = true.
Proof.
  unfold function_line. intros H.
  apply bind_Raise in H as [H|(q & _ & H)]; [eapply py_gt_raises, H|].
  destruct q; [|discriminate].
  apply bind_Raise in H as [H|(x & _ & H)]; [eapply fmt1f_raises, H|discriminate].
Qed.

Lemma check_threshold_raises r thr stack e :
  check_threshold r thr stack = Raise e -> is_Exception e = true.
Proof.
  unfold check_threshold. intros H.
  apply bind_Raise in H as [H|(passed & _ & H)]; [eapply py_ge_raises, H|].
  destruct passed.
  - repeat (apply bind_Raise in H as [H|(? & _ & H)];
            [first [eapply fmt1f_raises, H | eapply function_line_raises, H]|]).
    discriminate.
  - apply bind_Raise in H as [H|(gap & _ & H)]; [eapply py_rsub_raises, H|].
    repeat (apply bind_Raise in H as [H|(? & _ & H)];
            [first [eapply fmt1f_raises, H | eapply function_line_raises, H]|]).
    apply bind_Raise in H as [H|(? & _ & H)]; [|discriminate].
    destruct (uncovered_files r); [discriminate|].
    apply bind_Raise in H as [H|(? & _ & H)]; [|discriminate].
    eapply rmap_raises; [|exact H].
    intros [fp v] e' H'. apply bind_Raise in H' as [H'|(? & _ & H')];
      [eapply fmt1f_raises, H'|discriminate].
Qed.

Lemma validate_coverage_raises json_loads fs self p e :
  validate_coverage json_loads fs self p = Raise e -> is_Exception e = true.
Proof.
  unfold validate_coverage. destruct (detect_report_type p) as [t|]; [|discriminate].
  destruct (String.eqb t "coverage.py"); [|destruct (String.eqb t "jest")].
  - pose proof (parse_report_raises json_loads fs Backend self p) as Hp.
    cbn [parse_report] in Hp.
    destruct (parse_coverage_py_report json_loads fs self p) as [r|e'];
      cbn [mbind result_bind rbind].
    + apply check_threshold_raises.
    + rewrite (Hp e' eq_refl). discriminate.
  - pose proof (parse_report_raises json_loads fs Frontend self p) as Hp.
    cbn [parse_report] in Hp.
    destruct (parse_jest_report json_loads fs self p) as [r|e'];
      cbn [mbind result_bind rbind].
    + apply check_threshold_raises.
    + rewrite (Hp e' eq_refl). discriminate.
  - discriminate.
Qed.

Lemma run_raises json_loads fs self report_path e :
  run json_loads fs self report_path = Raise e -> is_Exception e = true.
Proof.
  unfold run.
  destruct (match report_path with Some p => Some p | None => find_coverage_report fs end)
    as [p|]; [|discriminate].
  destruct (negb (path_exists fs p)); [discriminate|].
  intros H. apply bind_Raise in H as [H|([[passed m] err] & _ & H)];
    [eapply validate_coverage_raises, H|discriminate].
Qed.

Lemma init_raises float_of_str getenv e :
  init float_of_str getenv = Raise e -> is_Exception e = true.
Proof.
  unfold init, env_float. intros H.
  repeat (apply bind_Raise in H as [H|(? & _ & H)];
          [repeat match type of H with
                  | context [match ?x with _ => _ end] => destruct x
                  end; try discriminate; injection H as <-; reflexivity|]).
  discriminate.
Qed.

(** The process of the coverage evaluator ends with 0 or 2, and with 2 only
    when [run] returned 2. *)
Lemma main_exit_code json_loads float_of_str fs getenv argv :
  exit_code (main json_loads float_of_str fs getenv argv) = 0%Z \/
  exists validator report_path proc,
    run json_loads fs validator report_path = Ok proc /\
    main json_loads float_of_str fs getenv argv = proc /\
    exit_code proc = 2%Z.
Proof.
  unfold main.
  destruct (init float_of_str getenv) as [validator|e] eqn:Hinit;
    cbn [mbind result_bind rbind].
  - match goal with
    | |- context [run json_loads fs validator ?rp] =>
        destruct (run json_loads fs validator rp) as [proc|e] eqn:Hrun
    end.
    + destruct (run_exit_codes _ _ _ _ _ Hrun) as [H0|H2]; [left; exact H0|].
      right. eexists _, _, proc. split; [exact Hrun|]. split; [reflexivity|exact H2].
    + rewrite (run_raises _ _ _ _ _ Hrun). left. reflexivity.
  - rewrite (init_raises _ _ _ Hinit). left. reflexivity.
Qed.

Lemma as_num_of_num n : as_num (of_num n) = Some n.
Proof. destruct n; reflexivity. Qed.

(** A sum that is a number is a sum of numbers. *)
Lemma py_add_number a b c n :
  py_add a b = Ok c -> as_num c = Some n ->
  exists x y, as_num a = Some x /\ as_num b = Some y /\ num_add x y = Ok n /\
              c = of_num n.
Proof.
  unfold py_add. intros H Hc.
  destruct (as_num a) as [x|] eqn:Ha, (as_num b) as [y|] eqn:Hb;
    try (destruct a, b; try discriminate H; injection H as <-; discriminate Hc).
  bind_inv H. injection H as <-. exists x, y.
  rewrite as_num_of_num in Hc. injection Hc as <-. auto.
Qed.

Lemma py_div_4_number v t :
  py_div_4 v = Ok t -> exists n x, as_num v = Some n /\ t = JFloat x.
Proof.
  unfold py_div_4. destruct (as_num v) as [[n|x]|]; [| |discriminate].
  - destruct (binary_normalize prec emax n (-2) false); try discriminate;
      intros [= <-]; eauto.
  - intros [= <-]. eauto.
Qed.

(** C6, amended.  For every frontend ([coverage-summary.json]) report that
    parses, the four sub-metrics are the [pct] entries of [statements],
    [branches], [functions] and [lines] under [total] (0.0 when absent); they
    are numbers, and [total_percent] is the float that Python's arithmetic
    gives for their unweighted mean: the four are added from left to right
    and the sum is divided by 4.  For four floats that is
    [((s + b) + f + l) / 4] in binary64 arithmetic, every operation rounded
    to nearest; for four integers it is the exact mean, rounded once.  The
    metrics 90, 80, 70 and 100 give 85.0 either way. *)
Theorem jest_total_percent_is_mean json_loads fs self p r :
  parse_jest_report json_loads fs self p = Ok r ->
  exists data totals,
    load_json_file json_loads fs p = Ok data /\
    dict_get data "total" (JObj []) = Ok totals /\
    metric_pct totals "statements" = Ok (statement_percent r) /\
    metric_pct totals "branches" = Ok (branch_percent r) /\
    metric_pct totals "functions" = Ok (function_percent r) /\
    metric_pct totals "lines" = Ok (line_percent r) /\
    (exists s b f l sb sbf sum t,
       as_num (statement_percent r) = Some s /\
       as_num (branch_percent r) = Some b /\
       as_num (function_percent r) = Some f /\
       as_num (line_percent r) = Some l /\
       num_add s b = Ok sb /\ num_add sb f = Ok sbf /\ num_add sbf l = Ok sum /\
       py_div_4 (of_num sum) = Ok (JFloat t) /\
       total_percent r = JFloat t) /\
    (forall s b f l,
       statement_percent r = JFloat s -> branch_percent r = JFloat b ->
       function_percent r = JFloat f -> line_percent r = JFloat l ->
       total_percent r = JFloat (float_mean s b f l)) /\
    (forall s b f l,
       statement_percent r = JInt s -> branch_percent r = JInt b ->
       function_percent r = JInt f -> line_percent r = JInt l ->
       total_percent r = JFloat (int_mean s b f l)) /\
    float_mean 90 80 70 100 = 85%float /\
    int_mean 90 80 70 100 = 85%float.
Proof.
  unfold parse_jest_report. intros H.
  bind_inv H. rename a into data, E into Hdata.
  bind_inv H. rename a into totals, E into Htotals.
  bind_inv H. rename a into vs, E into Hvs.
  bind_inv H. rename a into vb, E into Hvb.
  bind_inv H. rename a into vf, E into Hvf.
  bind_inv H. rename a into vl, E into Hvl.
  bind_inv H. rename a into sb, E into Hsb.
  bind_inv H. rename a into sbf, E into Hsbf.
  bind_inv H. rename a into sum, E into Hsum.
  bind_inv H. rename a into total, E into Htotal.
  bind_inv H. bind_inv H. injection H as <-. cbn.
  exists data, totals. repeat (split; [assumption|]).
  destruct (py_div_4_number _ _ Htotal) as (nsum & t & Hnsum & ->).
  destruct (py_add_number _ _ _ _ Hsum Hnsum) as (nsbf & l & Hnsbf & Hl & Hadd3 & Hof).
  destruct (py_add_number _ _ _ _ Hsbf Hnsbf) as (nsb & f & Hnsb & Hf & Hadd2 & _).
  destruct (py_add_number _ _ _ _ Hsb Hnsb) as (s & b & Hs & Hb & Hadd1 & _).
  split; [|split; [|split; [|split]]].
  - exists s, b, f, l, nsb, nsbf, nsum, t. repeat (split; [assumption|]).
    split; [|reflexivity]. rewrite <- Hof. exact Htotal.
  - intros xs xb xf xl -> -> -> ->. cbn in Hsb. injection Hsb as <-.
    cbn in Hsbf. injection Hsbf as <-. cbn in Hsum. injection Hsum as <-.
    cbn in Htotal. injection Htotal as <-. reflexivity.
  - intros xs xb xf xl -> -> -> ->. cbn in Hsb. injection Hsb as <-.
    cbn in Hsbf. injection Hsbf as <-. cbn in Hsum. injection Hsum as <-.
    cbn [py_div_4 as_num] in Htotal. unfold int_mean.
    destruct (binary_normalize prec emax (xs + xb + xf + xl) (-2) false);
      try discriminate; injection Htotal as <-; reflexivity.
  - reflexivity.
  - reflexivity.
Qed.

Lemma jest_total_percent_is_mean_witness :
  total_percent demo_jest_report = JFloat 85.
Proof.
  destruct (jest_total_percent_is_mean demo_loads demo_fs demo_validator
              "web/coverage-summary.json" demo_jest_report)
    as (data & totals & _ & _ & _ & _ & _ & _ & _ & Hfloats & _).
  - vm_compute. reflexivity.
  - rewrite (Hfloats 90 80 70 100)%float by reflexivity. reflexivity.
Defined.

(** C6, as stated, fails: with the metrics 60.3, 69.1, 86.7 and 63.9 the
    total is 69.999999999999986, which is not the mean of the four numbers
    the report holds (nor 70, the mean of the four decimal numbers). *)
Lemma jest_total_percent_is_rounded :
  exists r s b f l t,
    parse_jest_report odd_loads odd_fs demo_validator "rounded/coverage-summary.json"
    = Ok r /\
    json_value (statement_percent r) = Some (Finite s) /\
    json_value (branch_percent r) = Some (Finite b) /\
    json_value (function_percent r) = Some (Finite f) /\
    json_value (line_percent r) = Some (Finite l) /\
    json_value (total_percent r) = Some (Finite t) /\
    ~ (t == exact_mean s b f l)%Q /\
    ~ (t == 70)%Q.
Proof.
  eexists _, _, _, _, _, _.
  split; [vm_compute; reflexivity|].
  repeat (split; [vm_compute; reflexivity|]).
  split; intros H; apply Qeq_bool_iff in H; vm_compute in H; discriminate H.
Qed.

(** C7, amended.  For every report that one of the two parsers returns and
    whose percentages are floats (or integers in the range of the floats),
    the evaluator returns the verdict [total_percent >= threshold] for the
    threshold of the report's origin: it passes exactly when both are
    numbers and the total stands for at least what the threshold stands
    for.  On success nothing is written to the diagnostic channel and the
    message has no [Gap:] line.  On failure the gap is the float
    [threshold - total_percent], the total converted to a float first and
    the difference rounded to nearest; it is reported both in the payload of
    the diagnostic channel and in the [Gap:] line of the message, and it is
    not negative unless the threshold or the total is NaN. *)
Theorem validate_coverage_threshold json_loads fs o self p report :
  detect_report_type p = Some (report_tag o) ->
  parse_report json_loads fs o self p = Ok report ->
  report_typed report ->
  exists total message err,
    as_num (total_percent report) = Some total /\
    validate_coverage json_loads fs self p
      = Ok (num_leb (Float (threshold_for o self)) total, message, err) /\
    (num_leb (Float (threshold_for o self)) total = true
       <-> at_least total (threshold_for o self)) /\
    (num_leb (Float (threshold_for o self)) total = true ->
       err = [] /\ ~ In (Txt "   Gap: ") message) /\
    (num_leb (Float (threshold_for o self)) total = false ->
       exists t,
         to_float total = Ok t /\
         err = [[FDumps (stderr_data report (threshold_for o self)
                                     (threshold_for o self - t))]] /\
         dict_get (stderr_data report (threshold_for o self)
                               (threshold_for o self - t)) "gap" JNull
           = Ok (JFloat (threshold_for o self - t)) /\
         (exists pre post,
            message = pre ++ gap_line (threshold_for o self - t) ++ post) /\
         (not_nan (threshold_for o self) -> num_value total <> None ->
          non_negative (threshold_for o self - t))).
Proof.
  intros Hd Hp Hty.
  unfold validate_coverage. rewrite Hd.
  destruct o; cbn [report_tag parse_report threshold_for] in *;
    cbn [String.eqb Ascii.eqb Bool.eqb]; rewrite Hp; cbn [mbind result_bind rbind];
    apply check_threshold_decision; try assumption; discriminate.
Qed.

Lemma demo_py_report_typed : report_typed demo_py_report.
Proof.
  assert (Hf : forall x, numeric (JFloat x))
    by (intros x; exists (Float x), x; split; reflexivity).
  repeat split; try apply Hf. repeat constructor; apply Hf.
Qed.

Lemma validate_coverage_threshold_witness :
  exists message,
    validate_coverage demo_loads demo_fs demo_validator "coverage/coverage.json"
      = Ok (false, message, [[FDumps (stderr_data demo_py_report 80 5)]]) /\
    non_negative 5.
Proof.
  destruct (validate_coverage_threshold demo_loads demo_fs Backend demo_validator
              "coverage/coverage.json" demo_py_report)
    as (total & message & err & Ht & Hv & _ & _ & Hfail).
  - reflexivity.
  - vm_compute. reflexivity.
  - apply demo_py_report_typed.
  - vm_compute in Ht. injection Ht as <-.
    destruct (Hfail eq_refl) as (t & Hfloat & -> & _ & _ & Hsign).
    injection Hfloat as <-.
    exists message. split; [exact Hv|].
    apply Hsign; vm_compute; discriminate.
Defined.

(** C7, as stated, fails.  With a total of 10.1 and the threshold 80 the gap
    reported is 69.900000000000006, which is not the difference of the two
    numbers; with a total that is NaN the evaluator fails and the gap is
    NaN, which is not a number that is not negative; and with the total
    [-10**309], an integer below the threshold and beyond the range of the
    floats, the evaluator raises instead of failing. *)
Lemma reported_gap_is_rounded_or_nan :
  (exists message gap g t,
     validate_coverage odd_loads odd_fs demo_validator "low/coverage.json"
     = Ok (false, message,
           [[FDumps (stderr_data (odd_report "low/coverage.json") 80 gap)]]) /\
     float_value gap = Some (Finite g) /\
     json_value (total_percent (odd_report "low/coverage.json"))
     = Some (Finite t) /\
     ~ (g == 80 - t)%Q) /\
  (exists message gap,
     validate_coverage odd_loads odd_fs demo_validator "nan/coverage.json"
     = Ok (false, message,
           [[FDumps (stderr_data (odd_report "nan/coverage.json") 80 gap)]]) /\
     ~ non_negative gap) /\
  (total_percent (odd_report "huge/coverage.json") = JInt (- 10 ^ 309) /\
   ~ at_least (Int (- 10 ^ 309)) 80 /\
   validate_coverage odd_loads odd_fs demo_validator "huge/coverage.json"
   = Raise OverflowError).
Proof.
  split; [|split].
  - eexists _, _, _, _. split; [vm_compute; reflexivity|].
    split; [vm_compute; reflexivity|]. split; [vm_compute; reflexivity|].
    intros H. apply Qeq_bool_iff in H. vm_compute in H. discriminate H.
  - eexists _, _. split; [vm_compute; reflexivity|].
    intros (v & Hv & _). vm_compute in Hv. discriminate Hv.
  - split; [vm_compute; reflexivity|]. split; [|vm_compute; reflexivity].
    intros Hge. apply num_leb_at_least in Hge. vm_compute in Hge. discriminate Hge.
Qed.

(** C8.  For every report that one of the two parsers returns,
    [uncovered_files] holds exactly the per-file entries of the document
    (each file of the report with its percentage: [summary.percent_covered]
    of the files under [files] for [coverage.json], [lines.pct] of every key
    but [total] for [coverage-summary.json]) whose percentage is strictly
    below the threshold of the report's origin (the backend threshold for
    [coverage.json], the frontend threshold for [coverage-summary.json]); it
    is sorted ascending by percentage, and entries with equal percentages
    keep the order of the document. *)
Theorem uncovered_files_below_threshold_sorted json_loads fs o self p r :
  parse_report json_loads fs o self p = Ok r ->
  exists data,
    load_json_file json_loads fs p = Ok data /\
    (forall e, In e (uncovered_files r) <->
               In e (entries_of o data) /\ below (threshold_for o self) e = true) /\
    Permutation (uncovered_files r)
                (List.filter (below (threshold_for o self)) (entries_of o data)) /\
    StronglySorted (key_le pct_key) (uncovered_files r) /\
    (forall q, List.filter (key_is pct_key q) (uncovered_files r) =
               List.filter (key_is pct_key q)
                 (List.filter (below (threshold_for o self)) (entries_of o data))).
Proof.
  intros H. apply parse_report_uncovered in H as (data & Hload & ->).
  exists data. split; [exact Hload|].
  split; [|split; [|split]].
  - intros e. rewrite <- List.filter_In. split; apply Permutation_in.
    + apply sort_by_perm.
    + apply Permutation_sym, sort_by_perm.
  - apply sort_by_perm.
  - apply sort_by_sorted, filter_below_valued.
  - intros q. apply sort_by_stable.
Qed.

Lemma uncovered_files_below_threshold_sorted_witness :
  entries_of Frontend jest_document
    = [ ("src/a.ts", JFloat 50); ("src/b.ts", JFloat 95);
        ("src/c.ts", JFloat 20); ("src/d.ts", JFloat 50) ] /\
  uncovered_files demo_jest_report
    = [ ("src/c.ts", JFloat 20); ("src/a.ts", JFloat 50); ("src/d.ts", JFloat 50) ] /\
  (forall e, In e (uncovered_files demo_jest_report) <->
             In e (entries_of Frontend jest_document) /\ below 70 e = true) /\
  StronglySorted (key_le pct_key) (uncovered_files demo_jest_report).
Proof.
  split; [reflexivity|]. split; [reflexivity|].
  destruct (uncovered_files_below_threshold_sorted demo_loads demo_fs Frontend
              demo_validator "web/coverage-summary.json" demo_jest_report)
    as (data & Hload & Hin & _ & Hsorted & _).
  - vm_compute. reflexivity.
  - vm_compute in Hload. injection Hload as <-.
    split; [exact Hin|exact Hsorted].
Defined.

Lemma main_of_run json_loads float_of_str fs getenv argv validator proc :
  init float_of_str getenv = Ok validator ->
  run json_loads fs validator (requested_report_path getenv argv) = Ok proc ->
  main json_loads float_of_str fs getenv argv = proc.
Proof. intros Hi Hr. unfold main. rewrite Hi. cbn. rewrite Hr. reflexivity. Qed.

(** C9.  When no report is discovered (no explicit path and no candidate
    location exists, or the explicit path does not exist), when the report
    found is of a format that is not parsed, and when parsing it raises, the
    evaluator returns exit code 0, never 2, prints a warning and writes
    nothing to the diagnostic channel; a process whose validator and report
    path these are ends that way. *)
Theorem no_usable_report_exits_0 json_loads fs self report_path :
  no_usable_report json_loads fs self report_path ->
  exists proc,
    run json_loads fs self report_path = Ok proc /\
    exit_code proc = 0%Z /\ exit_code proc <> 2%Z /\
    (exists t rest, stdout proc = t :: rest /\ is_warning t) /\
    stderr proc = [] /\
    (forall float_of_str getenv argv,
       init float_of_str getenv = Ok self ->
       requested_report_path getenv argv = report_path ->
       main json_loads float_of_str fs getenv argv = proc).
Proof.
  assert (Hw : forall s rest, startswith s "⚠️" = true -> is_warning (Txt s :: rest))
    by (intros s rest H; exists s, rest; auto).
  assert (Hmain : forall proc,
            run json_loads fs self report_path = Ok proc ->
            forall float_of_str getenv argv,
              init float_of_str getenv = Ok self ->
              requested_report_path getenv argv = report_path ->
              main json_loads float_of_str fs getenv argv = proc).
  { intros proc Hrun float_of_str getenv argv Hi Hp.
    apply (main_of_run _ _ _ _ _ self); [exact Hi|]. rewrite Hp. exact Hrun. }
  assert (Hgoal : forall proc,
            run json_loads fs self report_path = Ok proc ->
            exit_code proc = 0%Z ->
            (exists t rest, stdout proc = t :: rest /\ is_warning t) ->
            stderr proc = [] ->
            exists proc,
              run json_loads fs self report_path = Ok proc /\
              exit_code proc = 0%Z /\ exit_code proc <> 2%Z /\
              (exists t rest, stdout proc = t :: rest /\ is_warning t) /\
              stderr proc = [] /\
              (forall float_of_str getenv argv,
                 init float_of_str getenv = Ok self ->
                 requested_report_path getenv argv = report_path ->
                 main json_loads float_of_str fs getenv argv = proc)).
  { intros proc Hrun H0 Hwarn Herr. exists proc.
    split; [exact Hrun|]. split; [exact H0|]. split; [rewrite H0; discriminate|].
    split; [exact Hwarn|]. split; [exact Herr|]. apply Hmain, Hrun. }
  intros [Hnone Hf | p Hsome Hp | p Hl Hp Hd | p o e Hl Hp Hd He].
  - eapply Hgoal.
    + unfold run. rewrite Hnone, Hf. reflexivity.
    + reflexivity.
    + eexists _, _. split; [reflexivity|]. apply Hw. reflexivity.
    + reflexivity.
  - eapply Hgoal.
    + unfold run. rewrite Hsome, Hp. reflexivity.
    + reflexivity.
    + eexists _, _. split; [reflexivity|]. apply Hw. reflexivity.
    + reflexivity.
  - destruct (detect_report_type_cases p) as [H|[H|[H|H]]];
      [exfalso; exact (Hd Backend H)|exfalso; exact (Hd Frontend H)| |];
      (eapply Hgoal;
       [ rewrite (run_located _ _ _ _ _ Hl Hp); unfold validate_coverage;
         rewrite H; reflexivity
       | reflexivity
       | eexists _, _; split; [reflexivity|]; apply Hw; reflexivity
       | reflexivity ]).
  - pose proof (parse_report_raises _ _ _ _ _ _ He) as Hex.
    eapply Hgoal.
    + rewrite (run_located _ _ _ _ _ Hl Hp). unfold validate_coverage. rewrite Hd.
      destruct o; cbn [report_tag parse_report] in *;
        cbn [String.eqb Ascii.eqb Bool.eqb]; rewrite He;
        cbn [mbind result_bind rbind]; rewrite Hex; reflexivity.
    + reflexivity.
    + eexists _, _. split; [reflexivity|]. apply Hw. reflexivity.
    + reflexivity.
Qed.

Lemma no_usable_report_exits_0_witness :
  exists proc,
    run demo_loads demo_fs demo_validator (Some "broken/coverage.json") = Ok proc /\
    exit_code proc = 0%Z.
Proof.
  destruct (no_usable_report_exits_0 demo_loads demo_fs demo_validator
              (Some "broken/coverage.json")) as (proc & Hrun & H0 & _).
  - apply (parse_failure _ _ _ _ "broken/coverage.json" Backend JSONDecodeError);
      reflexivity.
  - exists proc. split; assumption.
Defined.


End CoverageFacts.

(** * The violation aggregator: properties *)

Lemma rmap_Forall2 {A B} (f : A -> result B) (xs : list A) (ys : list B) :
  rmap f xs = Ok ys -> Forall2 (fun x y => f x = Ok y) xs ys.
Proof.
  revert ys. induction xs as [|x xs IH]; cbn; intros ys H.
  - injection H as <-. constructor.
  - destruct (f x) as [y|e] eqn:Ex; [|discriminate].
    destruct (rmap f xs) as [ys'|e]; [|discriminate].
    injection H as <-. constructor; auto.
Qed.

Lemma substring_0_length n s : (String.length (String.substring 0 n s) <= n)%nat.
Proof.
  revert s. induction n as [|n IH]; intros [|c s]; cbn; try lia.
  specialize (IH s). lia.
Qed.

Lemma substring_0_prefix n s : String.prefix (String.substring 0 n s) s = true.
Proof.
  revert s. induction n as [|n IH]; intros [|c s]; cbn; try reflexivity.
  rewrite IH. destruct (ascii_dec c c); [reflexivity|contradiction].
Qed.

Lemma str_truthy s : s <> "" -> truthy (JStr s) = true.
Proof.
  intros H. cbn. destruct (String.eqb_spec s ""); [contradiction|reflexivity].
Qed.

Module QualityGateFacts.
Import QualityGate QualityGateSpec.

Lemma M_bind_unfold {A B} (m : M A) (k : A -> M B) (st : State) :
  (m ≫= k) st = match m st with
                | (Ok a, st') => k a st'
                | (Raise e, st') => (Raise e, st')
                end.
Proof. reflexivity. Qed.

Lemma M_bind_Ok {A B} (m : M A) (k : A -> M B) (st st' : State) (b : B) :
  (m ≫= k) st = (Ok b, st') ->
  exists a st1, m st = (Ok a, st1) /\ k a st1 = (Ok b, st').
Proof.
  rewrite M_bind_unfold. destruct (m st) as [[a|e] st1]; [eauto|discriminate].
Qed.

Lemma step_absorbs json_loads w s e file_path st :
  e = TimeoutExpired \/ e = FileNotFoundError ->
  subprocess_run w (step_cmd s file_path) = Raise e ->
  exists vs,
    step_run json_loads w s file_path st
      = (Ok vs, ran w (step_cmd s file_path) st) /\
    match absorbed_as s e with
    | Some (r, sev) =>
        exists msg, vs = [synthetic file_path r msg sev (step_tool s)]
    | None => vs = []
    end.
Proof.
  intros [-> | ->] Hrun; destruct s; cbn [step_run step_cmd] in *;
    unfold ruff_check, ruff_format, mypy_check, eslint_check, tsc_check,
      try_except, run_tool;
    rewrite M_bind_unfold, Hrun; cbn; eauto.
Qed.

Lemma ruff_violation_severity file_path item v :
  ruff_violation file_path item = Ok v ->
  severity v = (if begins_with_E item then "ERROR" else "WARNING") /\
  tool v = "ruff".
Proof.
  unfold ruff_violation. intros H. repeat bind_inv H. injection H as <-. cbn.
  split; [|reflexivity]. unfold begins_with_E, code_of.
  destruct item as [| | | | | |fields]; try discriminate.
  cbn in E6. destruct (assoc "code" fields) as [c|].
  - injection E6 as <-. destruct c; try discriminate.
    cbn in E7. injection E7 as <-. reflexivity.
  - injection E6 as <-. cbn in E7. injection E7 as <-. reflexivity.
Qed.

Lemma parse_ruff_output_unparsable json_loads file_path stdout :
  stdout = "" \/ json_loads stdout = None ->
  parse_ruff_output json_loads file_path stdout = Ok [].
Proof.
  unfold parse_ruff_output. intros [-> | H]; [reflexivity|].
  rewrite H. destruct (truthy (JStr stdout)); reflexivity.
Qed.

Section Gate.
Variable json_loads : string -> option json.
Variable sha256_hexdigest : string -> string.
Variable w : World.

Lemma run_python_checks_steps file_path st :
  run_python_checks json_loads w file_path st
    = run_steps json_loads w python_steps file_path st.
Proof.
  unfold run_python_checks, python_steps. cbn [run_steps step_run].
  rewrite !M_bind_unfold.
  destruct (ruff_check json_loads w file_path st) as [[lint|e] st1]; [|reflexivity].
  rewrite !M_bind_unfold.
  destruct (ruff_format w file_path st1) as [[format|e] st2]; [|reflexivity].
  rewrite !M_bind_unfold.
  destruct (mypy_check w file_path st2) as [[types|e] st3]; [|reflexivity].
  unfold mbind, M_bind, mret, M_ret. cbn. rewrite app_nil_r. reflexivity.
Qed.

Lemma run_typescript_checks_steps file_path st :
  run_typescript_checks json_loads w file_path st
    = run_steps json_loads w (typescript_steps file_path) file_path st.
Proof.
  unfold run_typescript_checks, typescript_steps.
  destruct (String.eqb (path_suffix file_path) ".ts"
            || String.eqb (path_suffix file_path) ".tsx");
    cbn [run_steps step_run]; rewrite !M_bind_unfold;
    destruct (eslint_check json_loads w file_path st) as [[lint|e] st1];
    try reflexivity; rewrite ?M_bind_unfold.
  all: try (destruct (tsc_check w file_path st1) as [[types|e] st2];
            [|reflexivity]).
  all: unfold mbind, M_bind, mret, M_ret; cbn; rewrite ?app_nil_r; reflexivity.
Qed.

Lemma validate_file_Ok self file_path st passed g st' :
  validate_file json_loads sha256_hexdigest w self file_path st = (Ok (passed, g), st') ->
  exists vs, violations g = violations self ++ vs /\ passed = is_empty vs.
Proof.
  unfold validate_file. destruct (negb (path_exists w file_path)).
  - intros H. apply M_bind_Ok in H as (? & st1 & _ & H).
    injection H as <- <- <-. exists []. rewrite app_nil_r. auto.
  - intros H. apply M_bind_Ok in H as ([cached|] & st1 & _ & H).
    + injection H as <- <- <-. exists cached. auto.
    + destruct (detect_language file_path) as [language|].
      * apply M_bind_Ok in H as (vs & st2 & _ & H).
        apply M_bind_Ok in H as (? & st3 & _ & H).
        injection H as <- <- <-. exists vs. auto.
      * injection H as <- <- <-. exists []. rewrite app_nil_r. auto.
Qed.

Lemma format_output_verdict g :
  match violations g with
  | [] => format_output g
          = ([Txt "✅ Quality gate passed: No violations found"], [])
  | _ => exists rest,
      format_output g
      = (Txt "❌ QUALITY_GATE_FAILURE: " :: rest,
         [FDumps (JArr (List.map asdict (violations g)))])
  end.
Proof.
  unfold format_output. destruct (violations g) as [|v vs]; [reflexivity|].
  cbn. eauto.
Qed.

Lemma argv_path_short argv st :
  (List.length argv < 2)%nat ->
  argv_path argv st
  = (Raise (SystemExit 1),
     {| cache := cache st; clock := clock st; invoked := invoked st;
        out := out st;
        err := err st ++ [[Txt "Usage: quality_gate.py <file_path>"]] |}).
Proof.
  intros H. destruct argv as [|a [|b argv]]; cbn in H; try lia; reflexivity.
Qed.

Lemma main_without_request stdin argv now :
  (stdin = None \/ exists s, stdin = Some s /\ json_loads s = None) ->
  (List.length argv < 2)%nat ->
  main json_loads sha256_hexdigest w
       stdin argv now
  = (1%Z, {| cache := ∅; clock := now; invoked := []; out := [];
             err := [[Txt "Usage: quality_gate.py <file_path>"]] |}).
Proof.
  intros Hin Hargv. unfold main, main_body.
  destruct Hin as [-> | (s & -> & Hs)].
  - rewrite M_bind_unfold, (argv_path_short _ _ Hargv). reflexivity.
  - rewrite M_bind_unfold. unfold try_except at 1.
    rewrite M_bind_unfold. unfold lift at 1. rewrite Hs.
    rewrite (argv_path_short _ _ Hargv). reflexivity.
Qed.
Lemma cache_hit self file_path st t vs content :
  cache st !! file_path = Some (t, vs) ->
  (clock st - t < CACHE_TTL)%Q ->
  fs w file_path = Some (Readable content) ->
  sha256_hexdigest content <> "" ->
  check_cache sha256_hexdigest w file_path st = (Ok (Some vs), st) /\
  validate_file json_loads sha256_hexdigest w self file_path st
    = (Ok (is_empty vs, extend self vs), st).
Proof.
  intros Hc Ht Hfs Hh.
  assert (Hcheck : check_cache sha256_hexdigest w file_path st = (Ok (Some vs), st)).
  { unfold check_cache, get_file_hash. rewrite Hfs, (str_truthy _ Hh).
    cbn [negb]. rewrite M_bind_unfold. unfold cache_lookup. rewrite Hc.
    rewrite M_bind_unfold. unfold time_time.
    apply Qltb_true in Ht. rewrite Ht. reflexivity. }
  split; [exact Hcheck|].
  unfold validate_file, path_exists. rewrite Hfs. cbn [negb].
  rewrite M_bind_unfold, Hcheck. reflexivity.
Qed.

Lemma check_cache_cases file_path st :
  check_cache sha256_hexdigest w file_path st = (Ok None, st) \/
  exists t vs,
    check_cache sha256_hexdigest w file_path st = (Ok (Some vs), st) /\
    cache st !! file_path = Some (t, vs) /\ (clock st - t < CACHE_TTL)%Q.
Proof.
  unfold check_cache.
  destruct (negb (truthy (JStr (get_file_hash sha256_hexdigest w file_path))));
    [left; reflexivity|].
  rewrite M_bind_unfold. unfold cache_lookup.
  destruct (cache st !! file_path) as [[t vs]|] eqn:Hc; [|left; reflexivity].
  rewrite M_bind_unfold. unfold time_time.
  destruct (Qltb (clock st - t) CACHE_TTL) eqn:Ht; [|left; reflexivity].
  right. exists t, vs. split; [reflexivity|]. split; [reflexivity|].
  apply Qltb_true, Ht.
Qed.

(** A tool step leaves the state in which its command has run, whatever
    its result. *)
Lemma step_state s file_path st r st' :
  step_run json_loads w s file_path st = (r, st') ->
  st' = ran w (step_cmd s file_path) st.
Proof.
  destruct s; cbn [step_run step_cmd];
    unfold ruff_check, ruff_format, mypy_check, eslint_check, tsc_check,
      try_except, run_tool, lift; rewrite M_bind_unfold;
    (destruct (subprocess_run w _) as [result|e]; [|destruct e]);
    try (cbn; intros [= _ <-]; reflexivity).
  - destruct (parse_ruff_output _ _ _) as [vs|e]; [|destruct e];
      cbn; intros [= _ <-]; reflexivity.
  - destruct (negb _); cbn; intros [= _ <-]; reflexivity.
  - destruct (_ && _); cbn; intros [= _ <-]; reflexivity.
  - destruct (parse_eslint_output _ _ _) as [vs|e]; [|destruct e];
      cbn; intros [= _ <-]; reflexivity.
  - destruct (_ && _); cbn; intros [= _ <-]; reflexivity.
Qed.

Lemma run_steps_cache steps file_path st r st' :
  run_steps json_loads w steps file_path st
    = (r, st') ->
  cache st' = cache st.
Proof.
  revert st r st'. induction steps as [|s steps IH]; intros st r st'; cbn [run_steps].
  - intros [= _ <-]. reflexivity.
  - rewrite M_bind_unfold.
    destruct (step_run _ _ s file_path st) as [[vs|e] st1] eqn:Hs;
      apply step_state in Hs; subst st1.
    + rewrite M_bind_unfold.
      destruct (run_steps _ _ steps file_path _) as [[more|e] st2] eqn:Hr;
        apply IH in Hr; intros [= _ <-]; exact Hr.
    + intros [= _ <-]. reflexivity.
Qed.

(** After [validate_file] has returned for an existing file of a known
    language, the cache holds the violations it reported, under the path,
    with a time stamp that is still fresh. *)
Lemma validate_file_caches self file_path language st passed g st' :
  validate_file json_loads sha256_hexdigest w self file_path st = (Ok (passed, g), st') ->
  path_exists w file_path = true ->
  detect_language file_path = Some language ->
  exists t vs,
    cache st' !! file_path = Some (t, vs) /\
    violations g = violations self ++ vs /\
    passed = is_empty vs /\
    (clock st' - t < CACHE_TTL)%Q.
Proof.
  unfold validate_file. intros H Hex Hlang. rewrite Hex, Hlang in H. cbn [negb] in H.
  rewrite M_bind_unfold in H.
  destruct (check_cache_cases file_path st) as [Hmiss | (t & vs & Hhit & Hc & Ht)].
  - rewrite Hmiss in H.
    apply M_bind_Ok in H as (vs & st1 & Hchecks & H).
    apply M_bind_Ok in H as ([] & st2 & Hup & H).
    injection H as <- <- <-.
    unfold update_cache in Hup. rewrite M_bind_unfold in Hup.
    unfold time_time, cache_store in Hup. injection Hup as <-.
    exists (clock st1), vs. cbn [cache clock].
    split; [apply lookup_insert_eq|]. split; [reflexivity|]. split; [reflexivity|].
    unfold CACHE_TTL. lra.
  - rewrite Hhit in H. injection H as <- <- <-.
    exists t, vs. auto.
Qed.

(** Idempotence within the TTL: once [validate_file] has returned for an
    existing file of a known language, a later call on the same path, less
    than [CACHE_TTL] seconds after the entry was stored, returns the same
    violation sequence and leaves the state as it is, so no tool is run. *)
Lemma second_call_returns_cached self file_path language st passed g st1 :
  validate_file json_loads sha256_hexdigest w self file_path st = (Ok (passed, g), st1) ->
  path_exists w file_path = true ->
  detect_language file_path = Some language ->
  exists t vs,
    violations g = violations self ++ vs /\
    forall self' st2 content,
      cache st2 = cache st1 ->
      (clock st2 - t < CACHE_TTL)%Q ->
      fs w file_path = Some (Readable content) ->
      sha256_hexdigest content <> "" ->
      validate_file json_loads sha256_hexdigest w self' file_path st2
      = (Ok (is_empty vs, extend self' vs), st2).
Proof.
  intros Hv Hex Hlang.
  destruct (validate_file_caches _ _ _ _ _ _ _ Hv Hex Hlang)
    as (t & vs & Hc & Hg & _ & _).
  exists t, vs. split; [exact Hg|].
  intros self' st2 content Hcache Ht Hfs Hh.
  apply (cache_hit self' file_path st2 t vs content); try assumption.
  rewrite Hcache. exact Hc.
Qed.

(** C1.  The claim asks that a lookup for a file whose bytes have changed
    since the entry was stored be a miss.  The code stores the entry under
    the path and uses the hash only to see that the file can be read: when
    [update_cache] has stored a violation sequence for the path and fewer
    than [CACHE_TTL] seconds have passed, then for every readable content the
    file has by now the lookup returns the stored sequence, and
    [validate_file] returns it as the verdict without running a tool or
    touching the state. *)
Theorem cached_verdict_survives_content_change self file_path st0 vs st content :
  cache st = cache (snd (update_cache file_path vs st0)) ->
  (clock st - clock st0 < CACHE_TTL)%Q ->
  fs w file_path = Some (Readable content) ->
  sha256_hexdigest content <> "" ->
  check_cache sha256_hexdigest w file_path st = (Ok (Some vs), st) /\
  validate_file json_loads sha256_hexdigest w self file_path st
    = (Ok (is_empty vs, extend self vs), st) /\
  invoked (snd (validate_file json_loads sha256_hexdigest w self file_path st))
    = invoked st.
Proof.
  intros Hcache Ht Hfs Hh.
  assert (Hentry : cache st !! file_path = Some (clock st0, vs)).
  { rewrite Hcache. unfold update_cache. rewrite M_bind_unfold.
    unfold time_time, cache_store. cbn [snd cache]. apply lookup_insert_eq. }
  destruct (cache_hit self file_path st (clock st0) vs content Hentry Ht Hfs Hh)
    as [Hcheck Hvalidate].
  split; [exact Hcheck|]. split; [exact Hvalidate|].
  rewrite Hvalidate. reflexivity.
Qed.

(** C4, amended.  When the executable of a step is missing or the step
    times out, the step returns normally, having recorded the command: ruff's
    lint run and ESLint append one violation, [MISSING_TOOL] or [TIMEOUT],
    of severity [ERROR]; mypy and tsc append a [TIMEOUT] violation of
    severity [WARNING] and nothing when missing; ruff's format run appends
    nothing.  The run goes on with the remaining steps from the state the
    step leaves. *)
Theorem missing_or_slow_tool_absorbed s e file_path st :
  e = TimeoutExpired \/ e = FileNotFoundError ->
  subprocess_run w (step_cmd s file_path) = Raise e ->
  exists vs,
    step_run json_loads w s file_path st
      = (Ok vs, ran w (step_cmd s file_path) st) /\
    match absorbed_as s e with
    | Some (r, sev) =>
        exists msg, vs = [synthetic file_path r msg sev (step_tool s)]
    | None => vs = []
    end /\
    (forall rest,
       run_steps json_loads w
                 (s :: rest) file_path st
       = (more ← run_steps json_loads w
                    rest file_path;
          mret (vs ++ more)) (ran w (step_cmd s file_path) st)) /\
    (forall st0,
       run_python_checks json_loads w file_path st0
       = run_steps json_loads w
                   python_steps file_path st0) /\
    (forall st0,
       run_typescript_checks json_loads w file_path st0
       = run_steps json_loads w
                   (typescript_steps file_path) file_path st0).
Proof.
  intros He Hrun.
  destruct (step_absorbs json_loads w s e file_path st He Hrun) as (vs & Hstep & Htable).
  exists vs. split; [exact Hstep|]. split; [exact Htable|]. split; [|split].
  - intros rest. cbn [run_steps]. rewrite M_bind_unfold, Hstep. reflexivity.
  - apply run_python_checks_steps.
  - apply run_typescript_checks_steps.
Qed.

Lemma run_Ok_verdict self file_path st code g st' :
  run json_loads sha256_hexdigest w self file_path st = (Ok (code, g), st') ->
  exists vs,
    violations g = violations self ++ vs /\
    ((vs = [] /\ code = 0%Z /\
      (violations self = [] ->
       List.last (out st') []
         = [Txt "✅ Quality gate passed: No violations found"])) \/
     (vs <> [] /\ code = 2%Z /\
      (exists rest,
         List.last (out st') [] = Txt "❌ QUALITY_GATE_FAILURE: " :: rest) /\
      List.last (err st') []
        = [FDumps (JArr (List.map asdict (violations g)))])).
Proof.
  unfold run. intros H.
  apply M_bind_Ok in H as ([passed g'] & st1 & Hv & H).
  apply validate_file_Ok in Hv as (vs & Hg & ->).
  pose proof (format_output_verdict g') as Hfmt.
  destruct (format_output g') as [stdout_msg stderr_json].
  apply M_bind_Ok in H as ([] & st2 & Hp & H).
  apply M_bind_Ok in H as ([] & st3 & He & H).
  injection H as <- <- <-. exists vs. split; [exact Hg|].
  unfold print in Hp. injection Hp as <-.
  destruct vs as [|v vs]; [left|right].
  - split; [reflexivity|]. split; [reflexivity|]. intros Hself.
    rewrite Hg, Hself in Hfmt. cbn in Hfmt. injection Hfmt as -> ->.
    injection He as <-. cbn. apply last_last.
  - split; [discriminate|]. split; [reflexivity|].
    rewrite Hg in Hfmt.
    destruct (violations self ++ v :: vs) eqn:Eapp;
      [destruct (violations self); discriminate|].
    destruct Hfmt as (rest & [= -> ->]).
    unfold eprint in He. injection He as <-. cbn [out err].
    rewrite Hg. split; [exists rest|]; apply last_last.
Qed.

Lemma run_returns_after_validate_file self file_path st passed g st1 :
  validate_file json_loads sha256_hexdigest w self file_path st = (Ok (passed, g), st1) ->
  exists st',
    run json_loads sha256_hexdigest w self file_path st = (Ok ((if passed then 0 else 2)%Z, g), st').
Proof.
  intros Hv. unfold run. rewrite M_bind_unfold, Hv.
  destruct (format_output g) as [stdout_msg stderr_json].
  rewrite M_bind_unfold. unfold print at 1.
  destruct stderr_json; rewrite M_bind_unfold; [unfold mret at 1, M_ret|unfold eprint];
    eexists; reflexivity.
Qed.

Lemma main_target_run stdin argv now file_path :
  names_target json_loads stdin argv file_path ->
  main_body json_loads sha256_hexdigest w stdin argv (initial_state now)
  = ('(exit_code, _) ← run json_loads sha256_hexdigest w {| violations := [] |}
                           file_path;
     sys_exit exit_code) (initial_state now).
Proof.
  intros [prog rest Hin -> | s data tool_input -> Hs Ht Hv Hne]; unfold main_body.
  - destruct Hin as [-> | (s & -> & Hs)].
    + unfold argv_path. rewrite M_bind_unfold. reflexivity.
    + rewrite M_bind_unfold. unfold try_except at 1. rewrite M_bind_unfold.
      unfold lift at 1. rewrite Hs. unfold argv_path. reflexivity.
  - pose proof (str_truthy _ Hne) as Htrue.
    rewrite M_bind_unfold. unfold try_except at 1. rewrite M_bind_unfold.
    unfold lift at 1. rewrite Hs.
    rewrite M_bind_unfold. unfold lift at 1. rewrite Ht.
    rewrite M_bind_unfold. unfold lift at 1. rewrite Hv.
    rewrite M_bind_unfold. rewrite Htrue. cbn [negb].
    unfold mret at 1, M_ret. rewrite Htrue. reflexivity.
Qed.

(** C5.  For every invocation that names a target, the process runs the
    checks of the target on a fresh instance.  When [validate_file] raises
    (a tool's output had an unexpected shape, or the tool failed to start for
    another reason than the two that are handled) there is no verdict and
    the process ends with exit code 1.  Otherwise the process exit code is 0
    exactly when the violation sequence of the target is empty, and 2 when it
    is not; the verdict printed last on standard output agrees, and a
    failing run ends by writing the violations to the diagnostic channel. *)
Theorem exit_code_iff_no_violations stdin argv now file_path :
  names_target json_loads stdin argv file_path ->
  (exists e st1,
     validate_file json_loads sha256_hexdigest w fresh file_path (initial_state now)
     = (Raise e, st1) /\
     fst (main json_loads sha256_hexdigest w stdin argv now) = exit_code_of e /\
     (is_Exception e = true ->
      fst (main json_loads sha256_hexdigest w stdin argv now) = 1%Z)) \/
  (exists passed g st1,
     validate_file json_loads sha256_hexdigest w fresh file_path (initial_state now)
     = (Ok (passed, g), st1) /\
     (fst (main json_loads sha256_hexdigest w stdin argv now) = 0%Z
      <-> violations g = []) /\
     (fst (main json_loads sha256_hexdigest w stdin argv now) = 2%Z
      <-> violations g <> []) /\
     (violations g = [] ->
      List.last (out (snd (main json_loads sha256_hexdigest w stdin argv now))) []
      = [Txt "✅ Quality gate passed: No violations found"]) /\
     (violations g <> [] ->
      (exists rest,
         List.last (out (snd (main json_loads sha256_hexdigest w stdin argv now))) []
         = Txt "❌ QUALITY_GATE_FAILURE: " :: rest) /\
      List.last (err (snd (main json_loads sha256_hexdigest w stdin argv now))) []
      = [FDumps (JArr (List.map asdict (violations g)))])).
Proof.
  intros Htarget.
  pose proof (main_target_run stdin argv now file_path Htarget) as Hbody.
  change {| violations := [] |} with fresh in Hbody.
  destruct (validate_file json_loads sha256_hexdigest w fresh file_path
                          (initial_state now)) as [[[passed g]|e] st1] eqn:Hv.
  - right. exists passed, g, st1. split; [reflexivity|].
    destruct (run_returns_after_validate_file _ _ _ _ _ _ Hv) as (st' & Hrun).
    assert (Hmain : main json_loads sha256_hexdigest w stdin argv now
                    = ((if passed then 0 else 2)%Z, st')).
    { unfold main. rewrite Hbody, M_bind_unfold, Hrun. reflexivity. }
    rewrite Hmain. cbn [fst snd].
    destruct (run_Ok_verdict _ _ _ _ _ _ Hrun) as (vs & Hg & Hcode).
    cbn [violations fresh app] in Hg. subst vs.
    destruct Hcode as [(Hnil & Hc & Hout) | (Hne & Hc & Hout & Herr)]; rewrite Hc.
    + split; [tauto|]. split; [split; [discriminate|congruence]|].
      split; [intros _; apply Hout; reflexivity|congruence].
    + split; [split; [discriminate|congruence]|]. split; [tauto|].
      split; [congruence|]. intros _. split; assumption.
  - left. exists e, st1. split; [reflexivity|].
    assert (Hmain : fst (main json_loads sha256_hexdigest w stdin argv now)
                    = exit_code_of e).
    { unfold main. rewrite Hbody, M_bind_unfold. unfold run.
      rewrite M_bind_unfold, Hv. destruct e; reflexivity. }
    split; [exact Hmain|]. rewrite Hmain. destruct e; try reflexivity; discriminate.
Qed.

(** The exit code of the process is the one [run] returns on a fresh
    instance, for a target named on the command line and for one named in
    the request. *)
Lemma main_cli_exit_code prog file_path rest now code g st' :
  run json_loads sha256_hexdigest w {| violations := [] |} file_path
      (initial_state now) = (Ok (code, g), st') ->
  main json_loads sha256_hexdigest w None (prog :: file_path :: rest) now
  = (code, st').
Proof.
  intros Hrun. unfold main, main_body, argv_path.
  rewrite M_bind_unfold. unfold mret at 1, M_ret.
  rewrite M_bind_unfold, Hrun. reflexivity.
Qed.

Lemma main_hook_exit_code s data tool_input file_path argv now code g st' :
  json_loads s = Some data ->
  dict_get data "tool_input" (JObj []) = Ok tool_input ->
  dict_get tool_input "file_path" JNull = Ok (JStr file_path) ->
  file_path <> "" ->
  run json_loads sha256_hexdigest w {| violations := [] |} file_path
      (initial_state now) = (Ok (code, g), st') ->
  main json_loads sha256_hexdigest w (Some s) argv now = (code, st').
Proof.
  intros Hs Ht Hv Hne Hrun.
  pose proof (str_truthy _ Hne) as Htrue.
  unfold main, main_body.
  assert (Hreq :
    try_except
      (data ← lift (match json_loads s with
                    | Some data => Ok data
                    | None => Raise JSONDecodeError
                    end);
       tool_input ← lift (dict_get data "tool_input" (JObj []));
       file_path_str ← lift (dict_get tool_input "file_path" JNull);
       file_path_str ←
         (if negb (truthy file_path_str)
          then tool_input ← lift (dict_get data "tool_input" (JObj []));
               lift (dict_get tool_input "file_path" JNull)
          else mret file_path_str);
       if truthy file_path_str
       then lift (py_Path file_path_str)
       else _ ← eprint [Txt "⚠️  No file_path in stdin data"];
            sys_exit 0)
      (fun e =>
         match e with
         | JSONDecodeError => Some (argv_path argv)
         | _ => None
         end) (initial_state now) = (Ok file_path, initial_state now)).
  { unfold try_except, lift, mbind, M_bind. rewrite Hs, Ht, Hv, Htrue.
    cbn [negb]. unfold mret, M_ret. rewrite Htrue. reflexivity. }
  rewrite M_bind_unfold, Hreq. rewrite M_bind_unfold, Hrun. reflexivity.
Qed.

(** A request that decodes but names no file: exit 0, no tool run. *)
Lemma main_without_file_path s data tool_input v argv now :
  json_loads s = Some data ->
  dict_get data "tool_input" (JObj []) = Ok tool_input ->
  dict_get tool_input "file_path" JNull = Ok v ->
  truthy v = false ->
  main json_loads sha256_hexdigest w
       (Some s) argv now
  = (0%Z, {| cache := ∅; clock := now; invoked := []; out := [];
             err := [[Txt "⚠️  No file_path in stdin data"]] |}).
Proof.
  intros Hs Ht Hv Hfalse.
  unfold main, main_body, try_except, lift, mbind, M_bind.
  rewrite Hs, Ht, Hv, Hfalse. cbn [negb]. rewrite ?Ht, ?Hv, ?Hfalse.
  reflexivity.
Qed.

(** C2, amended.  When the input channel is a terminal or what it carries
    is not JSON, and no positional argument names a target, the aggregator
    prints its usage line and exits 1 without running a tool; on input that
    is not JSON the single-tool Python gate exits 0.  Neither exits 2. *)
Theorem no_request_exit_codes getenv fs' subprocess_run' exn_str stdin argv now :
  (stdin = None \/ exists s, stdin = Some s /\ json_loads s = None) ->
  (List.length argv < 2)%nat ->
  main json_loads sha256_hexdigest w
       stdin argv now
  = (1%Z, {| cache := ∅; clock := now; invoked := []; out := [];
             err := [[Txt "Usage: quality_gate.py <file_path>"]] |}) /\
  (forall s, stdin = Some s ->
     PythonCore.main json_loads getenv fs' subprocess_run' exn_str s
     = {| exit_code := 0; stdout := []; stderr := [] |}).
Proof.
  intros Hin Hargv. split; [apply main_without_request; assumption|].
  intros s ->. destruct Hin as [[=] | (s' & [= <-] & Hs)].
  unfold PythonCore.main, PythonCore.read_stdin_json. rewrite Hs. reflexivity.
Qed.
End Gate.

(** C10.  For every finding the JSON-array parser turns into a violation,
    the severity is [ERROR] exactly when the finding's [code] is a string
    that begins with [E], and [WARNING] otherwise, in particular when the
    finding has no [code]. *)
Theorem ruff_severity_from_code json_loads file_path stdout vs :
  parse_ruff_output json_loads file_path stdout = Ok vs ->
  exists items,
    ((vs = [] /\ items = []) \/
     (exists doc, json_loads stdout = Some doc /\ py_iter doc = Ok items)) /\
    Forall2 (fun item v =>
               (severity v = "ERROR" <-> begins_with_E item = true) /\
               (severity v = "WARNING" <-> begins_with_E item = false) /\
               (forall fields, item = JObj fields -> assoc "code" fields = None ->
                               severity v = "WARNING"))
            items vs.
Proof.
  unfold parse_ruff_output. intros H.
  destruct (truthy (JStr stdout)).
  2:{ injection H as <-. exists []. split; [auto|constructor]. }
  destruct (json_loads stdout) as [doc|] eqn:Hdoc.
  2:{ injection H as <-. exists []. split; [auto|constructor]. }
  bind_inv H. exists a. split; [right; eauto|].
  apply rmap_Forall2 in H. eapply Forall2_impl; [exact H|].
  intros item v Hv. apply ruff_violation_severity in Hv as [Hs _].
  rewrite Hs. split; [|split].
  - destruct (begins_with_E item); split; congruence.
  - destruct (begins_with_E item); split; congruence.
  - intros fields -> Hnone. unfold begins_with_E, code_of. rewrite Hnone. reflexivity.
Qed.

Section PythonCore.
Variable json_loads : string -> option json.
Variable getenv : string -> option string.
Variable fs : string -> option fs_node.
Variable subprocess_run : list string -> result CompletedProcess.
Variable exn_str : exn -> string.

Lemma check_ruff_linting_unparsable file_path result :
  subprocess_run (PythonCore.RUFF_CHECK_CMD ++ [file_path]) = Ok result ->
  returncode result <> 0%Z ->
  proc_stdout result = "" \/ json_loads (proc_stdout result) = None ->
  PythonCore.check_ruff_linting json_loads subprocess_run exn_str file_path
  = Ok (if String.eqb (proc_stdout result) "" then []
        else [[Txt "  Failed to parse Ruff output: ";
               Txt (str_take 200 (proc_stdout result))]]).
Proof.
  intros Hrun Hrc Hout.
  unfold PythonCore.check_ruff_linting, PythonCore.run_command. rewrite Hrun.
  destruct (Z.eqb_spec (returncode result) 0) as [|_]; [contradiction|].
  cbn [negb andb truthy].
  destruct (String.eqb (proc_stdout result) "") eqn:He; [reflexivity|].
  cbn [negb]. destruct Hout as [H|H].
  - rewrite H in He. discriminate.
  - rewrite H. reflexivity.
Qed.
End PythonCore.

(** C3, amended.  For a ruff run with a nonzero exit code whose stdout is
    empty or not JSON: the single-tool Python gate emits nothing when stdout
    is empty, and otherwise exactly one message, the fixed text
    [Failed to parse Ruff output:] followed by the first 200 characters of
    stdout; the aggregator's JSON-array parser does not raise, and emits
    nothing when stdout is empty. *)
Theorem unparsable_ruff_output json_loads subprocess_run exn_str file_path result :
  subprocess_run (PythonCore.RUFF_CHECK_CMD ++ [file_path]) = Ok result ->
  returncode result <> 0%Z ->
  proc_stdout result = "" \/ json_loads (proc_stdout result) = None ->
  PythonCore.check_ruff_linting json_loads subprocess_run exn_str file_path
  = Ok (if String.eqb (proc_stdout result) "" then []
        else [[Txt "  Failed to parse Ruff output: ";
               Txt (str_take 200 (proc_stdout result))]]) /\
  (String.length (str_take 200 (proc_stdout result)) <= 200)%nat /\
  startswith (proc_stdout result) (str_take 200 (proc_stdout result)) = true /\
  (exists vs, parse_ruff_output json_loads file_path (proc_stdout result) = Ok vs) /\
  (proc_stdout result = "" ->
   parse_ruff_output json_loads file_path (proc_stdout result) = Ok []).
Proof.
  intros Hrun Hrc Hout. split; [|split; [|split; [|split]]].
  - apply check_ruff_linting_unparsable; assumption.
  - apply substring_0_length.
  - apply substring_0_prefix.
  - exists []. apply parse_ruff_output_unparsable, Hout.
  - intros H. apply parse_ruff_output_unparsable. left. exact H.
Qed.

(** ** The concrete session *)

Lemma cached_verdict_survives_content_change_witness :
  fs world_before "app.py" = Some (Readable "import os") /\
  fs world_after "app.py" = Some (Readable "print(1)") /\
  demo_hexdigest "import os" <> demo_hexdigest "print(1)" /\
  validate_file gate_loads demo_hexdigest world_after fresh "app.py" second_state
  = (Ok (false, extend fresh stale_violations), second_state).
Proof.
  split; [reflexivity|]. split; [reflexivity|]. split; [discriminate|].
  apply (cached_verdict_survives_content_change
           gate_loads demo_hexdigest world_after fresh "app.py"
           (ran world_before (mypy_cmd "app.py")
              (ran world_before (ruff_format_cmd "app.py")
                 (ran world_before (ruff_check_cmd "app.py") (initial_state 1000))))
           stale_violations second_state "print(1)").
  - vm_compute. reflexivity.
  - vm_compute. reflexivity.
  - reflexivity.
  - discriminate.
Defined.

Lemma no_request_exit_codes_witness :
  fst (main gate_loads demo_hexdigest world_before
            (Some "{ tool_input") ["quality_gate.py"] 0) = 1%Z.
Proof.
  rewrite (proj1 (no_request_exit_codes
                    gate_loads demo_hexdigest world_before
                    (fun _ => None) (fun _ => None) (fun _ => Raise OSError)
                    (fun _ => "") (Some "{ tool_input") ["quality_gate.py"] 0
                    (or_intror (ex_intro _ "{ tool_input" (conj eq_refl eq_refl)))
                    (le_n 2))).
  reflexivity.
Defined.

(** C2, as stated, fails: with malformed JSON on the input channel, or with a
    terminal as input channel, and no positional argument, the aggregator
    exits 1. *)
Lemma malformed_request_exits_1 :
  gate_loads "{ tool_input" = None /\
  fst (main gate_loads demo_hexdigest world_before
            (Some "{ tool_input") ["quality_gate.py"] 0) <> 0%Z /\
  fst (main gate_loads demo_hexdigest world_before
            None ["quality_gate.py"] 0) <> 0%Z.
Proof. repeat split; vm_compute; discriminate. Qed.

Lemma unparsable_ruff_output_witness :
  PythonCore.check_ruff_linting gate_loads
    (fun _ => Ok (completed 1 "ruff: internal error")) (fun _ => "") "app.py"
  = Ok [[Txt "  Failed to parse Ruff output: "; Txt "ruff: internal error"]].
Proof.
  apply (unparsable_ruff_output gate_loads
           (fun _ => Ok (completed 1 "ruff: internal error")) (fun _ => "")
           "app.py" (completed 1 "ruff: internal error")).
  - reflexivity.
  - discriminate.
  - right. reflexivity.
Defined.

(** C3, as stated, fails: a ruff run that exits 2 with nothing on stdout
    yields no violation and no message at all. *)
Lemma empty_ruff_output_emits_nothing :
  returncode ruff_crash <> 0%Z /\
  proc_stdout ruff_crash = "" /\
  fst (ruff_check gate_loads
         {| fs := fs world_before; subprocess_run := fun _ => Ok ruff_crash;
            duration := duration world_before |}
         "app.py" (initial_state 0)) = Ok [] /\
  PythonCore.check_ruff_linting gate_loads (fun _ => Ok ruff_crash) (fun _ => "")
                                "app.py" = Ok [].
Proof. repeat split; vm_compute; try discriminate; reflexivity. Qed.

Lemma missing_or_slow_tool_absorbed_witness :
  exists msg,
    fst (tsc_check world_slow "app.ts" (initial_state 0))
    = Ok [synthetic "app.ts" "TIMEOUT" msg "WARNING" "tsc"].
Proof.
  destruct (missing_or_slow_tool_absorbed gate_loads world_slow
              Tsc TimeoutExpired "app.ts" (initial_state 0))
    as (vs & Hstep & (msg & ->) & _).
  - left. reflexivity.
  - reflexivity.
  - exists msg. cbn [step_run] in Hstep. rewrite Hstep. reflexivity.
Defined.

(** C4, as stated, fails: mypy is not installed, and the step appends no
    [MISSING_TOOL] violation. *)
Lemma missing_mypy_appends_nothing :
  subprocess_run world_before (mypy_cmd "app.py") = Raise FileNotFoundError /\
  fst (mypy_check world_before "app.py" (initial_state 0)) = Ok [].
Proof. split; reflexivity. Qed.

Lemma exit_code_iff_no_violations_witness :
  fst (main gate_loads demo_hexdigest world_before None
            ["quality_gate.py"; "app.py"] 1000) = 2%Z /\
  exists vs e,
    List.last (err (snd (main gate_loads demo_hexdigest world_before None
                              ["quality_gate.py"; "app.py"] 1000))) []
    = [FDumps (JArr (List.map asdict (vs ++ [e])))].
Proof.
  destruct (exit_code_iff_no_violations gate_loads demo_hexdigest world_before
              None ["quality_gate.py"; "app.py"] 1000 "app.py")
    as [(e & st1 & Hv & _) | (passed & g & st1 & Hv & _ & H2 & _ & Hfail)].
  - apply (target_on_command_line _ _ _ _ "quality_gate.py" []);
      [left; reflexivity|reflexivity].
  - vm_compute in Hv. discriminate Hv.
  - assert (Hne : violations g <> []).
    { vm_compute in Hv. injection Hv as _ <- _. discriminate. }
    split; [apply H2, Hne|].
    destruct (Hfail Hne) as (_ & Herr).
    destruct (exists_last Hne) as (vs & e & Hg).
    exists vs, e. rewrite <- Hg. exact Herr.
Defined.

Lemma ruff_severity_from_code_witness :
  exists v1 v2,
    parse_ruff_output gate_loads "app.py" ruff_text = Ok [v1; v2] /\
    severity v1 = "WARNING" /\ severity v2 = "ERROR".
Proof.
  destruct (parse_ruff_output gate_loads "app.py" ruff_text) as [vs|e] eqn:Hp;
    [|vm_compute in Hp; discriminate Hp].
  destruct (ruff_severity_from_code gate_loads "app.py" ruff_text vs Hp)
    as (items & [(-> & ->) | (doc & Hdoc & Hitems)] & Hall).
  - vm_compute in Hp. discriminate Hp.
  - vm_compute in Hdoc. injection Hdoc as <-.
    cbn in Hitems. injection Hitems as <-.
    inversion Hall as [|? v1 ? vs1 (_ & H1 & _) Hrest]; subst.
    inversion Hrest as [|? v2 ? vs2 (H2 & _) Hnil]; subst.
    inversion Hnil; subst.
    exists v1, v2. split; [reflexivity|]. split; [apply H1|apply H2]; reflexivity.
Defined.

End QualityGateFacts.

(** * Further facts about strings *)

Lemma string_app_cons x (a b : string) : String x a +:+ b = String x (a +:+ b).
Proof. reflexivity. Qed.

Lemma string_app_nil (b : string) : "" +:+ b = b.
Proof. reflexivity. Qed.

Ltac app_norm := rewrite ?string_app_cons, ?string_app_nil.

Lemma string_app_assoc (a b c : string) : (a +:+ b) +:+ c = a +:+ (b +:+ c).
Proof. induction a as [|x a IH]; app_norm; simpl; [reflexivity|]. rewrite IH. reflexivity. Qed.

Lemma string_app_length (a b : string) :
  String.length (a +:+ b) = (String.length a + String.length b)%nat.
Proof. induction a as [|x a IH]; app_norm; simpl; [reflexivity|]. rewrite IH. reflexivity. Qed.

Lemma all_chars_app p (a b : string) :
  all_chars p (a +:+ b) = all_chars p a && all_chars p b.
Proof.
  induction a as [|x a IH]; app_norm; simpl; [reflexivity|]. rewrite IH, andb_assoc. reflexivity.
Qed.

Lemma prefix_app (n b : string) : String.prefix n (n +:+ b) = true.
Proof.
  induction n as [|x n IH]; app_norm; simpl; [destruct b; reflexivity|].
  destruct (ascii_dec x x); [exact IH|contradiction].
Qed.

Lemma contains_here (n s : string) : String.prefix n s = true -> contains n s = true.
Proof. intros H. destruct s; cbn [contains]; rewrite H; reflexivity. Qed.

Lemma contains_app (n a b : string) : contains n b = true -> contains n (a +:+ b) = true.
Proof.
  intros H. induction a as [|x a IH]; app_norm; [exact H|].
  cbn [contains]. rewrite IH. apply orb_true_r.
Qed.

Lemma contains_middle (n a b : string) : contains n (a +:+ n +:+ b) = true.
Proof. apply contains_app, contains_here, prefix_app. Qed.

Lemma split_max_0 c s : split_max c s 0 = [s].
Proof. destruct s; reflexivity. Qed.

Lemma split_max_cut c (a rest : string) n :
  lacks c a = true ->
  split_max c (a +:+ String c rest) (S n) = a :: split_max c rest n.
Proof.
  unfold lacks. induction a as [|x a IH]; app_norm; simpl; intros H.
  - rewrite Ascii.eqb_refl. reflexivity.
  - apply andb_true_iff in H as [Hx Ha]. apply negb_true_iff in Hx. rewrite Hx.
    rewrite (IH Ha). reflexivity.
Qed.

Lemma split_on_whole c (s : string) : lacks c s = true -> split_on c s = [s].
Proof.
  unfold lacks. induction s as [|x s IH]; app_norm; simpl; intros H; [reflexivity|].
  apply andb_true_iff in H as [Hx Hs]. apply negb_true_iff in Hx. rewrite Hx.
  rewrite (IH Hs). reflexivity.
Qed.

Lemma split_on_cut c (a rest : string) :
  lacks c a = true -> split_on c (a +:+ String c rest) = a :: split_on c rest.
Proof.
  unfold lacks. induction a as [|x a IH]; app_norm; simpl; intros H.
  - rewrite Ascii.eqb_refl. reflexivity.
  - apply andb_true_iff in H as [Hx Ha]. apply negb_true_iff in Hx. rewrite Hx.
    rewrite (IH Ha). reflexivity.
Qed.

Lemma rfind_from_absent c (s : string) i last :
  lacks c s = true -> rfind_from c s i last = last.
Proof.
  unfold lacks. revert i last. induction s as [|x s IH]; app_norm; simpl; intros i last H;
    [reflexivity|].
  apply andb_true_iff in H as [Hx Hs]. apply negb_true_iff in Hx. rewrite Hx.
  apply IH, Hs.
Qed.

Lemma rfind_from_last c (a b : string) i last :
  lacks c b = true ->
  rfind_from c (a +:+ String c b) i last = Some (i + String.length a)%nat.
Proof.
  intros Hb. revert i last. induction a as [|x a IH]; app_norm; simpl; intros i last.
  - rewrite Ascii.eqb_refl, rfind_from_absent by exact Hb. f_equal. lia.
  - rewrite IH. f_equal. lia.
Qed.

Lemma rfind_last c (a b : string) :
  lacks c b = true -> rfind c (a +:+ String c b) = Some (String.length a).
Proof. intros H. unfold rfind. rewrite rfind_from_last by exact H. reflexivity. Qed.

Lemma substring_skip (a b : string) n m :
  String.substring (String.length a + n) m (a +:+ b) = String.substring n m b.
Proof. induction a as [|x a IH]; app_norm; simpl; [reflexivity|exact IH]. Qed.

Lemma substring_take (a b : string) :
  String.substring 0 (String.length a) (a +:+ b) = a.
Proof.
  induction a as [|x a IH]; app_norm; simpl; [destruct b; reflexivity|]. rewrite IH. reflexivity.
Qed.

Lemma substring_whole (s : string) : String.substring 0 (String.length s) s = s.
Proof. induction s as [|x s IH]; app_norm; simpl; [reflexivity|]. rewrite IH. reflexivity. Qed.

Lemma app_not_empty (a : string) x (b : string) : a +:+ String x b <> "".
Proof. destruct a; discriminate. Qed.

Lemma rstrip_app (a b : string) : rstrip b = b -> b <> "" -> rstrip (a +:+ b) = a +:+ b.
Proof.
  intros Hb Hne. induction a as [|x a IH]; app_norm; simpl; [exact Hb|].
  rewrite IH. destruct (a +:+ b) eqn:E; [|reflexivity].
  destruct a; cbn in E; [contradiction|discriminate].
Qed.

Lemma rstrip_spaces (s : string) : all_chars is_space s = true -> rstrip s = "".
Proof.
  induction s as [|x s IH]; app_norm; simpl; intros H; [reflexivity|].
  apply andb_true_iff in H as [Hx Hs]. rewrite (IH Hs), Hx. reflexivity.
Qed.

Lemma rstrip_app_spaces (a b : string) :
  all_chars is_space b = true -> rstrip (a +:+ b) = rstrip a.
Proof.
  intros Hb. induction a as [|x a IH]; app_norm; simpl; [apply rstrip_spaces, Hb|].
  rewrite IH. reflexivity.
Qed.

Lemma replace_absent (old new s : string) :
  contains old s = false -> replace_from old new 0 s = s.
Proof.
  induction s as [|x s IH]; app_norm; simpl; intros H; [reflexivity|].
  apply orb_false_iff in H as [Hp Hc]. rewrite Hp, (IH Hc). reflexivity.
Qed.

Lemma decimal_is_not_space c : is_decimal c = true -> is_space c = false.
Proof.
  unfold is_decimal, is_space. intros H. apply andb_true_iff in H as [H1 H2].
  apply Nat.leb_le in H1, H2.
  repeat match goal with
         | |- context [(?a <=? ?b)%nat] => destruct (Nat.leb_spec a b)
         | |- context [(?a =? ?b)%nat] => destruct (Nat.eqb_spec a b)
         end; try reflexivity; lia.
Qed.

Lemma numeral_parts s :
  is_numeral s = true -> s <> "" /\ all_chars is_decimal s = true.
Proof.
  unfold is_numeral. intros H. apply andb_true_iff in H as [H1 H2].
  split; [|exact H2]. intros ->. discriminate.
Qed.

Lemma digits_lstrip s : all_chars is_decimal s = true -> lstrip s = s.
Proof.
  destruct s as [|x s]; app_norm; simpl; [reflexivity|]. intros H.
  apply andb_true_iff in H as [Hx _]. rewrite (decimal_is_not_space _ Hx). reflexivity.
Qed.

Lemma digits_rstrip s : all_chars is_decimal s = true -> rstrip s = s.
Proof.
  induction s as [|x s IH]; app_norm; simpl; [reflexivity|]. intros H.
  apply andb_true_iff in H as [Hx Hs]. rewrite (IH Hs).
  destruct s; [|reflexivity]. rewrite (decimal_is_not_space _ Hx). reflexivity.
Qed.

Lemma numeral_trimmed s : is_numeral s = true -> str_strip s = s.
Proof.
  intros H. apply numeral_parts in H as [_ H]. unfold str_strip.
  rewrite (digits_lstrip _ H). apply digits_rstrip, H.
Qed.

Lemma digits_value_decimal s acc b :
  all_chars is_decimal s = true -> (s <> "" \/ b = true) ->
  digits_value acc b s = Some (decimal_value acc s).
Proof.
  revert acc b. induction s as [|x s IH]; app_norm; simpl; intros acc b H Hne.
  - destruct Hne as [Hne | ->]; [contradiction|reflexivity].
  - apply andb_true_iff in H as [Hx Hs]. rewrite Hx. apply IH; auto.
Qed.

Lemma count_decimals_digits s :
  all_chars is_decimal s = true -> count_decimals s = String.length s.
Proof.
  induction s as [|x s IH]; simpl; [reflexivity|]. intros H.
  apply andb_true_iff in H as [-> Hs]. rewrite (IH Hs). reflexivity.
Qed.

Lemma py_int_numeral s :
  is_numeral s = true -> convertible s -> py_int s = Some (decimal_value 0 s).
Proof.
  intros H Hlen. unfold py_int. rewrite (numeral_trimmed _ H).
  apply numeral_parts in H as [Hne Hd].
  rewrite (count_decimals_digits _ Hd).
  apply Z.leb_le in Hlen. rewrite Hlen. clear Hlen.
  destruct s as [|x s]; [contradiction|].
  assert (Hx : is_decimal x = true).
  { cbn in Hd. apply andb_true_iff in Hd. tauto. }
  assert (Hv : digits_value 0 false (String x s) = Some (decimal_value 0 (String x s))).
  { apply digits_value_decimal; auto. }
  destruct x as [[] [] [] [] [] [] [] []]; try discriminate Hx; rewrite Hv; reflexivity.
Qed.

Lemma py_isdigit_numeral s : is_numeral s = true -> py_isdigit s = true.
Proof.
  unfold is_numeral, py_isdigit. intros H. apply andb_true_iff in H as [H1 H2].
  rewrite H1. cbn [andb]. clear H1. induction s as [|x s IH]; [reflexivity|].
  cbn in H2 |- *. apply andb_true_iff in H2 as [Hx Hs]. rewrite (IH Hs).
  unfold is_digit_char. rewrite Hx. reflexivity.
Qed.

Lemma decimal_lacks c s :
  is_decimal c = false -> all_chars is_decimal s = true -> lacks c s = true.
Proof.
  intros Hc. unfold lacks. induction s as [|x s IH]; app_norm; simpl; [reflexivity|]. intros H.
  apply andb_true_iff in H as [Hx Hs]. rewrite (IH Hs), andb_true_r.
  apply negb_true_iff. destruct (Ascii.eqb_spec x c) as [->|_]; congruence.
Qed.

Lemma numeral_lacks c s : is_decimal c = false -> is_numeral s = true -> lacks c s = true.
Proof. intros Hc H. apply numeral_parts in H as [_ H]. eapply decimal_lacks; eauto. Qed.

Lemma index_first c (a b : string) :
  lacks c a = true ->
  String.index 0 (String c "") (a +:+ String c b) = Some (String.length a).
Proof.
  unfold lacks. induction a as [|x a IH]; app_norm; simpl; intros H.
  - destruct (ascii_dec c c); [|contradiction]. destruct b; reflexivity.
  - apply andb_true_iff in H as [Hx Ha]. apply negb_true_iff in Hx.
    destruct (ascii_dec c x) as [->|_].
    + rewrite Ascii.eqb_refl in Hx. discriminate.
    + rewrite (IH Ha). reflexivity.
Qed.

Lemma index_skip n (s1 a b : string) :
  String.length a = n ->
  String.index n s1 (a +:+ b)
  = option_map (fun k => (n + k)%nat) (String.index 0 s1 b).
Proof.
  revert a. induction n as [|n IH]; intros a Ha.
  - destruct a; [|discriminate]. app_norm; simpl. destruct (String.index 0 s1 b); reflexivity.
  - destruct a as [|x a]; [discriminate|]. injection Ha as Ha. app_norm; simpl.
    rewrite (IH a Ha). destruct (String.index 0 s1 b); reflexivity.
Qed.

Lemma substring_rest (a b : string) :
  String.substring (String.length a) (String.length (a +:+ b) - String.length a) (a +:+ b)
  = b.
Proof.
  rewrite string_app_length. replace (String.length a + String.length b - String.length a)%nat
    with (String.length b) by lia.
  rewrite <- (Nat.add_0_r (String.length a)) at 1.
  rewrite substring_skip. apply substring_whole.
Qed.

Lemma split_max_at c (a t rest : string) n :
  lacks c a = true ->
  split_max c (a +:+ String c t +:+ rest) (S n) = a :: split_max c (t +:+ rest) n.
Proof. intros H. rewrite string_app_cons. apply split_max_cut, H. Qed.

Lemma split_on_at c (a t rest : string) :
  lacks c a = true ->
  split_on c (a +:+ String c t +:+ rest) = a :: split_on c (t +:+ rest).
Proof. intros H. rewrite string_app_cons. apply split_on_cut, H. Qed.

(** ** The order of strings *)

Lemma ascii_compare_refl a : Ascii.compare a a = Eq.
Proof. unfold Ascii.compare. apply N.compare_refl. Qed.

Lemma ascii_compare_trans a b c :
  Ascii.compare a b = Lt -> Ascii.compare b c = Lt -> Ascii.compare a c = Lt.
Proof.
  unfold Ascii.compare. rewrite !N.compare_lt_iff. apply N.lt_trans.
Qed.

Lemma string_compare_trans a b c :
  String.compare a b = Lt -> String.compare b c = Lt -> String.compare a c = Lt.
Proof.
  revert b c. induction a as [|x a IH]; intros [|y b] [|z c]; cbn; try congruence.
  destruct (Ascii.compare x y) eqn:Hxy; try discriminate;
    destruct (Ascii.compare y z) eqn:Hyz; try discriminate.
  - apply Ascii.compare_eq_iff in Hxy, Hyz. subst. rewrite ascii_compare_refl. apply IH.
  - apply Ascii.compare_eq_iff in Hxy. subst. rewrite Hyz. reflexivity.
  - apply Ascii.compare_eq_iff in Hyz. subst. rewrite Hxy. reflexivity.
  - rewrite (ascii_compare_trans _ _ _ Hxy Hyz). reflexivity.
Qed.

Lemma string_ltb_trans a b c :
  String.ltb a b = true -> String.ltb b c = true -> String.ltb a c = true.
Proof.
  unfold String.ltb. intros Hab Hbc.
  destruct (String.compare a b) eqn:E1; try discriminate.
  destruct (String.compare b c) eqn:E2; try discriminate.
  rewrite (string_compare_trans _ _ _ E1 E2). reflexivity.
Qed.

Lemma string_ltb_total a b : String.ltb a b = false -> a <> b -> String.ltb b a = true.
Proof.
  unfold String.ltb. intros Hab Hne. rewrite String.compare_antisym.
  destruct (String.compare a b) eqn:E; try discriminate; [|reflexivity].
  apply String.compare_eq_iff in E. contradiction.
Qed.

Section SortStrings.
Context {A : Type} (key : A -> string).

Lemma insert_by_ltb_perm (x : A) (l : list A) :
  Permutation (insert_by String.ltb key x l) (x :: l).
Proof.
  induction l as [|y l IH]; cbn; [reflexivity|].
  destruct (String.ltb (key y) (key x)); [|reflexivity].
  rewrite IH. apply perm_swap.
Qed.

Lemma sort_by_ltb_perm (l : list A) : Permutation (sort_by String.ltb key l) l.
Proof.
  induction l as [|x l IH]; cbn; [reflexivity|].
  rewrite insert_by_ltb_perm, IH. reflexivity.
Qed.

Lemma insert_by_ltb_sorted (x : A) (l : list A) :
  ~ In (key x) (List.map key l) ->
  StronglySorted (fun a b => String.ltb (key a) (key b) = true) l ->
  StronglySorted (fun a b => String.ltb (key a) (key b) = true)
                 (insert_by String.ltb key x l).
Proof.
  intros Hnew Hs. induction Hs as [|y l Hs IH Hy]; cbn.
  - repeat constructor.
  - cbn in Hnew. destruct (String.ltb (key y) (key x)) eqn:Hyx.
    + constructor; [apply IH; tauto|].
      eapply Permutation_Forall; [symmetry; apply insert_by_ltb_perm|].
      constructor; assumption.
    + assert (Hxy : String.ltb (key x) (key y) = true).
      { apply string_ltb_total; [exact Hyx|]. intros E. apply Hnew. left. exact E. }
      constructor; [constructor; assumption|].
      constructor; [exact Hxy|].
      eapply Forall_impl; [exact Hy|]. cbn. intros b Hb.
      eapply string_ltb_trans; eassumption.
Qed.

Lemma sort_by_ltb_sorted (l : list A) :
  List.NoDup (List.map key l) ->
  StronglySorted (fun a b => String.ltb (key a) (key b) = true)
                 (sort_by String.ltb key l).
Proof.
  induction l as [|x l IH]; cbn; intros Hnd; [constructor|].
  apply List.NoDup_cons_iff in Hnd as [Hx Hnd].
  apply insert_by_ltb_sorted; [|auto].
  intros Hin. apply Hx.
  eapply Permutation_in; [|exact Hin].
  apply Permutation_map, sort_by_ltb_perm.
Qed.
End SortStrings.

Lemma insert_by_map {A B K} (ltb : K -> K -> bool) (key : B -> K) (f : A -> B) x l :
  insert_by ltb key (f x) (List.map f l)
  = List.map f (insert_by ltb (fun a => key (f a)) x l).
Proof.
  induction l as [|y l IH]; cbn; [reflexivity|].
  destruct (ltb (key (f y)) (key (f x))); cbn; [rewrite IH|]; reflexivity.
Qed.

Lemma sort_by_map {A B K} (ltb : K -> K -> bool) (key : B -> K) (f : A -> B) l :
  sort_by ltb key (List.map f l) = List.map f (sort_by ltb (fun a => key (f a)) l).
Proof.
  induction l as [|x l IH]; cbn; [reflexivity|].
  rewrite IH. apply insert_by_map.
Qed.

(** * The coverage evaluator: further properties *)
Module CoverageRunFacts.
Import Coverage CoverageSpec CoverageTerms CoverageFacts.

Lemma find_first {A} (p : A -> bool) (l : list A) :
  (List.find p l = None <-> Forall (fun x => p x = false) l) /\
  (forall x, List.find p l = Some x <->
             exists pre post, l = pre ++ x :: post /\ p x = true /\
                              Forall (fun y => p y = false) pre).
Proof.
  induction l as [|y l [IHn IHs]]; cbn.
  - split; [split; [constructor|reflexivity]|].
    intros x. split; [discriminate|]. intros ([|? ?] & post & H & _); discriminate.
  - destruct (p y) eqn:Hy.
    + split.
      * split; [discriminate|]. intros H. inversion H; congruence.
      * intros x. split.
        -- intros [= <-]. exists [], l. repeat split; auto.
        -- intros ([|z pre] & post & H & Hx & Hpre).
           ++ injection H as -> _. reflexivity.
           ++ injection H as -> _. inversion Hpre; congruence.
    + split.
      * rewrite IHn. split; [intros H; constructor; assumption|].
        intros H. inversion H; assumption.
      * intros x. rewrite IHs. split.
        -- intros (pre & post & -> & Hx & Hpre). exists (y :: pre), post.
           repeat split; auto.
        -- intros ([|z pre] & post & H & Hx & Hpre).
           ++ injection H as -> _. congruence.
           ++ injection H as -> ->. exists pre, post. repeat split; auto.
              inversion Hpre; assumption.
Qed.

(** X15.  Discovery returns the first of the six candidate paths that
    exists, in the order of the list, and nothing when none exists.  In
    particular an existing [coverage/coverage.json] is used whatever else
    exists. *)
Theorem first_existing_candidate_is_used fs :
  (find_coverage_report fs = None <->
   Forall (fun q => path_exists fs q = false) search_paths) /\
  (forall p,
     find_coverage_report fs = Some p <->
     exists pre post,
       search_paths = pre ++ p :: post /\ path_exists fs p = true /\
       Forall (fun q => path_exists fs q = false) pre) /\
  (forall json_loads self,
     path_exists fs "coverage/coverage.json" = true ->
     run json_loads fs self None
     = run json_loads fs self (Some "coverage/coverage.json")).
Proof.
  unfold find_coverage_report.
  destruct (find_first (path_exists fs) search_paths) as [Hn Hs].
  split; [exact Hn|]. split; [exact Hs|].
  intros json_loads self Hex. unfold run, find_coverage_report. cbn [search_paths List.find].
  rewrite !Hex. reflexivity.
Qed.

Lemma check_threshold_false report threshold stack message err :
  check_threshold report threshold stack = Ok (false, message, err) ->
  exists total,
    as_num (total_percent report) = Some total /\
    num_leb (Float threshold) total = false.
Proof.
  unfold check_threshold, py_ge. intros H. bind_inv H.
  destruct (as_num (total_percent report)) as [total|]; [|discriminate].
  injection E as <-. exists total. split; [reflexivity|].
  destruct (num_leb (Float threshold) total); [|reflexivity].
  repeat bind_inv H. discriminate.
Qed.

(** A comparison [total >= threshold] that is false: the total is below the
    threshold, or one of the two is NaN. *)
Lemma num_leb_false_cases total thr :
  num_leb (Float thr) total = false ->
  num_value total = None \/ float_value thr = None \/
  exists x t, num_value total = Some x /\ float_value thr = Some t /\
              xnum_ltb x t = true.
Proof.
  unfold num_leb. cbn [num_value].
  destruct (float_value thr) as [t|]; [|auto].
  destruct (num_value total) as [x|]; [|auto].
  intros H. apply negb_false_iff in H. right. right. eauto.
Qed.

Lemma validate_coverage_false json_loads fs self p message err :
  validate_coverage json_loads fs self p = Ok (false, message, err) ->
  exists o report total,
    detect_report_type p = Some (report_tag o) /\
    parse_report json_loads fs o self p = Ok report /\
    as_num (total_percent report) = Some total /\
    num_leb (Float (threshold_for o self)) total = false.
Proof.
  unfold validate_coverage. destruct (detect_report_type p) as [t|]; [|discriminate].
  destruct (String.eqb_spec t "coverage.py") as [->|_];
    [|destruct (String.eqb_spec t "jest") as [->|_]].
  - destruct (parse_coverage_py_report json_loads fs self p) as [r|e] eqn:Hp;
      cbn [mbind result_bind rbind].
    + intros H. apply check_threshold_false in H as (total & Ht & Hlt).
      exists Backend, r, total. auto.
    + destruct (is_Exception e); discriminate.
  - destruct (parse_jest_report json_loads fs self p) as [r|e] eqn:Hp;
      cbn [mbind result_bind rbind].
    + intros H. apply check_threshold_false in H as (total & Ht & Hlt).
      exists Frontend, r, total. auto.
    + destruct (is_Exception e); discriminate.
  - discriminate.
Qed.

(** X16.  The process ends with exit code 0 or 2, and with 2 only when the
    thresholds were read, the report (the requested one, or else the first
    candidate that exists) exists, has one of the two parsed formats and
    parses, and its total percentage is an [int] or a [float] for which
    [total >= threshold] is false for the threshold of its stack: the total
    stands for a number strictly below the one the threshold stands for, or
    one of the two is NaN. *)
Theorem blocks_only_below_threshold json_loads float_of_str fs getenv argv :
  (exit_code (main json_loads float_of_str fs getenv argv) = 0%Z \/
   exit_code (main json_loads float_of_str fs getenv argv) = 2%Z) /\
  (exit_code (main json_loads float_of_str fs getenv argv) = 2%Z ->
   exists validator p o report total,
     init float_of_str getenv = Ok validator /\
     located fs (requested_report_path getenv argv) p /\
     path_exists fs p = true /\
     detect_report_type p = Some (report_tag o) /\
     parse_report json_loads fs o validator p = Ok report /\
     as_num (total_percent report) = Some total /\
     ~ at_least total (threshold_for o validator) /\
     (num_value total = None \/ float_value (threshold_for o validator) = None \/
      exists x t, num_value total = Some x /\
                  float_value (threshold_for o validator) = Some t /\
                  xnum_ltb x t = true)).
Proof.
  split.
  { destruct (main_exit_code json_loads float_of_str fs getenv argv)
      as [H | (_ & _ & proc & _ & -> & H)]; auto. }
  unfold main.
  destruct (init float_of_str getenv) as [validator|e] eqn:Hinit;
    cbn [mbind result_bind rbind].
  2:{ rewrite (init_raises _ _ _ Hinit). discriminate. }
  destruct (run json_loads fs validator (requested_report_path getenv argv))
    as [proc|e] eqn:Hrun.
  2:{ rewrite (run_raises _ _ _ _ _ Hrun). discriminate. }
  intros Hcode. unfold run in Hrun.
  destruct (match requested_report_path getenv argv with
            | Some p => Some p
            | None => find_coverage_report fs
            end) as [p|] eqn:Hloc.
  2:{ injection Hrun as <-. discriminate. }
  destruct (path_exists fs p) eqn:Hex; cbn [negb] in Hrun.
  2:{ injection Hrun as <-. discriminate. }
  bind_inv Hrun. destruct a as [[passed message] err]. injection Hrun as <-.
  destruct passed; [discriminate|].
  apply validate_coverage_false in E as (o & report & total & Hd & Hp & Ht & Hlt).
  exists validator, p, o, report, total. split; [reflexivity|].
  split; [unfold located; destruct (requested_report_path getenv argv); congruence|].
  repeat (split; [assumption|]). split.
  - intros Hge. apply num_leb_at_least in Hge. congruence.
  - apply num_leb_false_cases, Hlt.
Qed.

Lemma positive_threshold thr :
  (0 <? thr)%float = true -> num_leb (Float thr) (Float 0) = false.
Proof.
  rewrite ltb_spec. unfold num_leb, float_value. cbn [num_value].
  unfold float_value. change (Prim2SF 0) with (S754_zero false).
  unfold SFltb, SFcompare.
  destruct (Prim2SF thr) as [s|s| |s m e]; try discriminate.
  - destruct s; [discriminate|reflexivity].
  - destruct s; [discriminate|]. intros _. cbn [xnum_ltb cond_Zopp negb].
    apply negb_false_iff, Qltb_true, scaled_pos.
Qed.

(** X17.  An existing [coverage.json] that decodes to an object without
    [totals] and without [files] counts as 0% covered: with a positive
    backend threshold the run blocks (exit code 2), reports 0 as the
    coverage, the whole threshold as the gap, and no file. *)
Theorem report_without_totals_blocks json_loads fs self p fields :
  path_exists fs p = true ->
  detect_report_type p = Some "coverage.py" ->
  load_json_file json_loads fs p = Ok (JObj fields) ->
  assoc "totals" fields = None ->
  assoc "files" fields = None ->
  (0 <? backend_threshold self)%float = true ->
  exists message,
    run json_loads fs self (Some p)
    = Ok {| exit_code := 2;
            stdout := [message];
            stderr := [[FDumps (JObj [ ("coverage_percent", JFloat 0);
                                       ("threshold", JFloat (backend_threshold self));
                                       ("gap", JFloat (backend_threshold self - 0));
                                       ("uncovered_files", JArr []) ])]] |}.
Proof.
  intros Hex Hd Hload Ht Hf Hthr.
  unfold run. rewrite Hex. cbn [negb]. unfold validate_coverage. rewrite Hd.
  cbn [String.eqb Ascii.eqb Bool.eqb].
  unfold parse_coverage_py_report. rewrite Hload.
  cbn [mbind result_bind rbind dict_get]. rewrite Ht, Hf.
  cbn [mbind result_bind rbind dict_get assoc dict_items collect_uncovered sort_by].
  unfold check_threshold, py_ge.
  cbn [total_percent statement_percent branch_percent function_percent
       uncovered_files as_num mbind result_bind rbind].
  rewrite (positive_threshold _ Hthr). cbn. eexists. reflexivity.
Qed.

(** X18.  When one of the two threshold variables is set to a text that is
    not a number, the process writes the error and the traceback to the
    diagnostic channel and ends with exit code 0, with nothing on standard
    output. *)
Theorem invalid_threshold_exits_0 json_loads float_of_str fs getenv argv name s :
  name = "BACKEND_COVERAGE_THRESHOLD" \/ name = "FRONTEND_COVERAGE_THRESHOLD" ->
  getenv name = Some s ->
  float_of_str s = None ->
  main json_loads float_of_str fs getenv argv
  = {| exit_code := 0; stdout := [];
       stderr := [ [Txt "❌ Coverage validation error: "; FExn ValueError];
                   [FTraceback ValueError] ] |}.
Proof.
  intros Hname Henv Hfloat.
  assert (Hinit : init float_of_str getenv = Raise ValueError).
  { unfold init, env_float. destruct Hname as [-> | ->].
    - rewrite Henv, Hfloat. reflexivity.
    - rewrite Henv, Hfloat.
      destruct (getenv "BACKEND_COVERAGE_THRESHOLD") as [b|]; [|reflexivity].
      destruct (float_of_str b); reflexivity. }
  unfold main. rewrite Hinit. reflexivity.
Qed.

Lemma sorted_prefix_before_rest {A} (R : A -> A -> Prop) (l : list A) n a b :
  StronglySorted R l -> In a (List.firstn n l) -> In b (List.skipn n l) -> R a b.
Proof.
  intros Hs. revert n. induction Hs as [|x l Hs IH Hx]; intros n Ha Hb.
  - destruct n; destruct Ha.
  - destruct n as [|n]; [destruct Ha|]. cbn in Ha, Hb. destruct Ha as [<-|Ha].
    + eapply List.Forall_forall; [exact Hx|].
      rewrite <- (List.firstn_skipn n l). apply in_or_app. right. exact Hb.
    + eapply IH; eassumption.
Qed.

(** X19.  The files named on failure are the least covered ones: the payload
    on the diagnostic channel lists the first ten entries of
    [uncovered_files] at most, and for every cut of that list no entry after
    the cut has a lower percentage than an entry before it. *)
Theorem listed_files_are_the_least_covered json_loads fs o self p r threshold gap :
  parse_report json_loads fs o self p = Ok r ->
  dict_get (stderr_data r threshold gap) "uncovered_files" JNull
  = Ok (JArr (List.map (fun '(f, pct) => JObj [("file", JStr f); ("coverage", pct)])
                       (List.firstn 10 (uncovered_files r)))) /\
  (List.length (List.firstn 10 (uncovered_files r)) <= 10)%nat /\
  forall n listed left_out,
    In listed (List.firstn n (uncovered_files r)) ->
    In left_out (List.skipn n (uncovered_files r)) ->
    key_le pct_key listed left_out.
Proof.
  intros Hp. split; [reflexivity|]. split; [apply List.firstn_le_length|].
  intros n listed left_out Ha Hb.
  apply parse_report_uncovered in Hp as (data & _ & Hu).
  apply (sorted_prefix_before_rest (key_le pct_key) (uncovered_files r) n); auto.
  rewrite Hu. apply sort_by_sorted, filter_below_valued.
Qed.

(** ** Concrete runs *)

(** A total that is NaN blocks, although it is not below the threshold; a
    total beyond the range of the floats does not, although it is. *)
Example nan_total_blocks :
  exit_code (main odd_loads no_float odd_fs (env_table [])
                  ["coverage_validator.py"; "nan/coverage.json"])
  = 2%Z.
Proof. vm_compute. reflexivity. Qed.

Example huge_total_exits_0 :
  main odd_loads no_float odd_fs (env_table [])
       ["coverage_validator.py"; "huge/coverage.json"]
  = {| exit_code := 0; stdout := [];
       stderr := [ [Txt "❌ Coverage validation error: "; FExn OverflowError];
                   [FTraceback OverflowError] ] |}.
Proof. vm_compute. reflexivity. Qed.

Lemma report_without_totals_blocks_witness :
  exists message,
    run bare_loads bare_fs demo_validator (Some "coverage.json")
    = Ok {| exit_code := 2;
            stdout := [message];
            stderr := [[FDumps (JObj [ ("coverage_percent", JFloat 0);
                                       ("threshold", JFloat 80);
                                       ("gap", JFloat 80);
                                       ("uncovered_files", JArr []) ])]] |}.
Proof.
  apply (report_without_totals_blocks bare_loads bare_fs demo_validator
           "coverage.json" [("meta", JObj [("version", JStr "7.4")])]);
    reflexivity.
Defined.

Lemma invalid_threshold_exits_0_witness :
  exit_code (main demo_loads no_float demo_fs
                  (env_table [("FRONTEND_COVERAGE_THRESHOLD", "seventy")]) [])
  = 0%Z.
Proof.
  rewrite (invalid_threshold_exits_0 demo_loads no_float demo_fs
             (env_table [("FRONTEND_COVERAGE_THRESHOLD", "seventy")]) []
             "FRONTEND_COVERAGE_THRESHOLD" "seventy").
  - reflexivity.
  - right. reflexivity.
  - reflexivity.
  - reflexivity.
Defined.

Lemma listed_files_are_the_least_covered_witness :
  key_le pct_key ("app/a.py", JFloat 50) ("app/d.py", JFloat 79.5).
Proof.
  apply (proj2 (proj2 (listed_files_are_the_least_covered demo_loads demo_fs Backend
                         demo_validator "coverage/coverage.json" demo_py_report
                         80 5 eq_refl)) 2%nat).
  - left. reflexivity.
  - left. reflexivity.
Defined.

End CoverageRunFacts.

(** * The violation aggregator: further properties *)
Module GateRunFacts.
Import QualityGate QualityGateSpec QualityGateTerms QualityGateFacts.

Ltac break_match :=
  repeat match goal with
         | |- context [match ?x with _ => _ end] => destruct x
         | |- context [if ?x then _ else _] => destruct x
         end.

Lemma mypy_line_labelled file_path l :
  Forall (fun v => file v = JStr file_path /\ severity v = "ERROR" /\ tool v = "mypy")
         (mypy_line file_path l).
Proof.
  unfold mypy_line. break_match; repeat constructor.
Qed.

Lemma tsc_line_labelled l :
  Forall (fun v => severity v = "ERROR" /\ tool v = "tsc") (tsc_line l).
Proof.
  unfold tsc_line. break_match; repeat constructor.
Qed.

Lemma Forall_flat_map {A B} (P : B -> Prop) (f : A -> list B) (xs : list A) :
  (forall x, Forall P (f x)) -> Forall P (List.flat_map f xs).
Proof.
  intros H. induction xs as [|x xs IH]; cbn; [constructor|].
  apply Forall_app. auto.
Qed.





(** What a parser of a tool's JSON raises is an exception of the shape of
    the document. *)
Lemma py_iter_raises v e : py_iter v = Raise e -> is_Exception e = true.
Proof. destruct v; cbn; try discriminate; intros [= <-]; reflexivity. Qed.

Lemma py_startswith_raises v p e : py_startswith v p = Raise e -> is_Exception e = true.
Proof. destruct v; cbn; try discriminate; intros [= <-]; reflexivity. Qed.

Ltac shape_inv H :=
  repeat (apply bind_Raise in H as [H|(? & _ & H)];
          [first [ eapply dict_get_raises, H | eapply py_iter_raises, H
                 | eapply py_startswith_raises, H ]|]).

Lemma ruff_violation_raises file_path item e :
  ruff_violation file_path item = Raise e -> is_Exception e = true.
Proof. unfold ruff_violation. intros H. shape_inv H. discriminate. Qed.

Lemma eslint_violation_raises file_path file_result m e :
  eslint_violation file_path file_result m = Raise e -> is_Exception e = true.
Proof. unfold eslint_violation. intros H. shape_inv H. discriminate. Qed.

Lemma parse_ruff_output_raises json_loads file_path stdout e :
  parse_ruff_output json_loads file_path stdout = Raise e -> is_Exception e = true.
Proof.
  unfold parse_ruff_output. destruct (truthy _); [|discriminate].
  destruct (json_loads stdout); [|discriminate]. intros H.
  apply bind_Raise in H as [H|(? & _ & H)]; [eapply py_iter_raises, H|].
  eapply CoverageFacts.rmap_raises; [|exact H]. apply ruff_violation_raises.
Qed.

Lemma parse_eslint_output_raises json_loads file_path stdout e :
  parse_eslint_output json_loads file_path stdout = Raise e -> is_Exception e = true.
Proof.
  unfold parse_eslint_output. destruct (truthy _); [|discriminate].
  destruct (json_loads stdout); [|discriminate]. intros H.
  apply bind_Raise in H as [H|(? & _ & H)]; [eapply py_iter_raises, H|].
  apply bind_Raise in H as [H|(? & _ & H)]; [|discriminate].
  eapply CoverageFacts.rmap_raises; [|exact H].
  intros file_result e' H'. unfold eslint_file_result in H'.
  shape_inv H'. eapply CoverageFacts.rmap_raises; [|exact H'].
  apply eslint_violation_raises.
Qed.

Lemma dict_get_AttributeError d k v e : dict_get d k v = Raise e -> e = AttributeError.
Proof.
  unfold dict_get. destruct d; try (intros [= <-]; reflexivity).
  destruct (assoc k fields); discriminate.
Qed.

Lemma ruff_violation_AttributeError file_path item e :
  ruff_violation file_path item = Raise e -> e = AttributeError.
Proof.
  unfold ruff_violation. intros H.
  repeat (apply bind_Raise in H as [H|(? & _ & H)];
          [first [ eapply dict_get_AttributeError, H
                 | destruct x6; cbn in H; congruence ]|]).
  discriminate.
Qed.

Lemma rmap_raises_with {A B} (f : A -> result B) (xs : list A) (x : A) e0 e :
  (forall y e', f y = Raise e' -> e' = e) ->
  In x xs -> f x = Raise e0 -> rmap f xs = Raise e.
Proof.
  intros Hf Hin Hx. induction xs as [|y xs IH]; [destruct Hin|]. cbn.
  destruct (f y) as [b|e'] eqn:Hy; [|apply Hf in Hy; congruence].
  destruct Hin as [-> | Hin]; [congruence|]. rewrite (IH Hin). reflexivity.
Qed.

Section Gate.
Variable json_loads : string -> option json.
Variable sha256_hexdigest : string -> string.
Variable w : World.

Lemma ran_all_app cmds cmds' st :
  ran_all w (cmds ++ cmds') st = ran_all w cmds' (ran_all w cmds st).
Proof. apply fold_left_app. Qed.

Lemma ran_all_fields cmds st :
  cache (ran_all w cmds st) = cache st /\
  invoked (ran_all w cmds st) = invoked st ++ cmds /\
  out (ran_all w cmds st) = out st /\ err (ran_all w cmds st) = err st.
Proof.
  revert st. induction cmds as [|c cmds IH]; intros st; cbn.
  - rewrite app_nil_r. auto.
  - destruct (IH (ran w c st)) as (Hc & Hi & Ho & He).
    unfold ran_all in *. rewrite Hc, Hi, Ho, He. cbn. rewrite <- app_assoc. auto.
Qed.

(** A run of steps stops at the first step that raises; until then every
    step has run its command. *)
Lemma run_steps_trace steps file_path st r st' :
  run_steps json_loads w steps file_path st = (r, st') ->
  exists k,
    (k <= List.length steps)%nat /\
    st' = ran_all w (List.map (fun s => step_cmd s file_path) (List.firstn k steps)) st /\
    (steps <> [] -> (0 < k)%nat) /\
    (forall vs, r = Ok vs -> k = List.length steps).
Proof.
  revert st r st'. induction steps as [|s steps IH]; intros st r st'; cbn [run_steps].
  - intros [= <- <-]. exists 0%nat. cbn. repeat split; auto. congruence.
  - rewrite M_bind_unfold.
    destruct (step_run _ _ s file_path st) as [[vs|e] st1] eqn:Hs;
      apply step_state in Hs; subst st1.
    + rewrite M_bind_unfold.
      destruct (run_steps _ _ steps file_path _) as [[more|e] st2] eqn:Hr;
        apply IH in Hr as (k & Hk & -> & _ & Hall); intros [= <- <-];
        exists (S k); cbn; (split; [lia|]); (split; [reflexivity|]);
        (split; [lia|]); intros vs' [=].
      rewrite (Hall more eq_refl). reflexivity.
    + intros [= <- <-]. exists 1%nat. cbn. split; [lia|].
      split; [destruct steps; reflexivity|]. split; [lia|]. intros vs [=].
Qed.

Lemma language_checks language file_path st :
  detect_language file_path = Some language ->
  (if String.eqb language "python"
   then run_python_checks json_loads w file_path
   else run_typescript_checks json_loads w file_path) st
  = run_steps json_loads w (steps_for file_path) file_path st.
Proof.
  intros H. unfold steps_for. rewrite H. destruct (String.eqb language "python").
  - apply run_python_checks_steps.
  - apply run_typescript_checks_steps.
Qed.

(** What [validate_file] does when the cache has nothing to offer for an
    existing file of a known language. *)
Lemma validate_file_miss self file_path language st :
  path_exists w file_path = true ->
  check_cache sha256_hexdigest w file_path st = (Ok None, st) ->
  detect_language file_path = Some language ->
  validate_file json_loads sha256_hexdigest w self file_path st
  = match run_steps json_loads w (steps_for file_path) file_path st with
    | (Ok vs, st1) =>
        (Ok (is_empty vs, extend self vs),
         {| cache := <[file_path := (clock st1, vs)]> (cache st1);
            clock := clock st1; invoked := invoked st1;
            out := out st1; err := err st1 |})
    | (Raise e, st1) => (Raise e, st1)
    end.
Proof.
  intros Hex Hmiss Hlang. unfold validate_file. rewrite Hex, Hlang. cbn [negb].
  rewrite M_bind_unfold, Hmiss, M_bind_unfold, (language_checks _ _ _ Hlang).
  destruct (run_steps _ _ _ _ _) as [[vs|e] st1]; reflexivity.
Qed.

Lemma check_cache_total file_path st :
  exists r, check_cache sha256_hexdigest w file_path st = (Ok r, st).
Proof.
  destruct (check_cache_cases sha256_hexdigest w file_path st)
    as [H | (t & vs & H & _)]; eauto.
Qed.

(** X1.  [check_cache] never raises and leaves the state as it is.  It
    returns a violation sequence exactly when the file can be read and its
    hash is not empty, the cache holds an entry under the path, and strictly
    fewer than [CACHE_TTL] seconds have passed since the entry was stored;
    the sequence is then the entry's.  A file that cannot be read, and an
    entry that is [CACHE_TTL] seconds old, are misses. *)
Theorem check_cache_hit_iff file_path st :
  exists r,
    check_cache sha256_hexdigest w file_path st = (Ok r, st) /\
    forall vs,
      r = Some vs <->
      (exists content,
         fs w file_path = Some (Readable content) /\
         sha256_hexdigest content <> "") /\
      (exists t, cache st !! file_path = Some (t, vs) /\
                 (clock st - t < CACHE_TTL)%Q).
Proof.
  unfold check_cache, get_file_hash.
  destruct (fs w file_path) as [[content|]|] eqn:Hfs.
  2,3: exists None; split; [reflexivity|]; intros vs; split;
       [discriminate|intros [(c & [=] & _) _]].
  cbn [truthy].
  destruct (String.eqb_spec (sha256_hexdigest content) "") as [He|Hne]; cbn [negb].
  { exists None. split; [reflexivity|]. intros vs. split; [discriminate|].
    intros [(c & [= <-] & Hc) _]. contradiction. }
  rewrite M_bind_unfold. unfold cache_lookup.
  destruct (cache st !! file_path) as [[t cached]|] eqn:Hc.
  2:{ exists None. split; [reflexivity|]. intros vs. split; [discriminate|].
      intros [_ (t & [=] & _)]. }
  rewrite M_bind_unfold. unfold time_time.
  destruct (Qltb (clock st - t) CACHE_TTL) eqn:Ht.
  - exists (Some cached). split; [reflexivity|]. intros vs. split.
    + intros [= <-]. split; [eauto|]. exists t. split; [reflexivity|].
      apply Qltb_true, Ht.
    + intros [_ (t' & [= <- <-] & _)]. reflexivity.
  - exists None. split; [reflexivity|]. intros vs. split; [discriminate|].
    intros [_ (t' & [= <- <-] & Hlt)]. apply Qltb_true in Hlt. congruence.
Qed.

(** X2.  Expiry.  For an existing file of a known language whose cache entry
    is [CACHE_TTL] seconds old or older, the lookup is a miss and
    [validate_file] runs the tools again, beginning with the first command
    of the language; when it returns, it has run every command of the
    language once, in order, and the entry under the path holds the new
    violations with the time at which they were stored. *)
Theorem expired_entry_is_replaced self file_path language st t vs :
  path_exists w file_path = true ->
  detect_language file_path = Some language ->
  cache st !! file_path = Some (t, vs) ->
  (CACHE_TTL <= clock st - t)%Q ->
  check_cache sha256_hexdigest w file_path st = (Ok None, st) /\
  (exists rest,
     invoked (snd (validate_file json_loads sha256_hexdigest w self file_path st))
     = invoked st ++ List.hd [] (commands_for file_path) :: rest) /\
  (forall passed g st',
     validate_file json_loads sha256_hexdigest w self file_path st
     = (Ok (passed, g), st') ->
     invoked st' = invoked st ++ commands_for file_path /\
     exists vs',
       cache st' !! file_path = Some (clock st', vs') /\
       violations g = violations self ++ vs' /\ passed = is_empty vs').
Proof.
  intros Hex Hlang Hc Hexp.
  assert (Hmiss : check_cache sha256_hexdigest w file_path st = (Ok None, st)).
  { destruct (check_cache_cases sha256_hexdigest w file_path st)
      as [H | (t' & vs' & _ & Hc' & Hlt)]; [exact H|].
    rewrite Hc in Hc'. injection Hc' as <- <-. lra. }
  split; [exact Hmiss|].
  rewrite (validate_file_miss self _ _ _ Hex Hmiss Hlang).
  destruct (run_steps json_loads w (steps_for file_path) file_path st)
    as [r st1] eqn:Hrun.
  pose proof (run_steps_trace _ _ _ _ _ Hrun) as (k & Hk & -> & Hpos & Hall).
  assert (Hne : steps_for file_path <> []).
  { unfold steps_for. rewrite Hlang. unfold python_steps, typescript_steps.
    destruct (String.eqb language "python"); [discriminate|].
    destruct (_ || _); discriminate. }
  destruct (ran_all_fields
              (List.map (fun s => step_cmd s file_path)
                        (List.firstn k (steps_for file_path))) st)
    as (Hcache & Hinv & _ & _).
  split.
  - specialize (Hpos Hne). unfold commands_for.
    destruct (steps_for file_path) as [|s steps]; [contradiction|].
    destruct k as [|k]; [lia|]. cbn [List.firstn List.map List.hd] in *.
    exists (List.map (fun s => step_cmd s file_path) (List.firstn k steps)).
    destruct r; cbn [snd invoked]; exact Hinv.
  - intros passed g st'. destruct r as [vs'|e]; [|discriminate].
    intros [= <- <- <-]. cbn [invoked cache clock].
    assert (Hkk := Hall vs' eq_refl). clear Hall Hpos Hk Hrun. subst k.
    rewrite firstn_all in *.
    split; [exact Hinv|]. exists vs'.
    split; [apply lookup_insert_eq|]. split; reflexivity.
Qed.

(** X4.  The command lines [validate_file] runs are a prefix of the command
    list of the file's language, in the order of that list: ruff check, ruff
    format, mypy for Python; eslint and then tsc otherwise.  When it returns
    normally it has run none of them (missing file, cache hit, unknown
    extension) or all of them.  tsc is on the list exactly when the suffix
    is [.ts] or [.tsx]. *)
Theorem tools_run_in_order self file_path st :
  exists k,
    invoked (snd (validate_file json_loads sha256_hexdigest w self file_path st))
    = invoked st ++ List.firstn k (commands_for file_path) /\
    (forall x,
       fst (validate_file json_loads sha256_hexdigest w self file_path st) = Ok x ->
       k = 0%nat \/ k = List.length (commands_for file_path)) /\
    (In (tsc_cmd file_path) (commands_for file_path) <->
     path_suffix file_path = ".ts" \/ path_suffix file_path = ".tsx").
Proof.
  assert (Htsc : In (tsc_cmd file_path) (commands_for file_path) <->
                 path_suffix file_path = ".ts" \/ path_suffix file_path = ".tsx").
  { unfold commands_for, steps_for, detect_language, typescript_steps, python_steps.
    unfold LANGUAGE_MAP. cbn [List.find fst snd].
    destruct (String.eqb_spec ".py" (path_suffix file_path)) as [<-|_].
    { cbn. split; [intros [H|[H|[H|[]]]]; discriminate|intros [H|H]; discriminate]. }
    destruct (String.eqb_spec ".ts" (path_suffix file_path)) as [<-|Hts].
    { cbn. split; [auto|]. intros _. right. left. reflexivity. }
    destruct (String.eqb_spec ".tsx" (path_suffix file_path)) as [<-|Htsx].
    { cbn. split; [auto|]. intros _. right. left. reflexivity. }
    assert (Hn : ~ (path_suffix file_path = ".ts" \/ path_suffix file_path = ".tsx")).
    { intros [H|H]; congruence. }
    destruct (String.eqb_spec ".js" (path_suffix file_path)) as [<-|_].
    { cbn. split; [intros [H|[]]; discriminate|intros [H|H]; discriminate]. }
    destruct (String.eqb_spec ".jsx" (path_suffix file_path)) as [<-|_].
    { cbn. split; [intros [H|[]]; discriminate|intros [H|H]; discriminate]. }
    cbn. split; [intros []|intros H; exact (Hn H)]. }
  assert (Hnone : exists k : nat,
             invoked st = invoked st ++ List.firstn k (commands_for file_path) /\
             (k = 0%nat \/ k = List.length (commands_for file_path))).
  { exists 0%nat. cbn. rewrite app_nil_r. auto. }
  destruct (path_exists w file_path) eqn:Hex.
  2:{ unfold validate_file. rewrite Hex. cbn [negb].
      destruct Hnone as (k & Hi & Hk). exists k. split; [exact Hi|]. auto. }
  destruct (check_cache_cases sha256_hexdigest w file_path st)
    as [Hmiss | (t & vs & Hhit & _)].
  2:{ unfold validate_file. rewrite Hex. cbn [negb]. rewrite M_bind_unfold, Hhit.
      destruct Hnone as (k & Hi & Hk). exists k. split; [exact Hi|]. auto. }
  destruct (detect_language file_path) as [language|] eqn:Hlang.
  2:{ unfold validate_file. rewrite Hex, Hlang. cbn [negb].
      rewrite M_bind_unfold, Hmiss.
      destruct Hnone as (k & Hi & Hk). exists k. split; [exact Hi|]. auto. }
  rewrite (validate_file_miss self _ _ _ Hex Hmiss Hlang).
  destruct (run_steps json_loads w (steps_for file_path) file_path st)
    as [r st1] eqn:Hrun.
  pose proof (run_steps_trace _ _ _ _ _ Hrun) as (k & Hk & -> & _ & Hall).
  destruct (ran_all_fields
              (List.map (fun s => step_cmd s file_path)
                        (List.firstn k (steps_for file_path))) st)
    as (_ & Hinv & _ & _).
  exists k. unfold commands_for. rewrite firstn_map.
  split; [destruct r; exact Hinv|]. split; [|exact Htsc].
  intros x Hx. right. rewrite length_map.
  destruct r as [vs|e]; [|discriminate]. apply (Hall vs eq_refl).
Qed.

(** X5.  A target that does not exist, or whose extension is not in
    [LANGUAGE_MAP] and for which nothing is cached, passes: [run] returns 0
    on a fresh instance, runs no tool, stores nothing, prints the line of a
    passed run, and writes the warning [File not found] to the diagnostic
    channel only when the file is missing.  Called from the command line in
    a fresh process, [main] ends with exit code 0 in that state. *)
Theorem unknown_or_missing_target_passes file_path st :
  path_exists w file_path = false \/
  (detect_language file_path = None /\ cache st !! file_path = None) ->
  exists st',
    run json_loads sha256_hexdigest w fresh file_path st = (Ok (0%Z, fresh), st') /\
    invoked st' = invoked st /\ cache st' = cache st /\
    out st' = out st ++ [[Txt "✅ Quality gate passed: No violations found"]] /\
    err st' = err st ++ (if path_exists w file_path then []
                         else [[Txt "⚠️  File not found: "; Txt file_path]]) /\
    forall prog rest now,
      st = initial_state now ->
      main json_loads sha256_hexdigest w None (prog :: file_path :: rest) now
      = (0%Z, st').
Proof.
  intros H.
  assert (Hv : exists st1,
    validate_file json_loads sha256_hexdigest w fresh file_path st
    = (Ok (true, fresh), st1) /\
    st1 = {| cache := cache st; clock := clock st; invoked := invoked st;
             out := out st;
             err := err st ++ (if path_exists w file_path then []
                               else [[Txt "⚠️  File not found: "; Txt file_path]]) |}).
  { unfold validate_file. destruct H as [Hex | [Hlang Hc]].
    - rewrite Hex. cbn [negb]. eexists. split; reflexivity.
    - destruct (path_exists w file_path); cbn [negb];
        [|eexists; split; reflexivity].
      rewrite M_bind_unfold.
      destruct (check_cache_cases sha256_hexdigest w file_path st)
        as [Hmiss | (t & vs & _ & Hc' & _)]; [|congruence].
      rewrite Hmiss, Hlang. eexists. split; [reflexivity|].
      rewrite app_nil_r. destruct st; reflexivity. }
  destruct Hv as (st1 & Hv & Hst1).
  assert (Hrun : run json_loads sha256_hexdigest w fresh file_path st
                 = (Ok (0%Z, fresh),
                    {| cache := cache st1; clock := clock st1; invoked := invoked st1;
                       out := out st1 ++ [[Txt "✅ Quality gate passed: No violations found"]];
                       err := err st1 |})).
  { unfold run. rewrite M_bind_unfold, Hv. reflexivity. }
  eexists. split; [exact Hrun|]. subst st1. cbn [invoked cache out err].
  repeat (split; [reflexivity|]).
  intros prog rest now ->. unfold main, main_body, argv_path.
  rewrite M_bind_unfold. unfold mret at 1, M_ret.
  unfold fresh in Hrun. rewrite M_bind_unfold, Hrun. reflexivity.
Qed.

(** X3.  Whatever [validate_file] does for one path, the cache entry of
    every other path is what it was. *)
Theorem other_paths_keep_their_entry self file_path other st :
  other <> file_path ->
  cache (snd (validate_file json_loads sha256_hexdigest w self file_path st)) !! other
  = cache st !! other.
Proof.
  intros Hne.
  destruct (path_exists w file_path) eqn:Hex.
  2:{ unfold validate_file. rewrite Hex. reflexivity. }
  destruct (check_cache_cases sha256_hexdigest w file_path st)
    as [Hmiss | (t & vs & Hhit & _)].
  2:{ unfold validate_file. rewrite Hex. cbn [negb].
      rewrite M_bind_unfold, Hhit. reflexivity. }
  destruct (detect_language file_path) as [language|] eqn:Hlang.
  2:{ unfold validate_file. rewrite Hex, Hlang. cbn [negb].
      rewrite M_bind_unfold, Hmiss. reflexivity. }
  rewrite (validate_file_miss self _ _ _ Hex Hmiss Hlang).
  destruct (run_steps json_loads w (steps_for file_path) file_path st)
    as [[vs|e] st1] eqn:Hrun; apply run_steps_cache in Hrun.
  - cbn [snd cache]. rewrite lookup_insert_ne by congruence. rewrite Hrun. reflexivity.
  - cbn [snd]. rewrite Hrun. reflexivity.
Qed.






Lemma step_raises s file_path st e st' :
  raises_exceptions_only w ->
  step_run json_loads w s file_path st = (Raise e, st') -> is_Exception e = true.
Proof.
  intros Hw.
  destruct s; cbn [step_run];
    unfold ruff_check, ruff_format, mypy_check, eslint_check, tsc_check,
      try_except, run_tool, lift; rewrite M_bind_unfold;
    (destruct (subprocess_run w _) as [result|e0] eqn:Hrun;
     [|apply Hw in Hrun; destruct e0; try discriminate Hrun;
       cbn; intros [= <- _]; reflexivity]).
  - destruct (parse_ruff_output _ _ _) as [vs'|e1] eqn:Hp; [discriminate|].
    apply parse_ruff_output_raises in Hp.
    destruct e1; try discriminate Hp; cbn; intros [= <- _]; reflexivity.
  - destruct (negb _); discriminate.
  - destruct (_ && _); discriminate.
  - destruct (parse_eslint_output _ _ _) as [vs'|e1] eqn:Hp; [discriminate|].
    apply parse_eslint_output_raises in Hp.
    destruct e1; try discriminate Hp; cbn; intros [= <- _]; reflexivity.
  - destruct (_ && _); discriminate.
Qed.

Lemma run_steps_raises_exception steps file_path st e st' :
  raises_exceptions_only w ->
  run_steps json_loads w steps file_path st = (Raise e, st') -> is_Exception e = true.
Proof.
  intros Hw. revert st e st'.
  induction steps as [|s steps IH]; intros st e st'; cbn [run_steps].
  - discriminate.
  - rewrite M_bind_unfold.
    destruct (step_run _ _ s file_path st) as [[vs|e1] st1] eqn:Hs.
    + rewrite M_bind_unfold.
      destruct (run_steps _ _ steps file_path st1) as [[more|e2] st2] eqn:Hr;
        [discriminate|]. intros [= <- _]. eapply IH, Hr.
    + intros [= <- _]. eapply step_raises; eauto.
Qed.

Lemma validate_file_raises_exception self file_path st e st' :
  raises_exceptions_only w ->
  validate_file json_loads sha256_hexdigest w self file_path st = (Raise e, st') ->
  is_Exception e = true.
Proof.
  intros Hw.
  destruct (path_exists w file_path) eqn:Hex.
  2:{ unfold validate_file. rewrite Hex. discriminate. }
  destruct (check_cache_cases sha256_hexdigest w file_path st)
    as [Hmiss | (t & vs & Hhit & _)].
  2:{ unfold validate_file. rewrite Hex. cbn [negb].
      rewrite M_bind_unfold, Hhit. discriminate. }
  destruct (detect_language file_path) as [language|] eqn:Hlang.
  2:{ unfold validate_file. rewrite Hex, Hlang. cbn [negb].
      rewrite M_bind_unfold, Hmiss. discriminate. }
  rewrite (validate_file_miss self _ _ _ Hex Hmiss Hlang).
  destruct (run_steps json_loads w (steps_for file_path) file_path st)
    as [[vs|e1] st1] eqn:Hrun; [discriminate|].
  intros [= <- _]. eapply run_steps_raises_exception; eauto.
Qed.

Lemma run_raises_exception self file_path st e st' :
  raises_exceptions_only w ->
  run json_loads sha256_hexdigest w self file_path st = (Raise e, st') ->
  is_Exception e = true.
Proof.
  intros Hw. unfold run. rewrite M_bind_unfold.
  destruct (validate_file _ _ _ self file_path st) as [[[passed g]|e1] st1] eqn:Hv.
  - destruct (format_output g) as [o j]. rewrite M_bind_unfold. unfold print at 1.
    rewrite M_bind_unfold. destruct j; discriminate.
  - intros [= <- _]. eapply validate_file_raises_exception; eauto.
Qed.

(** The first part of [main]: the target is named without touching the
    state, or the process is on its way out with code 0 or 1. *)
Lemma request_outcome stdin argv st r st' :
  (match stdin with
   | Some input =>
       try_except
         (data ← lift (match json_loads input with
                       | Some data => Ok data
                       | None => Raise JSONDecodeError
                       end);
          tool_input ← lift (dict_get data "tool_input" (JObj []));
          file_path_str ← lift (dict_get tool_input "file_path" JNull);
          file_path_str ←
            (if negb (truthy file_path_str)
             then tool_input ← lift (dict_get data "tool_input" (JObj []));
                  lift (dict_get tool_input "file_path" JNull)
             else mret file_path_str);
          if truthy file_path_str
          then lift (py_Path file_path_str)
          else _ ← eprint [Txt "⚠️  No file_path in stdin data"];
               sys_exit 0)
         (fun e =>
            match e with
            | JSONDecodeError => Some (argv_path argv)
            | _ => None
            end)
   | None => argv_path argv
   end) st = (r, st') ->
  match r with
  | Ok _ => st' = st
  | Raise e => is_Exception e = true \/ e = SystemExit 0 \/ e = SystemExit 1
  end.
Proof.
  assert (Hargv : forall r st', argv_path argv st = (r, st') ->
            match r with
            | Ok _ => st' = st
            | Raise e => is_Exception e = true \/ e = SystemExit 0 \/ e = SystemExit 1
            end).
  { intros r0 st0. destruct argv as [|a [|b argv']]; cbn; intros [= <- <-]; auto. }
  destruct stdin as [input|]; [|apply Hargv].
  unfold try_except. rewrite M_bind_unfold. unfold lift at 1.
  destruct (json_loads input) as [data|]; [|apply Hargv].
  rewrite M_bind_unfold. unfold lift at 1.
  destruct (dict_get data "tool_input" (JObj [])) as [tool_input|e] eqn:Ht.
  2:{ apply dict_get_AttributeError in Ht as ->. intros [= <- <-]. auto. }
  rewrite M_bind_unfold. unfold lift at 1.
  destruct (dict_get tool_input "file_path" JNull) as [v|e] eqn:Hv.
  2:{ apply dict_get_AttributeError in Hv as ->. intros [= <- <-]. auto. }
  rewrite M_bind_unfold.
  destruct (truthy v) eqn:Htr; cbn [negb].
  - unfold mret at 1, M_ret. rewrite Htr. unfold lift.
    destruct v; cbn; intros [= <- <-]; auto.
  - rewrite M_bind_unfold. unfold lift at 1 2. rewrite Hv, Htr.
    cbn. intros [= <- <-]. auto.
Qed.

(** X13.  When starting a tool fails only with exceptions, the process ends
    with exit code 0, 1 or 2, and with 2 only when [run] returned 2 for the
    target on a fresh instance, with a violation sequence that is not empty,
    in the state in which the process ends. *)
Theorem main_blocks_only_on_violations stdin argv now :
  raises_exceptions_only w ->
  (fst (main json_loads sha256_hexdigest w stdin argv now) = 0%Z \/
   fst (main json_loads sha256_hexdigest w stdin argv now) = 1%Z \/
   fst (main json_loads sha256_hexdigest w stdin argv now) = 2%Z) /\
  (fst (main json_loads sha256_hexdigest w stdin argv now) = 2%Z ->
   exists file_path g,
     run json_loads sha256_hexdigest w fresh file_path (initial_state now)
     = (Ok (2%Z, g), snd (main json_loads sha256_hexdigest w stdin argv now)) /\
     violations g <> []).
Proof.
  intros Hw. unfold main, main_body. rewrite M_bind_unfold.
  match goal with
  | |- context [match ?req (initial_state now) with _ => _ end] =>
      destruct (req (initial_state now)) as [[file_path|e] st1] eqn:Hreq
  end; apply request_outcome in Hreq.
  - subst st1. rewrite M_bind_unfold.
    destruct (run _ _ _ _ file_path (initial_state now))
      as [[[code g]|e] st2] eqn:Hrun.
    + cbn. destruct (run_Ok_verdict _ _ _ _ _ _ _ _ _ Hrun) as (vs & Hg & Hcode).
      cbn in Hg. subst vs.
      destruct Hcode as [(Hvs & -> & _) | (Hvs & -> & _)].
      * split; [auto|]. discriminate.
      * split; [auto|]. intros _. exists file_path, g. split; [exact Hrun|exact Hvs].
    + apply run_raises_exception in Hrun; [|exact Hw].
      destruct e; try discriminate Hrun; cbn; (split; [auto|discriminate]).
  - destruct Hreq as [He | [-> | ->]].
    + destruct e; try discriminate He; cbn; (split; [auto|discriminate]).
    + cbn. split; [auto|discriminate].
    + cbn. split; [auto|discriminate].
Qed.

(** X12.  A finding of ruff whose [code] is present but not a string (ruff
    writes [null] for a syntax error) makes the run fail instead of
    reporting: for an existing Python file named on the command line, [main]
    ends with exit code 1 after the lint run alone; the format run and mypy
    are not started, nothing is printed on standard output, nothing is
    cached, and the diagnostic channel gets the error line for
    [AttributeError] and the traceback. *)
Theorem malformed_finding_exits_1 prog file_path rest now result items fields c :
  path_exists w file_path = true ->
  detect_language file_path = Some "python" ->
  subprocess_run w (ruff_check_cmd file_path) = Ok result ->
  proc_stdout result <> "" ->
  json_loads (proc_stdout result) = Some (JArr items) ->
  In (JObj fields) items ->
  assoc "code" fields = Some c ->
  (forall code, c <> JStr code) ->
  main json_loads sha256_hexdigest w None (prog :: file_path :: rest) now
  = (1%Z,
     {| cache := ∅;
        clock := (now + duration w (ruff_check_cmd file_path))%Q;
        invoked := [ruff_check_cmd file_path];
        out := [];
        err := [ [Txt "❌ Quality gate error: "; FExn AttributeError];
                 [FTraceback AttributeError] ] |}).
Proof.
  intros Hex Hlang Hrun Hout Hdoc Hin Hcode Hc.
  assert (Hitem : exists e0, ruff_violation file_path (JObj fields) = Raise e0).
  { destruct (ruff_violation file_path (JObj fields)) as [v|e0] eqn:Hv; [|eauto].
    exfalso. unfold ruff_violation in Hv. repeat bind_inv Hv.
    cbn in E4, E6. rewrite Hcode in E4, E6. injection E6 as <-.
    destruct c; try discriminate E7. eapply Hc. reflexivity. }
  destruct Hitem as (e0 & Hitem).
  assert (Hparse : parse_ruff_output json_loads file_path (proc_stdout result)
                   = Raise AttributeError).
  { unfold parse_ruff_output. rewrite (str_truthy _ Hout), Hdoc. cbn.
    eapply rmap_raises_with; [|exact Hin|exact Hitem].
    intros y e'. apply ruff_violation_AttributeError. }
  assert (Hmiss : check_cache sha256_hexdigest w file_path (initial_state now)
                  = (Ok None, initial_state now)).
  { destruct (check_cache_cases sha256_hexdigest w file_path (initial_state now))
      as [H | (t & vs & _ & Hc' & _)]; [exact H|].
    cbn in Hc'. rewrite lookup_empty in Hc'. discriminate. }
  unfold main, main_body, argv_path. rewrite M_bind_unfold.
  unfold mret at 1, M_ret. rewrite M_bind_unfold. unfold run.
  rewrite M_bind_unfold, (validate_file_miss _ _ _ _ Hex Hmiss Hlang).
  unfold steps_for. rewrite Hlang. cbn [String.eqb Ascii.eqb Bool.eqb].
  unfold python_steps. cbn [run_steps step_run]. rewrite M_bind_unfold.
  unfold ruff_check, try_except, run_tool. rewrite M_bind_unfold, Hrun.
  unfold lift. rewrite Hparse. reflexivity.
Qed.

(** X14.  A request on the input channel that decodes and names a file (a
    non-empty string under [tool_input.file_path]) decides the target: the
    command line is not looked at, and the process does exactly what it does
    when the same file is named on the command line of a terminal. *)
Theorem request_names_the_target s data tool_input file_path argv prog rest now :
  json_loads s = Some data ->
  dict_get data "tool_input" (JObj []) = Ok tool_input ->
  dict_get tool_input "file_path" JNull = Ok (JStr file_path) ->
  file_path <> "" ->
  main json_loads sha256_hexdigest w (Some s) argv now
  = main json_loads sha256_hexdigest w None (prog :: file_path :: rest) now.
Proof.
  intros Hs Ht Hv Hne. pose proof (str_truthy _ Hne) as Htrue.
  unfold main, main_body. rewrite !M_bind_unfold.
  unfold try_except at 1. rewrite M_bind_unfold. unfold lift at 1. rewrite Hs.
  rewrite M_bind_unfold. unfold lift at 1. rewrite Ht.
  rewrite M_bind_unfold. unfold lift at 1. rewrite Hv.
  rewrite M_bind_unfold, Htrue. cbn [negb]. unfold mret at 1, M_ret.
  rewrite Htrue. unfold lift at 1. cbn [py_Path argv_path].
  unfold mret at 1, M_ret. reflexivity.
Qed.

End Gate.

(** ** Concrete runs *)

Lemma expired_entry_is_replaced_witness :
  check_cache demo_hexdigest world_after "app.py" (later 1800 first_state)
  = (Ok None, later 1800 first_state).
Proof.
  apply (expired_entry_is_replaced gate_loads demo_hexdigest world_after fresh
           "app.py" "python" (later 1800 first_state) 1006 stale_violations).
  - reflexivity.
  - reflexivity.
  - vm_compute. reflexivity.
  - vm_compute. discriminate.
Defined.

Lemma unknown_or_missing_target_passes_witness :
  fst (main gate_loads demo_hexdigest world_before None
            ["quality_gate.py"; "README.md"] 0) = 0%Z.
Proof.
  destruct (unknown_or_missing_target_passes gate_loads demo_hexdigest world_before
              "README.md" (initial_state 0) (or_introl eq_refl))
    as (st' & _ & _ & _ & _ & _ & Hmain).
  rewrite (Hmain "quality_gate.py" [] 0%Q eq_refl). reflexivity.
Defined.

Lemma other_paths_keep_their_entry_witness :
  cache (snd (validate_file gate_loads demo_hexdigest world_before fresh "app.py"
                            (initial_state 1000))) !! "lib.py" = None.
Proof.
  rewrite (other_paths_keep_their_entry gate_loads demo_hexdigest world_before
             fresh "app.py" "lib.py" (initial_state 1000)).
  - reflexivity.
  - discriminate.
Defined.

Lemma world_before_raises_exceptions_only : raises_exceptions_only world_before.
Proof.
  intros cmd e. unfold world_before. cbn [subprocess_run].
  destruct (is_cmd cmd "ruff" "check"); [discriminate|].
  destruct (String.eqb (List.hd "" cmd) "mypy"); [|discriminate].
  intros [= <-]. reflexivity.
Qed.

Lemma main_blocks_only_on_violations_witness :
  exists file_path g,
    run gate_loads demo_hexdigest world_before fresh file_path (initial_state 1000)
    = (Ok (2%Z, g),
       snd (main gate_loads demo_hexdigest world_before None
                 ["quality_gate.py"; "app.py"] 1000)) /\
    violations g <> [].
Proof.
  apply (proj2 (main_blocks_only_on_violations gate_loads demo_hexdigest world_before
                  None ["quality_gate.py"; "app.py"] 1000
                  world_before_raises_exceptions_only)).
  vm_compute. reflexivity.
Defined.

Lemma malformed_finding_exits_1_witness :
  fst (main syntax_error_loads demo_hexdigest world_syntax_error None
            ["quality_gate.py"; "bad.py"] 0) = 1%Z.
Proof.
  rewrite (malformed_finding_exits_1 syntax_error_loads demo_hexdigest
             world_syntax_error "quality_gate.py" "bad.py" [] 0
             (completed 1 syntax_error_text) [syntax_error]
             [ ("code", JNull); ("message", JStr "SyntaxError: Expected an expression");
               ("location", JObj [("row", JInt 1); ("column", JInt 5)]);
               ("filename", JStr "bad.py") ] JNull).
  - reflexivity.
  - reflexivity.
  - reflexivity.
  - reflexivity.
  - discriminate.
  - reflexivity.
  - left. reflexivity.
  - reflexivity.
  - discriminate.
Defined.

Lemma request_names_the_target_witness :
  main request_loads demo_hexdigest world_before (Some request_text)
       ["quality_gate.py"; "other.py"] 1000
  = main request_loads demo_hexdigest world_before None
         ["quality_gate.py"; "app.py"] 1000.
Proof.
  apply (request_names_the_target request_loads demo_hexdigest world_before
           request_text
           (JObj [("tool_input", JObj [("file_path", JStr "app.py")])])
           (JObj [("file_path", JStr "app.py")]) "app.py").
  - reflexivity.
  - reflexivity.
  - reflexivity.
  - discriminate.
Defined.

End GateRunFacts.

(** ** The parsers of plain text *)
Module ParserFacts.
Import QualityGate.

Lemma strip_after_space s : trimmed s -> str_strip (String " " s) = s.
Proof.
  intros [Hl Hr]. unfold str_strip.
  change (lstrip (String " " s)) with (lstrip s). rewrite Hl. exact Hr.
Qed.

(** The part of a mypy line after the third colon. *)
Lemma mypy_message_part msg code :
  trimmed msg -> contains "error:" msg = false -> lacks "[" code = true ->
  let message_part := str_strip (" error: " +:+ msg +:+ "  [" +:+ code +:+ "]") in
  exists i j,
    rfind "[" message_part = Some i /\
    rfind "]" message_part = Some j /\
    slice (i + 1) j message_part = code /\
    str_strip (str_replace "error:" "" (str_strip (str_take i message_part))) = msg.
Proof.
  intros Hmsg Herr Hcode message_part.
  set (pre := "error: " +:+ msg +:+ "  ").
  assert (Hmp : message_part = pre +:+ String "[" (code +:+ "]")).
  { unfold message_part, str_strip.
    change (lstrip (" error: " +:+ msg +:+ "  [" +:+ code +:+ "]"))
      with ("error: " +:+ msg +:+ "  [" +:+ code +:+ "]").
    replace ("error: " +:+ msg +:+ "  [" +:+ code +:+ "]")
      with (("error: " +:+ msg +:+ "  [" +:+ code) +:+ "]")
      by (rewrite !string_app_assoc; reflexivity).
    rewrite rstrip_app by (reflexivity || discriminate).
    unfold pre. rewrite !string_app_assoc. reflexivity. }
  assert (Hmp' : message_part = (pre +:+ "[" +:+ code) +:+ String "]" "").
  { rewrite Hmp. unfold pre. rewrite !string_app_assoc. reflexivity. }
  exists (String.length pre), (String.length (pre +:+ "[" +:+ code)).
  split; [|split; [|split]].
  - rewrite Hmp. apply rfind_last. unfold lacks in *. rewrite all_chars_app, Hcode.
    reflexivity.
  - rewrite Hmp'. apply rfind_last. reflexivity.
  - unfold slice. rewrite Hmp, substring_skip.
    rewrite !string_app_length. change (String.length "[") with 1%nat.
    replace (String.length pre + (1 + String.length code) - (String.length pre + 1))%nat
      with (String.length code) by lia.
    cbn [String.substring]. apply substring_take.
  - unfold str_take. rewrite Hmp, substring_take.
    assert (Hpre : str_strip pre = rstrip ("error: " +:+ msg)).
    { unfold str_strip, pre.
      change (lstrip ("error: " +:+ msg +:+ "  ")) with ("error: " +:+ msg +:+ "  ").
      rewrite <- string_app_assoc. apply rstrip_app_spaces. reflexivity. }
    rewrite Hpre. destruct msg as [|x msg'] eqn:Em; [reflexivity|]. rewrite <- Em in *.
    rewrite rstrip_app by (apply Hmsg || (rewrite Em; discriminate)).
    change (str_replace "error:" "" ("error: " +:+ msg))
      with (String " " (replace_from "error:" "" 0 msg)).
    rewrite (replace_absent _ _ _ Herr). apply strip_after_space, Hmsg.
Qed.

(** X8.  The mypy parser reads a well-formed diagnostic back.  For the line
    [path:l:c: error: msg  [code]], where [path] has no colon, [l] and [c]
    are decimal numerals of at most 4300 digits (the longest [int] converts),
    [msg] has no white space at its ends and does not contain [error:], and
    [code] has no opening bracket, the parser yields
    exactly one violation: line [l], column [c], rule [code], message [msg],
    severity [ERROR], and as file the path that was checked, not the path
    the line names. *)
Theorem mypy_line_is_read_back file_path path l c msg code :
  lacks ":" path = true ->
  is_numeral l = true -> convertible l ->
  is_numeral c = true -> convertible c ->
  trimmed msg -> contains "error:" msg = false ->
  lacks "[" code = true ->
  mypy_line file_path
    (path +:+ ":" +:+ l +:+ ":" +:+ c +:+ ": error: " +:+ msg +:+ "  [" +:+ code +:+ "]")
  = [ {| file := JStr file_path;
         line := JInt (decimal_value 0 l);
         column := JInt (decimal_value 0 c);
         rule := JStr code;
         message := JStr msg;
         severity := "ERROR";
         tool := "mypy" |} ].
Proof.
  intros Hpath Hl Hll Hc Hcl Hmsg Herr Hcode.
  unfold mypy_line.
  rewrite contains_middle.
  replace (path +:+ ":" +:+ l +:+ ":" +:+ c +:+ ": error: " +:+ msg +:+ "  [" +:+ code +:+ "]")
    with ((path +:+ ":" +:+ l +:+ ":" +:+ c +:+ ": ") +:+ "error:"
          +:+ (" " +:+ msg +:+ "  [" +:+ code +:+ "]")) at 1
    by (rewrite !string_app_assoc; reflexivity).
  rewrite contains_middle. cbn [andb].
  rewrite (split_max_at ":" path "" _ 2 Hpath), string_app_nil.
  rewrite (split_max_at ":" l "" _ 1 (numeral_lacks ":" l eq_refl Hl)), string_app_nil.
  rewrite (split_max_at ":" c " error: " _ 0 (numeral_lacks ":" c eq_refl Hc)).
  rewrite split_max_0.
  rewrite (py_int_numeral l Hl Hll), (py_int_numeral c Hc Hcl), (numeral_trimmed c Hc),
    (py_isdigit_numeral c Hc).
  destruct (mypy_message_part msg code Hmsg Herr Hcode) as (i & j & Hi & Hj & Hs & Hm).
  cbv zeta in Hi, Hj, Hs, Hm. rewrite Hi, Hj, Hs, Hm. reflexivity.
Qed.

Lemma strip_trimmed s : trimmed s -> str_strip s = s.
Proof. intros [Hl Hr]. unfold str_strip. rewrite Hl. exact Hr. Qed.

Lemma prefix_empty s : String.prefix "" s = true.
Proof. destruct s; reflexivity. Qed.

(** The part of a tsc line after the closing parenthesis. *)
Lemma tsc_message_part num msg :
  is_numeral num = true -> trimmed msg ->
  let msg_part := ": error TS" +:+ num +:+ ": " +:+ msg in
  String.index 0 "TS" msg_part = Some 8%nat /\
  String.index 8 ":" msg_part = Some (8 + String.length ("TS" +:+ num))%nat /\
  slice 8 (8 + String.length ("TS" +:+ num)) msg_part = "TS" +:+ num /\
  str_strip (slice_from (8 + String.length ("TS" +:+ num) + 1) msg_part) = msg.
Proof.
  intros Hnum Hmsg msg_part.
  assert (H1 : msg_part = ": error " +:+ ("TS" +:+ num) +:+ String ":" (" " +:+ msg)).
  { unfold msg_part. rewrite !string_app_assoc. reflexivity. }
  assert (H2 : msg_part = (": error " +:+ ("TS" +:+ num) +:+ ":") +:+ String " " msg).
  { unfold msg_part. rewrite !string_app_assoc. reflexivity. }
  assert (Hlen : String.length (": error " +:+ ("TS" +:+ num) +:+ ":")
                 = (8 + String.length ("TS" +:+ num) + 1)%nat).
  { rewrite !string_app_length. reflexivity. }
  split; [|split; [|split]].
  - unfold msg_part. rewrite !string_app_cons, string_app_nil.
    cbn [String.index String.prefix].
    repeat match goal with
           | |- context [ascii_dec ?a ?b] =>
               let r := eval vm_compute in (if ascii_dec a b then true else false) in
               match r with
               | true => destruct (ascii_dec a b) as [_|Hn]; [|exfalso; apply Hn; reflexivity]
               | false => destruct (ascii_dec a b) as [Hn|_]; [discriminate Hn|]
               end
           end.
    rewrite prefix_empty. reflexivity.
  - rewrite H1, (index_skip 8 ":" ": error " _ eq_refl).
    rewrite index_first; [reflexivity|].
    pose proof (numeral_lacks ":" num eq_refl Hnum) as Hn.
    unfold lacks in *. rewrite all_chars_app, Hn. reflexivity.
  - unfold slice. rewrite H1.
    replace (8 + String.length ("TS" +:+ num) - 8)%nat
      with (String.length ("TS" +:+ num)) by lia.
    change 8%nat with (String.length ": error " + 0)%nat at 1.
    rewrite substring_skip. apply substring_take.
  - unfold slice_from. rewrite H2, <- Hlen, substring_rest.
    apply strip_after_space, Hmsg.
Qed.

(** X9.  The tsc parser reads a well-formed diagnostic back.  For the line
    [path(l,c): error TSnum: msg], where [path] has no opening parenthesis
    and no white space at its ends, [l], [c] and [num] are decimal numerals,
    [l] and [c] of at most 4300 digits (the longest [int] converts), and
    [msg] has no white space at its ends, the parser yields exactly one
    violation: file [path], line [l], column [c], rule [TSnum], message
    [msg], severity [ERROR]. *)
Theorem tsc_line_is_read_back path l c num msg :
  lacks "(" path = true -> trimmed path ->
  is_numeral l = true -> convertible l ->
  is_numeral c = true -> convertible c ->
  is_numeral num = true ->
  trimmed msg ->
  tsc_line (path +:+ "(" +:+ l +:+ "," +:+ c +:+ "): error TS" +:+ num +:+ ": " +:+ msg)
  = [ {| file := JStr path;
         line := JInt (decimal_value 0 l);
         column := JInt (decimal_value 0 c);
         rule := JStr ("TS" +:+ num);
         message := JStr msg;
         severity := "ERROR";
         tool := "tsc" |} ].
Proof.
  intros Hpath Htrim Hl Hll Hc Hcl Hnum Hmsg.
  set (msg_part := ": error TS" +:+ num +:+ ": " +:+ msg).
  set (line := path +:+ "(" +:+ l +:+ "," +:+ c +:+ "): error TS" +:+ num +:+ ": " +:+ msg).
  assert (L1 : line = path +:+ "(" +:+ (l +:+ "," +:+ c) +:+ String ")" "" +:+ msg_part).
  { unfold line, msg_part. rewrite ?string_app_assoc. reflexivity. }
  assert (L2 : line = (path +:+ "(" +:+ l +:+ "," +:+ c) +:+ ")" +:+ msg_part).
  { unfold line, msg_part. rewrite ?string_app_assoc. reflexivity. }
  assert (L3 : line = (path +:+ "(" +:+ l +:+ "," +:+ c +:+ "): ") +:+ "error TS"
                      +:+ (num +:+ ": " +:+ msg)).
  { unfold line. rewrite ?string_app_assoc. reflexivity. }
  assert (M1 : msg_part = ": " +:+ "error TS" +:+ (num +:+ ": " +:+ msg)).
  { unfold msg_part. rewrite ?string_app_assoc. reflexivity. }
  assert (Hpos : lacks ")" (l +:+ "," +:+ c) = true).
  { pose proof (numeral_lacks ")" l eq_refl Hl) as H1.
    pose proof (numeral_lacks ")" c eq_refl Hc) as H2.
    unfold lacks in *. rewrite !all_chars_app, H1, H2. reflexivity. }
  assert (C1 : contains "(" line = true) by (rewrite L1; apply contains_middle).
  assert (C2 : contains ")" line = true) by (rewrite L2; apply contains_middle).
  assert (C3 : contains "error TS" line = true) by (rewrite L3; apply contains_middle).
  assert (C4 : contains "error TS" msg_part = true) by (rewrite M1; apply contains_middle).
  unfold tsc_line. rewrite C1, C2, C3. cbn [andb].
  rewrite L1, (split_max_at "(" path "" _ 0 Hpath), string_app_nil, split_max_0.
  rewrite (split_max_at ")" (l +:+ "," +:+ c) "" _ 0 Hpos), string_app_nil, split_max_0.
  rewrite (split_on_at "," l "" c (numeral_lacks "," l eq_refl Hl)), string_app_nil.
  rewrite (split_on_whole "," c (numeral_lacks "," c eq_refl Hc)).
  rewrite C4.
  destruct (tsc_message_part num msg Hnum Hmsg) as (Hts & Hcolon & Hcode & Hm).
  cbv zeta in Hts, Hcolon, Hcode, Hm. fold msg_part in Hts, Hcolon, Hcode, Hm.
  rewrite Hts, Hcolon, Hcode, Hm.
  rewrite (py_int_numeral l Hl Hll), (py_int_numeral c Hc Hcl), (strip_trimmed path Htrim).
  reflexivity.
Qed.

Lemma mypy_line_is_read_back_witness :
  mypy_line "src/app.py"
    "app.py:3:5: error: Incompatible types in assignment [str]  [assignment]"
  = [ {| file := JStr "src/app.py"; line := JInt 3; column := JInt 5;
         rule := JStr "assignment";
         message := JStr "Incompatible types in assignment [str]";
         severity := "ERROR"; tool := "mypy" |} ].
Proof.
  apply (mypy_line_is_read_back "src/app.py" "app.py" "3" "5"
           "Incompatible types in assignment [str]" "assignment").
  - reflexivity.
  - reflexivity.
  - unfold convertible, max_str_digits. simpl. lia.
  - reflexivity.
  - unfold convertible, max_str_digits. simpl. lia.
  - split; reflexivity.
  - reflexivity.
  - reflexivity.
Defined.

Lemma tsc_line_is_read_back_witness :
  tsc_line "src/a.ts(10,5): error TS2322: Type 'string' is not assignable (strict)."
  = [ {| file := JStr "src/a.ts"; line := JInt 10; column := JInt 5;
         rule := JStr "TS2322";
         message := JStr "Type 'string' is not assignable (strict).";
         severity := "ERROR"; tool := "tsc" |} ].
Proof.
  apply (tsc_line_is_read_back "src/a.ts" "10" "5" "2322"
           "Type 'string' is not assignable (strict).").
  - reflexivity.
  - split; reflexivity.
  - reflexivity.
  - unfold convertible, max_str_digits. simpl. lia.
  - reflexivity.
  - unfold convertible, max_str_digits. simpl. lia.
  - reflexivity.
  - split; reflexivity.
Defined.

End ParserFacts.

(** ** The summary and the parser of ESLint's output *)
Module SummaryFacts.
Import QualityGate QualityGateSpec QualityGateTerms QualityGateFacts.

Lemma of_tool_snoc vs v t :
  of_tool (vs ++ [v]) t = of_tool vs t ++ (if String.eqb t (tool v) then [v] else []).
Proof. unfold of_tool. rewrite List.filter_app. reflexivity. Qed.

Lemma of_tool_absent vs t :
  (forall v, In v vs -> tool v <> t) -> of_tool vs t = [].
Proof.
  intros H. unfold of_tool. induction vs as [|v vs IH]; [reflexivity|]. cbn.
  destruct (String.eqb_spec t (tool v)) as [E|_].
  - exfalso. apply (H v); [left; reflexivity|congruence].
  - apply IH. intros u Hu. apply H. right. exact Hu.
Qed.

(** Appending to the group of a tool that is listed. *)
Lemma group_append_present tools pre v :
  List.NoDup tools -> In (tool v) tools ->
  group_append (List.map (fun t => (t, of_tool pre t)) tools) v
  = List.map (fun t => (t, of_tool (pre ++ [v]) t)) tools.
Proof.
  induction tools as [|t tools IH]; intros Hnd Hin; [destruct Hin|].
  apply List.NoDup_cons_iff in Hnd as [Ht Hnd]. cbn [List.map group_append].
  rewrite (of_tool_snoc pre v t).
  destruct (String.eqb_spec t (tool v)) as [E|Hne].
  - f_equal. apply List.map_ext_in. intros t' Ht'. rewrite of_tool_snoc.
    destruct (String.eqb_spec t' (tool v)) as [E'|_]; [|rewrite app_nil_r; reflexivity].
    exfalso. apply Ht. congruence.
  - rewrite app_nil_r. f_equal. apply IH; [exact Hnd|].
    destruct Hin as [E|Hin]; [congruence|exact Hin].
Qed.

Lemma group_append_absent tools pre v :
  ~ In (tool v) tools ->
  (forall u, In u pre -> In (tool u) tools) ->
  group_append (List.map (fun t => (t, of_tool pre t)) tools) v
  = List.map (fun t => (t, of_tool (pre ++ [v]) t)) (tools ++ [tool v]).
Proof.
  intros Hnew Hcov.
  assert (Hlast : of_tool (pre ++ [v]) (tool v) = [v]).
  { rewrite of_tool_snoc, String.eqb_refl, of_tool_absent; [reflexivity|].
    intros u Hu E. apply Hnew. rewrite <- E. apply Hcov, Hu. }
  clear Hcov. induction tools as [|t tools IH]; cbn [List.map group_append app].
  - rewrite Hlast. reflexivity.
  - destruct (String.eqb_spec t (tool v)) as [E|Hne].
    + exfalso. apply Hnew. left. exact E.
    + rewrite of_tool_snoc.
      destruct (String.eqb_spec t (tool v)) as [E|_]; [contradiction|].
      rewrite app_nil_r. f_equal. apply IH. intros Hin. apply Hnew. right. exact Hin.
Qed.

Lemma by_tool_groups vs :
  exists tools,
    List.fold_left group_append vs []
    = List.map (fun t => (t, of_tool vs t)) tools /\
    List.NoDup tools /\
    (forall t, In t tools <-> exists v, In v vs /\ tool v = t).
Proof.
  induction vs as [|v vs IH] using rev_ind.
  - exists []. split; [reflexivity|]. split; [constructor|].
    intros t. split; [intros []|intros (v & [] & _)].
  - destruct IH as (tools & Hfold & Hnd & Hcov).
    rewrite fold_left_app. cbn [List.fold_left]. rewrite Hfold.
    destruct (in_dec string_dec (tool v) tools) as [Hin|Hnew].
    + exists tools. split; [apply group_append_present; assumption|].
      split; [exact Hnd|]. intros t. rewrite Hcov. split.
      * intros (u & Hu & E). exists u. split; [apply in_or_app; auto|exact E].
      * intros (u & Hu & E). apply in_app_or in Hu as [Hu|[<-|[]]]; [eauto|].
        apply Hcov. congruence.
    + exists (tools ++ [tool v]). split.
      * apply group_append_absent; [exact Hnew|].
        intros u Hu. apply Hcov. eauto.
      * split.
        -- apply List.NoDup_app; [exact Hnd|repeat constructor; intros []|].
           intros t Ht [<-|[]]. contradiction.
        -- intros t. rewrite in_app_iff, Hcov. cbn. split.
           ++ intros [(u & Hu & E)|[<-|[]]].
              ** exists u. split; [apply in_or_app; auto|exact E].
              ** exists v. split; [apply in_or_app; cbn; auto|reflexivity].
           ++ intros (u & Hu & E). apply in_app_or in Hu as [Hu|[<-|[]]]; eauto.
Qed.

Lemma list_sum_cons a l : list_sum (a :: l) = (a + list_sum l)%nat.
Proof. reflexivity. Qed.

Lemma tool_count_one tools t :
  List.NoDup tools -> In t tools ->
  list_sum (List.map (fun t' => if String.eqb t' t then 1 else 0)%nat tools) = 1%nat.
Proof.
  induction tools as [|t' tools IH]; intros Hnd Hin; [destruct Hin|].
  apply List.NoDup_cons_iff in Hnd as [Ht Hnd]. cbn [List.map]. rewrite list_sum_cons.
  destruct (String.eqb_spec t' t) as [->|Hne].
  - assert (H0 : list_sum (List.map (fun t' => if String.eqb t' t then 1 else 0)%nat tools) = 0%nat).
    { clear IH Hin Hnd. induction tools as [|u tools IH]; [reflexivity|].
      cbn [List.map]. rewrite list_sum_cons.
      destruct (String.eqb_spec u t) as [->|_].
      - exfalso. apply Ht. left. reflexivity.
      - apply IH. intros H. apply Ht. right. exact H. }
    rewrite H0. reflexivity.
  - destruct Hin as [E|Hin]; [contradiction|]. rewrite (IH Hnd Hin). reflexivity.
Qed.

Lemma group_sizes_add_up tools vs :
  List.NoDup tools -> (forall v, In v vs -> In (tool v) tools) ->
  list_sum (List.map (fun t => List.length (of_tool vs t)) tools) = List.length vs.
Proof.
  intros Hnd. induction vs as [|v vs IH]; intros Hcov.
  - clear. induction tools as [|t tools IHt]; [reflexivity|].
    cbn [List.map]. rewrite list_sum_cons, IHt. reflexivity.
  - assert (Hsplit : forall ts,
      list_sum (List.map (fun t => List.length (of_tool (v :: vs) t)) ts)
      = (list_sum (List.map (fun t' => if String.eqb t' (tool v) then 1 else 0)%nat ts)
         + list_sum (List.map (fun t => List.length (of_tool vs t)) ts))%nat).
    { induction ts as [|t ts IHt]; [reflexivity|].
      cbn [List.map]. rewrite !list_sum_cons, IHt. unfold of_tool at 1 3.
      cbn [List.filter]. destruct (String.eqb t (tool v)); cbn [List.length]; lia. }
    rewrite Hsplit, (tool_count_one tools (tool v) Hnd) by (apply Hcov; left; reflexivity).
    rewrite IH by (intros u Hu; apply Hcov; right; exact Hu). reflexivity.
Qed.

(** X11.  The summary of a failed run has four head lines followed by one
    line for every tool that reported a violation: every such tool once, in
    increasing order of the tool names, with the number of violations of
    that tool; the numbers add up to the number of violations.  The
    diagnostic channel gets the violations as JSON. *)
Theorem format_output_counts_by_tool self :
  violations self <> [] ->
  exists head tools,
    format_output self
    = (join_lines (head ++ List.map (issue_line (violations self)) tools),
       [FDumps (JArr (List.map asdict (violations self)))]) /\
    List.length head = 4%nat /\
    List.NoDup tools /\
    (forall t, In t tools <-> exists v, In v (violations self) /\ tool v = t) /\
    StronglySorted (fun a b => String.ltb a b = true) tools /\
    list_sum (List.map (fun t => List.length (of_tool (violations self) t)) tools)
    = List.length (violations self).
Proof.
  intros Hne. unfold format_output.
  destruct (violations self) as [|v0 vs0] eqn:Hvs; [contradiction|].
  rewrite <- Hvs. clear Hne.
  destruct (by_tool_groups (violations self)) as (tools & Hfold & Hnd & Hcov).
  rewrite Hfold.
  rewrite (sort_by_map String.ltb fst (fun t => (t, of_tool (violations self) t))).
  cbn [fst]. rewrite List.map_map.
  pose proof (sort_by_ltb_perm (fun t : string => t) tools) as Hperm.
  eexists _, (sort_by String.ltb (fun t => t) tools).
  split; [reflexivity|]. split; [reflexivity|].
  split; [eapply Permutation.Permutation_NoDup; [symmetry; exact Hperm|exact Hnd]|].
  split.
  { intros t. rewrite <- Hcov. split; apply Permutation_in;
      [exact Hperm|symmetry; exact Hperm]. }
  split.
  { apply (sort_by_ltb_sorted (fun t : string => t)). rewrite List.map_id. exact Hnd. }
  apply group_sizes_add_up.
  - eapply Permutation.Permutation_NoDup; [symmetry; exact Hperm|exact Hnd].
  - intros v Hv. eapply Permutation_in; [symmetry; exact Hperm|].
    apply Hcov. eauto.
Qed.

Lemma Forall2_flat_map_concat {A B C} (R : B -> C -> Prop) (f : A -> list B)
      (xs : list A) (yss : list (list C)) :
  Forall2 (fun x ys => Forall2 R (f x) ys) xs yss ->
  Forall2 R (List.flat_map f xs) (List.concat yss).
Proof.
  induction 1; cbn; [constructor|]. apply Forall2_app; assumption.
Qed.

Lemma eslint_violation_severity file_path file_result m v :
  eslint_violation file_path file_result m = Ok v ->
  tool v = "eslint" /\
  severity v = (if eslint_is_error m then "ERROR" else "WARNING").
Proof.
  unfold eslint_violation. intros H. repeat bind_inv H. injection H as <-. cbn.
  split; [reflexivity|]. unfold eslint_is_error.
  destruct m as [| | | | | |fields]; try discriminate.
  cbn in E4. destruct (assoc "severity" fields) as [sev|].
  - injection E4 as <-. reflexivity.
  - injection E4 as <-. reflexivity.
Qed.

(** X7.  The violations parsed from ESLint's output are, in order, one for
    every message of every file result; each has tool [eslint], and severity
    [ERROR] exactly when the [severity] of the message is the number 2, and
    [WARNING] otherwise, in particular when the message has no [severity]. *)
Theorem eslint_severity_from_number json_loads file_path stdout vs :
  parse_eslint_output json_loads file_path stdout = Ok vs ->
  exists file_results,
    ((vs = [] /\ file_results = []) \/
     (exists doc, json_loads stdout = Some doc /\ py_iter doc = Ok file_results)) /\
    Forall2 (fun m v =>
               tool v = "eslint" /\
               (severity v = "ERROR" <-> eslint_is_error m = true) /\
               (severity v = "WARNING" <-> eslint_is_error m = false))
            (List.flat_map messages_of file_results) vs.
Proof.
  unfold parse_eslint_output. intros H.
  destruct (truthy (JStr stdout)).
  2:{ injection H as <-. exists []. split; [auto|constructor]. }
  destruct (json_loads stdout) as [doc|] eqn:Hdoc.
  2:{ injection H as <-. exists []. split; [auto|constructor]. }
  bind_inv H. bind_inv H. injection H as <-.
  exists a. split; [right; eauto|].
  apply Forall2_flat_map_concat. apply rmap_Forall2 in E0.
  eapply Forall2_impl; [exact E0|].
  intros file_result ys Hy. unfold eslint_file_result in Hy.
  bind_inv Hy. bind_inv Hy. unfold messages_of. rewrite E1, E2.
  apply rmap_Forall2 in Hy. eapply Forall2_impl; [exact Hy|].
  intros m v Hv. apply eslint_violation_severity in Hv as [Ht Hs].
  split; [exact Ht|]. rewrite Hs.
  destruct (eslint_is_error m); split; split; congruence.
Qed.

Lemma flat_map_length_le {A B} (f : A -> list B) (p : A -> bool) (xs : list A) :
  (forall x, (List.length (f x) <= if p x then 1 else 0)%nat) ->
  (List.length (List.flat_map f xs) <= List.length (List.filter p xs))%nat.
Proof.
  intros H. induction xs as [|x xs IH]; cbn; [lia|].
  rewrite length_app. specialize (H x). destruct (p x); cbn; lia.
Qed.

(** X10.  The two parsers of plain text yield at most one violation for
    every line of the output that contains [error:] (mypy) or [error TS]
    (tsc), and none for any other line.  All of them have severity [ERROR];
    those of mypy carry the path that was checked. *)
Theorem text_parsers_read_error_lines file_path stdout :
  Forall (fun v => file v = JStr file_path /\ severity v = "ERROR" /\ tool v = "mypy")
         (parse_mypy_output file_path stdout) /\
  (List.length (parse_mypy_output file_path stdout)
   <= List.length (List.filter (contains "error:")
                               (split_on "010" (str_strip stdout))))%nat /\
  Forall (fun v => severity v = "ERROR" /\ tool v = "tsc") (parse_tsc_output stdout) /\
  (List.length (parse_tsc_output stdout)
   <= List.length (List.filter (contains "error TS")
                               (split_on "010" (str_strip stdout))))%nat.
Proof.
  split; [apply GateRunFacts.Forall_flat_map, GateRunFacts.mypy_line_labelled|].
  split.
  { apply flat_map_length_le. intros l. unfold mypy_line.
    destruct (contains ":" l); cbn [andb]; [|cbn; lia].
    destruct (contains "error:" l); [|cbn; lia].
    GateRunFacts.break_match; cbn; lia. }
  split; [apply GateRunFacts.Forall_flat_map, GateRunFacts.tsc_line_labelled|].
  apply flat_map_length_le. intros l. unfold tsc_line.
  destruct (contains "(" l); cbn [andb]; [|cbn; lia].
  destruct (contains ")" l); cbn [andb]; [|cbn; lia].
  destruct (contains "error TS" l); [|cbn; lia].
  GateRunFacts.break_match; cbn; lia.
Qed.

Lemma format_output_counts_by_tool_witness :
  exists tools,
    List.NoDup tools /\
    list_sum (List.map (fun t => List.length (of_tool stale_violations t)) tools)
    = 2%nat.
Proof.
  destruct (format_output_counts_by_tool {| violations := stale_violations |})
    as (head & tools & _ & _ & Hnd & _ & _ & Hsum).
  - discriminate.
  - exists tools. split; [exact Hnd|exact Hsum].
Defined.

Lemma eslint_severity_from_number_witness :
  exists v1 v2,
    parse_eslint_output eslint_loads "web/app.ts" eslint_text = Ok [v1; v2] /\
    severity v1 = "ERROR" /\ severity v2 = "WARNING".
Proof.
  destruct (parse_eslint_output eslint_loads "web/app.ts" eslint_text) as [vs|e] eqn:Hp;
    [|vm_compute in Hp; discriminate Hp].
  destruct (eslint_severity_from_number eslint_loads "web/app.ts" eslint_text vs Hp)
    as (file_results & [(-> & ->) | (doc & Hdoc & Hitems)] & Hall).
  - vm_compute in Hp. discriminate Hp.
  - vm_compute in Hdoc. injection Hdoc as <-.
    cbn in Hitems. injection Hitems as <-.
    cbn in Hall.
    inversion Hall as [|? v1 ? vs1 (_ & H1 & _) Hrest]; subst.
    inversion Hrest as [|? v2 ? vs2 (_ & _ & H2) Hnil]; subst.
    inversion Hnil; subst.
    exists v1, v2. split; [reflexivity|]. split; [apply H1|apply H2]; reflexivity.
Defined.

End SummaryFacts.

(** * The single-tool Python gate: properties *)
Module PythonCoreFacts.
Import PythonCore PythonCoreTerms.

Section Gate.
Variable json_loads : string -> option json.
Variable subprocess_run : list string -> result CompletedProcess.
Variable exn_str : exn -> string.

(** X20.  When the request names no file, or a file whose name does not end
    in [.py], or a file that does not exist under the project root (the path
    [Path(CLAUDE_PROJECT_DIR) / file_path], where the root is the working
    directory when the variable is unset or empty and an absolute
    [file_path] replaces the root), [get_file_path] returns nothing and the
    process ends with exit code 0 and no output, whatever running a tool
    would yield. *)
Theorem target_that_is_not_python_exits_0 getenv fs stdin data tool_input v :
  json_loads stdin = Some data ->
  dict_get data "tool_input" (JObj []) = Ok tool_input ->
  dict_get tool_input "file_path" JNull = Ok v ->
  truthy v = false \/
  (exists s, v = JStr s /\
             (endswith s ".py" = false \/
              fs (path_join (PROJECT_ROOT getenv) s) = None)) ->
  get_file_path getenv fs data = Ok None /\
  main json_loads getenv fs subprocess_run exn_str stdin
  = {| exit_code := 0; stdout := []; stderr := [] |}.
Proof.
  intros Hs Ht Hv Hcase.
  assert (Hnone : get_file_path getenv fs data = Ok None).
  { unfold get_file_path. rewrite Ht. cbn [mbind result_bind rbind]. rewrite Hv.
    cbn [mbind result_bind rbind].
    destruct Hcase as [-> | (s & -> & Hcase)]; [reflexivity|].
    destruct (truthy (JStr s)); [|reflexivity]. cbn [negb].
    destruct Hcase as [-> | Hfs]; [reflexivity|].
    destruct (endswith s ".py"); [|reflexivity]. cbn [negb]. rewrite Hfs. reflexivity. }
  split; [exact Hnone|].
  unfold main, read_stdin_json. rewrite Hs. cbn [mbind result_bind rbind].
  rewrite Hnone. reflexivity.
Qed.

Lemma run_quality_checks_cases file_path lint :
  check_ruff_linting json_loads subprocess_run exn_str file_path = Ok lint ->
  (lint = [] /\ check_ruff_formatting subprocess_run exn_str file_path = None /\
   check_mypy_types subprocess_run exn_str file_path = [] /\
   run_quality_checks json_loads subprocess_run exn_str file_path
   = Ok {| exit_code := 0; stdout := []; stderr := [] |}) \/
  (~ (lint = [] /\ check_ruff_formatting subprocess_run exn_str file_path = None /\
      check_mypy_types subprocess_run exn_str file_path = []) /\
   exists rest,
     run_quality_checks json_loads subprocess_run exn_str file_path
     = Ok {| exit_code := 2; stdout := [];
             stderr := [Txt "CODE_QUALITY_FAILURE: The Python file '" :: rest] |}).
Proof.
  intros Hlint. unfold run_quality_checks. rewrite Hlint.
  cbn [mbind result_bind rbind].
  destruct lint as [|l lint];
    destruct (check_ruff_formatting subprocess_run exn_str file_path) as [f|];
    destruct (check_mypy_types subprocess_run exn_str file_path) as [|t types];
    try (left; repeat split; reflexivity);
    right; (split; [intros (H1 & H2 & H3); discriminate|]);
    cbn [app]; unfold fail; eexists; reflexivity.
Qed.

(** X21.  When the lint check returns, [run_quality_checks] ends with exit
    code 0 or 2 and prints nothing on standard output; the code is 0 exactly
    when the lint check, the format check and the type check all report
    nothing, and then the diagnostic channel stays empty; with code 2 the
    diagnostic channel gets one message, which begins with
    [CODE_QUALITY_FAILURE]. *)
Theorem gate_passes_iff_every_check_is_clean file_path lint :
  check_ruff_linting json_loads subprocess_run exn_str file_path = Ok lint ->
  exists proc,
    run_quality_checks json_loads subprocess_run exn_str file_path = Ok proc /\
    (exit_code proc = 0%Z \/ exit_code proc = 2%Z) /\
    (exit_code proc = 0%Z <->
     lint = [] /\
     check_ruff_formatting subprocess_run exn_str file_path = None /\
     check_mypy_types subprocess_run exn_str file_path = []) /\
    stdout proc = [] /\
    (exit_code proc = 0%Z -> stderr proc = []) /\
    (exit_code proc = 2%Z ->
     exists rest,
       stderr proc = [Txt "CODE_QUALITY_FAILURE: The Python file '" :: rest]).
Proof.
  intros Hlint.
  destruct (run_quality_checks_cases file_path lint Hlint)
    as [(H1 & H2 & H3 & Hrun) | (Hnot & rest & Hrun)]; rewrite Hrun; eexists;
    (split; [reflexivity|]); cbn [exit_code stdout stderr].
  - split; [auto|]. split; [tauto|]. split; [reflexivity|].
    split; [reflexivity|discriminate].
  - split; [auto|]. split; [split; [discriminate|tauto]|]. split; [reflexivity|].
    split; [discriminate|]. intros _. exists rest. reflexivity.
Qed.

(** X22.  When no tool can be started (every run times out, or every
    executable is missing), the lint check reports nothing, the format check
    reports an unformatted file and the type check reports a failed mypy run
    with exit code 1: the edit is blocked with exit code 2. *)
Theorem unavailable_tools_block file_path e :
  e = TimeoutExpired \/ e = FileNotFoundError ->
  (forall cmd, subprocess_run cmd = Raise e) ->
  check_ruff_linting json_loads subprocess_run exn_str file_path = Ok [] /\
  check_ruff_formatting subprocess_run exn_str file_path
  = Some [Txt "  File is not formatted correctly. Run 'ruff format <file>' to fix."] /\
  check_mypy_types subprocess_run exn_str file_path
  = [[Txt "  mypy check failed (exit code "; FInt 1; Txt ")"]] /\
  exists proc,
    run_quality_checks json_loads subprocess_run exn_str file_path = Ok proc /\
    exit_code proc = 2%Z.
Proof.
  intros He Hrun.
  assert (Hlint : check_ruff_linting json_loads subprocess_run exn_str file_path = Ok []).
  { unfold check_ruff_linting, run_command. rewrite Hrun.
    destruct He as [-> | ->]; reflexivity. }
  assert (Hfmt : check_ruff_formatting subprocess_run exn_str file_path
    = Some [Txt "  File is not formatted correctly. Run 'ruff format <file>' to fix."]).
  { unfold check_ruff_formatting, run_command. rewrite Hrun.
    destruct He as [-> | ->]; reflexivity. }
  assert (Hmypy : check_mypy_types subprocess_run exn_str file_path
    = [[Txt "  mypy check failed (exit code "; FInt 1; Txt ")"]]).
  { unfold check_mypy_types, run_command. rewrite Hrun.
    destruct He as [-> | ->]; reflexivity. }
  split; [exact Hlint|]. split; [exact Hfmt|]. split; [exact Hmypy|].
  destruct (run_quality_checks_cases file_path [] Hlint)
    as [(_ & H2 & _) | (_ & rest & Hq)]; [congruence|].
  eexists. split; [exact Hq|reflexivity].
Qed.

(** X23.  A mypy run that exits with 0 yields no message, whatever it wrote.
    A run that exits with another code always yields at least one message,
    each indented by two spaces, and the process ends with exit code 2
    whenever the lint check returns. *)
Theorem mypy_failure_is_never_silent file_path result :
  subprocess_run (MYPY_CMD ++ [file_path]) = Ok result ->
  (returncode result = 0%Z ->
   check_mypy_types subprocess_run exn_str file_path = []) /\
  (returncode result <> 0%Z ->
   check_mypy_types subprocess_run exn_str file_path <> [] /\
   Forall (fun t => exists s rest, t = Txt s :: rest /\ startswith s "  " = true)
          (check_mypy_types subprocess_run exn_str file_path) /\
   forall lint,
     check_ruff_linting json_loads subprocess_run exn_str file_path = Ok lint ->
     exists proc,
       run_quality_checks json_loads subprocess_run exn_str file_path = Ok proc /\
       exit_code proc = 2%Z).
Proof.
  intros Hrun. split.
  - intros Hrc. unfold check_mypy_types, run_command. rewrite Hrun, Hrc. reflexivity.
  - intros Hrc.
    assert (Hne : check_mypy_types subprocess_run exn_str file_path <> [] /\
                  Forall (fun t => exists s rest, t = Txt s :: rest /\ startswith s "  " = true)
                         (check_mypy_types subprocess_run exn_str file_path)).
    { unfold check_mypy_types, run_command. rewrite Hrun.
      destruct (Z.eqb_spec (returncode result) 0) as [|_]; [contradiction|].
      cbn [negb].
      match goal with
      | |- context [List.map ?f ?l] => destruct (List.map f l) as [|t ts] eqn:Hm
      end.
      - split; [discriminate|]. repeat constructor. eexists _, _. split; reflexivity.
      - split; [discriminate|]. rewrite <- Hm. apply List.Forall_forall.
        intros t' Hin. apply List.in_map_iff in Hin as (l & <- & _).
        eexists _, _. split; reflexivity. }
    destruct Hne as [Hne Hall]. split; [exact Hne|]. split; [exact Hall|].
    intros lint Hlint.
    destruct (run_quality_checks_cases file_path lint Hlint)
      as [(_ & _ & H3 & _) | (_ & rest & Hq)]; [contradiction|].
    eexists. split; [exact Hq|reflexivity].
Qed.

(** X24.  A ruff lint run that exits with 0 yields no message, whatever it
    wrote.  When it exits with another code and its output decodes to an
    array, the messages returned are the lines of the findings, one for each
    finding, in order. *)
Theorem ruff_findings_need_a_failing_exit file_path result :
  subprocess_run (RUFF_CHECK_CMD ++ [file_path]) = Ok result ->
  (returncode result = 0%Z ->
   check_ruff_linting json_loads subprocess_run exn_str file_path = Ok []) /\
  (forall items lines,
     returncode result <> 0%Z ->
     proc_stdout result <> "" ->
     json_loads (proc_stdout result) = Some (JArr items) ->
     check_ruff_linting json_loads subprocess_run exn_str file_path = Ok lines ->
     Forall2 (fun item line => finding_line item = Ok line) items lines).
Proof.
  intros Hrun. split.
  - intros Hrc. unfold check_ruff_linting, run_command. rewrite Hrun, Hrc. reflexivity.
  - intros items lines Hrc Hout Hdoc. unfold check_ruff_linting, run_command.
    rewrite Hrun. destruct (Z.eqb_spec (returncode result) 0) as [|_]; [contradiction|].
    rewrite (str_truthy _ Hout), Hdoc. cbn [negb andb].
    destruct items as [|item items]; cbn [truthy].
    + intros [= <-]. constructor.
    + cbn [py_iter mbind result_bind rbind]. apply rmap_Forall2.
Qed.

End Gate.

(** ** Concrete runs *)

(** An empty [CLAUDE_PROJECT_DIR] is the working directory: the file is
    found there and checked. *)
Example empty_project_dir_example :
  PROJECT_ROOT empty_project_dir = "." /\
  get_file_path empty_project_dir core_fs
    (JObj [("tool_input", JObj [("file_path", JStr "app.py")])]) = Ok (Some "app.py") /\
  exit_code (main core_loads empty_project_dir core_fs nothing_installed no_text
               app_request) = 2%Z /\
  exit_code (main core_loads no_env core_fs nothing_installed no_text
               app_request) = 2%Z.
Proof. repeat split; reflexivity. Qed.

Lemma target_that_is_not_python_exits_0_witness :
  main core_loads no_env core_fs nothing_installed no_text readme_request
  = {| exit_code := 0; stdout := []; stderr := [] |}.
Proof.
  apply (target_that_is_not_python_exits_0 core_loads nothing_installed no_text
           no_env core_fs readme_request
           (JObj [("tool_input", JObj [("file_path", JStr "README.md")])])
           (JObj [("file_path", JStr "README.md")]) (JStr "README.md")).
  - reflexivity.
  - reflexivity.
  - reflexivity.
  - right. exists "README.md". split; [reflexivity|]. left. reflexivity.
Defined.

Lemma gate_passes_iff_every_check_is_clean_witness :
  exists proc,
    run_quality_checks core_loads all_clean no_text "app.py" = Ok proc /\
    exit_code proc = 0%Z.
Proof.
  destruct (gate_passes_iff_every_check_is_clean core_loads all_clean no_text
              "app.py" [] eq_refl) as (proc & Hrun & _ & Hiff & _).
  exists proc. split; [exact Hrun|]. apply Hiff. repeat split; reflexivity.
Defined.

Lemma unavailable_tools_block_witness :
  exists proc,
    run_quality_checks core_loads nothing_installed no_text "app.py" = Ok proc /\
    exit_code proc = 2%Z.
Proof.
  apply (unavailable_tools_block core_loads nothing_installed no_text "app.py"
           FileNotFoundError).
  - right. reflexivity.
  - reflexivity.
Defined.

Lemma mypy_failure_is_never_silent_witness :
  check_mypy_types mypy_complains no_text "app.py" <> [].
Proof.
  apply (mypy_failure_is_never_silent core_loads mypy_complains no_text "app.py"
           (finished 1 "app.py:3: error: Name 'y' is not defined")).
  - reflexivity.
  - discriminate.
Defined.

Lemma ruff_findings_need_a_failing_exit_witness :
  exists line,
    check_ruff_linting core_loads ruff_complains no_text "app.py" = Ok [line] /\
    finding_line (JObj [ ("code", JStr "F401");
                         ("message", JStr "os imported but unused");
                         ("location", JObj [("row", JInt 1); ("column", JInt 8)]) ])
    = Ok line.
Proof.
  destruct (check_ruff_linting core_loads ruff_complains no_text "app.py")
    as [lines|e] eqn:Hlint; [|vm_compute in Hlint; discriminate Hlint].
  pose proof (proj2 (ruff_findings_need_a_failing_exit core_loads ruff_complains
                       no_text "app.py" (finished 1 app_findings) eq_refl)
                _ lines ltac:(discriminate) ltac:(discriminate) eq_refl Hlint) as Hall.
  inversion Hall as [|? line ? rest Hline Hrest]; subst.
  inversion Hrest; subst. exists line. split; [reflexivity|exact Hline].
Defined.

End PythonCoreFacts.
